(** * Crypton: content ingestion and vector synchronisation pipeline

    A shallow embedding of the Python sources (extractor.py, sites_rss.py,
    gnews_rss.py, db_func.py, article_processer.py, django_config.py and
    vector_db.py) together with the properties checked against them.

    Conventions.
    - A Python [str] is a Rocq [string]; each character stands for one code
      point below 256.
    - A Django table is the list of its rows in primary-key order; the
      [auto_now] / [auto_now_add] timestamp columns are left out.
    - Network, browser, file-system and third-party library calls are
      fields of an environment record: the functions below are total in
      those fields, an exception raised by a call being one of its possible
      values. *)

From Stdlib Require Import Ascii Lia Sorted.
From stdpp Require Import base strings list gmap pretty.

Set Default Proof Using "Type".
Set Warnings "-abstract-large-number".

(** ** Python built-ins used by the sources *)

Module Py.

(** [str.isspace] on code points below 256. *)
Definition isspace (c : ascii) : bool :=
let n := nat_of_ascii c in
((9 <=? n) && (n <=? 13)) || ((28 <=? n) && (n <=? 32)) || (n =? 133) || (n =? 160).

(** [s.lstrip()], [s.rstrip()] and [s.strip()]. *)
Fixpoint lstrip (s : string) : string :=
match s with
| EmptyString => EmptyString
| String c s' => if isspace c then lstrip s' else s
end.

Definition rstrip (s : string) : string := String.rev (lstrip (String.rev s)).

Definition strip (s : string) : string := rstrip (lstrip s).

(** [s.split()]: the maximal runs of non-space characters, in order.  The
    word being read is kept reversed in [cur]. *)
Fixpoint split_go (cur : option string) (s : string) : list string :=
match s with
| EmptyString =>
    match cur with Some w => [String.rev w] | None => [] end
| String c s' =>
    if isspace c
    then match cur with
         | Some w => String.rev w :: split_go None s'
         | None => split_go None s'
         end
    else split_go (Some (String c (default EmptyString cur))) s'
end.

Definition split (s : string) : list string := split_go None s.

(** [sep.join(ws)]. *)
Fixpoint join (sep : string) (ws : list string) : string :=
match ws with
| [] => EmptyString
| [w] => w
| w :: ws' => w +:+ sep +:+ join sep ws'
end.

(** [s[:n]]. *)
Fixpoint str_take (n : nat) (s : string) : string :=
match n, s with
| S n', String c s' => String c (str_take n' s')
| _, _ => EmptyString
end.

(** [l[i:j]] for [0 <= i <= j]. *)
Definition slice {A} (i j : nat) (l : list A) : list A := take (j - i) (drop i l).

(** [c.lower()] on code points below 256. *)
Definition lower_char (c : ascii) : ascii :=
let n := nat_of_ascii c in
if ((65 <=? n) && (n <=? 90)) || ((192 <=? n) && (n <=? 222) && negb (n =? 215))
then ascii_of_nat (n + 32) else c.

Fixpoint lower (s : string) : string :=
match s with
| EmptyString => EmptyString
| String c s' => String (lower_char c) (lower s')
end.

(** [s.startswith(prefix)] and [needle in hay]. *)
Fixpoint startswith (prefix s : string) : bool :=
match prefix, s with
| EmptyString, _ => true
| String a prefix', String b s' => bool_decide (a = b) && startswith prefix' s'
| String _ _, EmptyString => false
end.

Fixpoint contains (needle hay : string) : bool :=
startswith needle hay ||
match hay with
| EmptyString => false
| String _ hay' => contains needle hay'
end.

(** Truth value of a [str] and of an optional [str]. *)
Definition truthy (s : string) : bool := negb (String.eqb s EmptyString).

Definition truthy_opt (o : option string) : bool :=
match o with Some s => truthy s | None => false end.

(** [range(0, stop, step)]; [None] is the [ValueError] of a zero step.  The
    loop counter advances by [step >= 1], so [stop] iterations suffice. *)
Fixpoint range_go (fuel i stop step : nat) : list nat :=
match fuel with
| O => []
| S fuel' => if i <? stop then i :: range_go fuel' (i + step) stop step else []
end.

Definition range (stop step : nat) : option (list nat) :=
if step =? 0 then None else Some (range_go stop 0 stop step).

(** [range(0, stop, step)] for any [int] step: a negative step gives the
    empty range. *)
Definition range_int (stop : nat) (step : Z) : option (list nat) :=
if (step =? 0)%Z then None
else if (step <? 0)%Z then Some []
else range stop (Z.to_nat step).

(** [str(e)] for the [ZeroDivisionError] of [n % 0] (the text of
    CPython 3.11). *)
Definition modulo_by_zero : string := "integer modulo by zero".

(** [str(n)] for a non-negative [int]. *)
Definition str_of_nat (n : nat) : string := pretty n.

(** [s[n:]]. *)
Fixpoint str_drop (n : nat) (s : string) : string :=
match n, s with
| S n', String _ s' => str_drop n' s'
| _, _ => s
end.

(** [s.split(sep, 1)[1]] for a non-empty [sep]: what follows the first
    occurrence of [sep], [None] when [sep not in s]. *)
Fixpoint after_first (sep s : string) : option string :=
if startswith sep s then Some (str_drop (String.length sep) s)
else match s with
     | EmptyString => None
     | String _ s' => after_first sep s'
     end.

(** [s.rstrip(c)] for a one-character [c]. *)
Fixpoint lstrip_char (c : ascii) (s : string) : string :=
match s with
| EmptyString => EmptyString
| String c' s' => if bool_decide (c' = c) then lstrip_char c s' else s
end.

Definition rstrip_char (c : ascii) (s : string) : string :=
String.rev (lstrip_char c (String.rev s)).

End Py.

(** ** extractor.py: the extraction fallback chain *)

Module Extractor.

Inductive strategy := Newspaper3k | Trafilatura | Readability | Playwright | Jina.

Global Instance strategy_eq_dec : EqDecision strategy.
Proof. solve_decision. Defined.

(** What a third-party extraction call produced: an exception, [None], or
    a text. *)
Inductive fetched :=
| Raised (exc : string)
| NoText
| Text (t : string).

(** The web as seen by the five extractors. *)
Record web := {
  newspaper_text : string → fetched;
  trafilatura_extract : string → fetched;
  readability_text : string → fetched;
  playwright_extract : string → fetched;
  jina_api_key : bool;
  jina_post : string → option (bool * fetched);
  extraction_method_for_site : string → string
}.

Definition MIN_CONTENT_LENGTH : nat := 100.

(** The test every extractor applies to its text:
    [len(text.strip()) > 100]. *)
Definition long_enough (t : string) : bool :=
MIN_CONTENT_LENGTH <? String.length (Py.strip t).

Definition extract_with_newspaper (w : web) (url : string) : option string :=
match newspaper_text w url with
| Text t => if long_enough t then Some t else None
| NoText => None
| Raised _ => None
end.

Definition extract_with_trafilatura (w : web) (url : string) : option string :=
match trafilatura_extract w url with
| Text t => if Py.truthy t && long_enough t then Some t else None
| NoText => None
| Raised _ => None
end.

Definition extract_with_readability (w : web) (url : string) : option string :=
match readability_text w url with
| Text t => if long_enough t then Some t else None
| NoText => None
| Raised _ => None
end.

Definition extract_with_playwright (w : web) (url : string) : option string :=
match playwright_extract w url with
| Text t => if Py.truthy t && long_enough t then Some t else None
| NoText => None
| Raised _ => None
end.

Definition extract_with_jina (w : web) (url : string) : option string :=
if jina_api_key w
then match jina_post w url with
     | Some (ok, Text t) => if ok && Py.truthy t && long_enough t then Some t else None
     | Some (_, NoText) => None
     | Some (_, Raised _) => None
     | None => None
     end
else None.

(** The [methods] dictionary, in insertion order. *)
Definition methods : list (string * strategy) :=
[("newspaper3k", Newspaper3k); ("trafilatura", Trafilatura);
 ("readability", Readability); ("playwright", Playwright); ("jina", Jina)].

Definition run_strategy (w : web) (s : strategy) (url : string) : option string :=
match s with
| Newspaper3k => extract_with_newspaper w url
| Trafilatura => extract_with_trafilatura w url
| Readability => extract_with_readability w url
| Playwright => extract_with_playwright w url
| Jina => extract_with_jina w url
end.

(** The [for method_name, method_func in methods.items()] loop.  The second
    component lists the strategies that were invoked, in order. *)
Fixpoint try_methods (w : web) (url : string) (ms : list (string * strategy))
  : option string * list strategy :=
match ms with
| [] => (None, [])
| (_, s) :: rest =>
    let result := run_strategy w s url in
    if Py.truthy_opt result then (result, [s])
    else let '(r, invoked) := try_methods w url rest in (r, s :: invoked)
end.

Fixpoint methods_get (name : string) (ms : list (string * strategy)) : option strategy :=
match ms with
| [] => None
| (k, s) :: rest => if String.eqb k name then Some s else methods_get name rest
end.

(** [get_article_content(url, method)]; [method=None] is resolved through
    [get_extraction_method_for_site]. *)
Definition get_article_content (w : web) (url : string) (method : option string)
  : option string * list strategy :=
let method := match method with Some m => m | None => extraction_method_for_site w url end in
if negb (String.eqb (Py.lower method) "all")
then match methods_get (Py.lower method) methods with
     | None => (None, [])
     | Some s => (run_strategy w s url, [s])
     end
else try_methods w url methods.

(** The strategies in priority order. *)
Definition priority : list strategy := methods.*2.

(** What [get_extraction_method_for_site] reads from config.yaml: the
    [extractor_mapping] dictionary in file order and
    [default_extractor_method] ([None]: key absent).  A configuration that
    cannot be loaded is the empty one. *)
Record site_config := {
  extractor_mapping : list (string * list string);
  default_extractor_method : option string
}.

(** [site.lower() in domain or domain in site.lower()] *)
Definition site_matches (domain site : string) : bool :=
Py.contains (Py.lower site) domain || Py.contains domain (Py.lower site).

Fixpoint mapping_lookup (domain : string) (mapping : list (string * list string))
  : option string :=
match mapping with
| [] => None
| (method, sites) :: rest =>
    if existsb (site_matches domain) sites then Some method
    else mapping_lookup domain rest
end.

(** [get_extraction_method_for_site]; [netloc] is [urlparse(url).netloc],
    [None] when [urlparse] raises. *)
Definition get_extraction_method_for_site (cfg : site_config)
  (netloc : string → option string) (url : string) : string :=
match netloc url with
| None => "all"
| Some host =>
    let domain := Py.lower host in
    let domain := if Py.startswith "www." domain then Py.str_drop 4 domain else domain in
    match mapping_lookup domain (extractor_mapping cfg) with
    | Some method => method
    | None => default "all" (default_extractor_method cfg)
    end
end.

End Extractor.

(** ** sites_rss.py and gnews_rss.py: feed change detection *)

(** Both modules share the body of [process_rss_feed]; they differ in how
    the document is fetched and how the RSS part is cut out of it. *)
Module FeedHash.

(** How a call of [process_rss_feed] ends: it returns its flag, or an
    exception leaves the function.  The dictionary of hashes is the
    caller's and is only written by the last statement. *)
Inductive outcome :=
| Returns (has_changed : bool)
| Raises.

Section Detector.

(** [fetch] and [rss_of] return [None] for Python's [None].
    [get_output_path] is called outside any [try]: it is [None] when it
    raises ([urlparse] on the url, [mkdir] on the capture directory) and
    the path otherwise.  [save] is the [open(output_path, "w")] /
    [f.write] block on that path, [false] when it raises. *)
Variable fetch : string → option string.
Variable rss_of : string → option string.
Variable calculate_hash : string → string.
Variable get_output_path : string → option string.
Variable save : string → string → bool.

Definition process_rss_feed_body (url : string) (hashes : gmap string string)
  : outcome * gmap string string :=
match fetch url with
| None => (Returns false, hashes)
| Some content =>
    if negb (Py.truthy content) then (Returns false, hashes) else
    match rss_of content with
    | None => (Returns false, hashes)
    | Some rss_content =>
        if negb (Py.truthy rss_content) then (Returns false, hashes) else
        let content_hash := calculate_hash rss_content in
        let previous_hash := hashes !! url in
        if bool_decide (previous_hash = Some content_hash) then (Returns false, hashes)
        else match get_output_path url with
             | None => (Raises, hashes)
             | Some output_path =>
                 if save output_path rss_content
                 then (Returns true, <[url := content_hash]> hashes)
                 else (Returns false, hashes)
             end
    end
end.

End Detector.

End FeedHash.

Module SitesRss.

(** [soup_find_rss] is [str(rss_tag)] for the [rss] tag BeautifulSoup finds
    in a document, [None] when it finds none. *)
Record net := {
  fetch_rss : string → list string → option string;
  soup_find_rss : string → option string;
  calculate_hash : string → string;
  get_output_path : string → option string;
  write_output : string → string → bool
}.

(** [extract_rss_content]. *)
Definition extract_rss_content (n : net) (html_content : string) : option string :=
if Py.contains "<?xml" html_content || Py.contains "<rss" html_content
then Some html_content
else soup_find_rss n html_content.

Definition process_rss_feed (n : net) (url : string) (hashes : gmap string string)
  (exclude_headers : list string) : FeedHash.outcome * gmap string string :=
FeedHash.process_rss_feed_body
  (λ u, fetch_rss n u exclude_headers) (extract_rss_content n)
  (calculate_hash n) (get_output_path n) (write_output n) url hashes.

End SitesRss.

Module GnewsRss.

Record net := {
  fetch_rss : string → option string;
  parse_and_format_rss : string → option string;
  calculate_hash : string → string;
  get_output_path : string → option string;
  write_output : string → string → bool
}.

Definition process_rss_feed (n : net) (url : string) (hashes : gmap string string)
  : FeedHash.outcome * gmap string string :=
FeedHash.process_rss_feed_body
  (fetch_rss n) (parse_and_format_rss n)
  (calculate_hash n) (get_output_path n) (write_output n) url hashes.

(** [build_gnews_rss_url]; [kwargs] are its keyword arguments in call
    order. *)
Definition build_gnews_rss_url (kwargs : list (string * string)) : string :=
Py.rstrip_char "&"
  (foldl (λ url (kv : string * string), url +:+ kv.1 +:+ "=" +:+ kv.2 +:+ "&")
     "https://news.google.com/rss/search?" kwargs).

End GnewsRss.

(** ** sites_rss.py: fetching a feed document *)

Module SitesFetch.

Inductive fetcher := Requests | Newspaper3k | Trafilatura | JinaApi | Stealthy.

(** An HTTP exchange: it raised, or it returned a status and a body. *)
Inductive response :=
| NoResponse
| Response (status : nat) (text : string).

(** The five ways [fetch_rss] has of getting a document.  [requests_get]
    is told whether the browser headers are sent; [article_html] is
    [article.html] after [article.download()]; [stealthy_fetch] gives
    [page.status] and [str(page)]. *)
Record net := {
  requests_get : string → bool → response;
  article_html : string → Extractor.fetched;
  trafilatura_fetch_url : string → Extractor.fetched;
  jina_post : string → response;
  stealthy_fetch : string → response
}.

(** [fetch_jina_api]. *)
Definition fetch_jina_api (n : net) (url : string) : option string :=
match jina_post n url with
| Response status content =>
    if status =? 200
    then match Py.after_first "Markdown Content:" content with
         | Some rest => Some (Py.strip rest)
         | None => None
         end
    else None
| NoResponse => None
end.

(** [fetch_rss]; the second component lists the fetchers that were
    called, in order. *)
Definition fetch_rss (n : net) (url : string) (exclude_headers : list string)
  : option string * list fetcher :=
let by_requests :=
  match requests_get n url (negb (bool_decide (url ∈ exclude_headers))) with
  | Response status text => if status =? 200 then Some text else None
  | NoResponse => None
  end in
match by_requests with
| Some text => (Some text, [Requests])
| None =>
    let by_newspaper :=
      match article_html n url with
      | Extractor.Text html => if Py.truthy html then Some html else None
      | Extractor.NoText => None
      | Extractor.Raised _ => None
      end in
    match by_newspaper with
    | Some html => (Some html, [Requests; Newspaper3k])
    | None =>
        let by_trafilatura :=
          match trafilatura_fetch_url n url with
          | Extractor.Text downloaded => if Py.truthy downloaded then Some downloaded else None
          | Extractor.NoText => None
          | Extractor.Raised _ => None
          end in
        match by_trafilatura with
        | Some downloaded => (Some downloaded, [Requests; Newspaper3k; Trafilatura])
        | None =>
            let jina_content := fetch_jina_api n url in
            if Py.truthy_opt jina_content
            then (jina_content, [Requests; Newspaper3k; Trafilatura; JinaApi])
            else
              match stealthy_fetch n url with
              | Response status page =>
                  if status =? 200
                  then (Some page, [Requests; Newspaper3k; Trafilatura; JinaApi; Stealthy])
                  else (None, [Requests; Newspaper3k; Trafilatura; JinaApi; Stealthy])
              | NoResponse =>
                  (None, [Requests; Newspaper3k; Trafilatura; JinaApi; Stealthy])
              end
        end
    end
end.

End SitesFetch.

(** ** resolve_url.py *)

Module ResolveUrl.

(** The browser session: [goto] is [page.url] after [page.goto(url)]
    ([None]: launching or loading raised), [reload url k] is [page.url]
    after the [k]-th [page.reload] ([None]: it raised), [netloc] is
    [urlparse(...).netloc] ([None]: [urlparse] raised). *)
Record browser := {
  goto : string → option string;
  reload : string → nat → option string;
  netloc : string → option string
}.

Inductive event :=
| Sleep (seconds : nat)
| Reload.

(** The [for attempt in range(1, 4)] loop.  [inl u]: [u] was returned
    from inside the loop; [inr final_url]: the loop ended, by exhaustion
    or by [break]. *)
Fixpoint reload_loop (b : browser) (url initial_domain final_url : string)
  (attempts : list nat) : (string + string) * list event :=
match attempts with
| [] => (inr final_url, [])
| attempt :: rest =>
    match reload b url attempt with
    | None => (inr final_url, [Sleep (2 ^ attempt); Reload])
    | Some final_url' =>
        match netloc b final_url' with
        | None => (inr final_url', [Sleep (2 ^ attempt); Reload])
        | Some final_domain =>
            if negb (String.eqb final_domain initial_domain)
            then (inl final_url', [Sleep (2 ^ attempt); Reload])
            else let '(r, events) := reload_loop b url initial_domain final_url' rest in
                 (r, Sleep (2 ^ attempt) :: Reload :: events)
        end
    end
end.

(** [get_redirected_url]. *)
Definition get_redirected_url (b : browser) (url : string) : option string * list event :=
match goto b url with
| None => (None, [])
| Some final_url =>
    match netloc b url with
    | None => (None, [])
    | Some initial_domain =>
        match reload_loop b url initial_domain final_url [1; 2; 3] with
        | (inl resolved, events) => (Some resolved, events)
        | (inr final_url', events) =>
            match netloc b final_url' with
            | None => (None, events)
            | Some final_domain =>
                if String.eqb final_domain initial_domain then (None, events)
                else (Some final_url', events)
            end
        end
    end
end.

End ResolveUrl.

(** ** django_config.py: the five tables *)

Module DjangoConfig.

Inductive exn :=
| IntegrityError (msg : string)
| KeyError (key : string)
| TypeError (msg : string)
| ValueError (msg : string)
| OverflowError (msg : string).

(** [type(exc).__name__] and [str(exc)]. *)
Definition exn_name (e : exn) : string :=
match e with
| IntegrityError _ => "IntegrityError"
| KeyError _ => "KeyError"
| TypeError _ => "TypeError"
| ValueError _ => "ValueError"
| OverflowError _ => "OverflowError"
end.

Definition exn_str (e : exn) : string :=
match e with
| IntegrityError m => m
| KeyError k => "'" +:+ k +:+ "'"
| TypeError m => m
| ValueError m => m
| OverflowError m => m
end.

(** RSSFeedArticle: [uuid] and [url] are both declared [unique=True];
    [fetched_at] is declared [auto_now_add=True], so it holds the time of
    the insert, kept here as its [isoformat()] text. *)
Record RSSFeedArticle := {
  rss_uuid : string;
  rss_url : string;
  rss_source_url : string;
  rss_domain : string;
  rss_fetched_at : string
}.

Record ArticleMetadata := {
  md_uuid : string;
  md_url : string;
  md_title : string;
  md_pub_date : option string;
  md_description : string;
  md_content : string;
  md_creator : string;
  md_category : string;
  md_word_count : nat;
  md_language : string
}.

(** FailedArticles: no uniqueness constraint. *)
Record FailedArticles := {
  fa_uuid : string;
  fa_url : string;
  fa_error_type : string;
  fa_error_message : string;
  fa_attempt_count : nat
}.

(** FailedVectorEmbeddings: no uniqueness constraint. *)
Record FailedVectorEmbeddings := {
  fe_article_uuid : string;
  fe_url : string;
  fe_title : string;
  fe_domain : string;
  fe_error_type : string;
  fe_error_message : string;
  fe_chunk_index : nat;
  fe_total_chunks : nat;
  fe_attempt_count : nat
}.

(** The [choices] of the [status] column. *)
Inductive status := Pending | Synced | Failed.

Global Instance status_eq_dec : EqDecision status.
Proof. solve_decision. Defined.

(** VectorDatabaseTracking: [article_uuid] is declared [unique=True];
    [namespace] is an ordinary indexed column. *)
Record VectorDatabaseTracking := {
  vt_article_uuid : string;
  vt_url : string;
  vt_title : string;
  vt_domain : string;
  vt_namespace : string;
  vt_vector_id : string;
  vt_status : status;
  vt_total_chunks : nat;
  vt_synced_chunks : nat;
  vt_error_message : string
}.

Record database := {
  rss_feed_articles : list RSSFeedArticle;
  article_metadata : list ArticleMetadata;
  failed_articles : list FailedArticles;
  failed_vector_embeddings : list FailedVectorEmbeddings;
  vector_database_tracking : list VectorDatabaseTracking
}.

Definition empty_database : database :=
{| rss_feed_articles := []; article_metadata := []; failed_articles := [];
   failed_vector_embeddings := []; vector_database_tracking := [] |}.

(** [queryset.filter(...).first()] and [row.save()] on a table kept in
    primary-key order. *)
Definition first_where {A} (p : A → bool) (rows : list A) : option A :=
List.find p rows.

Fixpoint save_first {A} (p : A → bool) (f : A → A) (rows : list A) : list A :=
match rows with
| [] => []
| r :: rows' => if p r then f r :: rows' else r :: save_first p f rows'
end.

(** [RSSFeedArticle.objects.create(...)]: the two [unique=True] columns. *)
Definition rss_create (d : database) (row : RSSFeedArticle) : exn + database :=
if existsb (λ r, String.eqb (rss_uuid r) (rss_uuid row)) (rss_feed_articles d)
then inl (IntegrityError "UNIQUE constraint failed: rss_feed_articles.uuid")
else if existsb (λ r, String.eqb (rss_url r) (rss_url row)) (rss_feed_articles d)
then inl (IntegrityError "UNIQUE constraint failed: rss_feed_articles.url")
else inr {| rss_feed_articles := rss_feed_articles d ++ [row];
            article_metadata := article_metadata d;
            failed_articles := failed_articles d;
            failed_vector_embeddings := failed_vector_embeddings d;
            vector_database_tracking := vector_database_tracking d |}.

(** [VectorDatabaseTracking.objects.create(...)]: the [unique=True]
    column is [article_uuid] alone. *)
Definition tracking_create (d : database) (row : VectorDatabaseTracking) : exn + database :=
if existsb (λ r, String.eqb (vt_article_uuid r) (vt_article_uuid row))
     (vector_database_tracking d)
then inl (IntegrityError "UNIQUE constraint failed: vector_database_tracking.article_uuid")
else inr {| rss_feed_articles := rss_feed_articles d;
            article_metadata := article_metadata d;
            failed_articles := failed_articles d;
            failed_vector_embeddings := failed_vector_embeddings d;
            vector_database_tracking := vector_database_tracking d ++ [row] |}.

Definition set_article_metadata (d : database) (rows : list ArticleMetadata) : database :=
{| rss_feed_articles := rss_feed_articles d;
   article_metadata := rows;
   failed_articles := failed_articles d;
   failed_vector_embeddings := failed_vector_embeddings d;
   vector_database_tracking := vector_database_tracking d |}.

Definition set_failed_articles (d : database) (rows : list FailedArticles) : database :=
{| rss_feed_articles := rss_feed_articles d;
   article_metadata := article_metadata d;
   failed_articles := rows;
   failed_vector_embeddings := failed_vector_embeddings d;
   vector_database_tracking := vector_database_tracking d |}.

Definition set_failed_vector_embeddings (d : database)
  (rows : list FailedVectorEmbeddings) : database :=
{| rss_feed_articles := rss_feed_articles d;
   article_metadata := article_metadata d;
   failed_articles := failed_articles d;
   failed_vector_embeddings := rows;
   vector_database_tracking := vector_database_tracking d |}.

Definition set_vector_database_tracking (d : database)
  (rows : list VectorDatabaseTracking) : database :=
{| rss_feed_articles := rss_feed_articles d;
   article_metadata := article_metadata d;
   failed_articles := failed_articles d;
   failed_vector_embeddings := failed_vector_embeddings d;
   vector_database_tracking := rows |}.

End DjangoConfig.

(** ** db_func.py *)

Module DbFunc.
Import DjangoConfig.

(** [get_existing_urls]. *)
Definition get_existing_urls (d : database) : gset string :=
list_to_set (rss_url <$> rss_feed_articles d).

(** [log_failed_article(config, article_uuid, article_url, error_type,
    error_message)]. *)
Definition log_failed_article (d : database)
  (article_uuid article_url error_type error_message : string) : database :=
let same r := String.eqb (fa_uuid r) article_uuid in
match first_where same (failed_articles d) with
| Some _ =>
    set_failed_articles d
      (save_first same
         (λ r, {| fa_uuid := fa_uuid r;
                  fa_url := article_url;
                  fa_error_type := error_type;
                  fa_error_message := error_message;
                  fa_attempt_count := fa_attempt_count r + 1 |})
         (failed_articles d))
| None =>
    set_failed_articles d
      (failed_articles d ++
       [{| fa_uuid := article_uuid;
           fa_url := article_url;
           fa_error_type := error_type;
           fa_error_message := error_message;
           fa_attempt_count := 1 |}])
end.

(** A call [log_failed_article(config, *args)] with positional arguments
    only.  The function has four required parameters after [config] and no
    defaults, so any other number of arguments is a [TypeError] raised
    before the body runs. *)
Definition call_log_failed_article (d : database) (args : list string) : exn + database :=
match args with
| [article_uuid; article_url; error_type; error_message] =>
    inr (log_failed_article d article_uuid article_url error_type error_message)
| _ => inl (TypeError "log_failed_article() missing or extra positional arguments")
end.

End DbFunc.

(** ** article_processer.py *)

Module ArticleProcesser.
Import DjangoConfig.

(** The article dictionary handed to [write_article_to_db].  A field of
    type [option] is [None] when the key is missing from the dictionary;
    ["link"] is always set by the callers. *)
Record article := {
  a_link : string;
  a_uuid : option string;
  a_title : option string;
  a_pub_date : option (option string);
  a_description : option string;
  a_content : option string;
  a_creator : option string;
  a_given_category : option string;
  a_source_url : option string;
  a_word_count : option nat
}.

(** Library calls: [urlparse(link).netloc] ([None] when [urlparse] raises
    [ValueError]), langdetect's [detect] ([None] for
    [LangDetectException]), the markup conversion, the date parser and
    the redirect resolver; and what the database backend does on an
    insert: [now uuid] is the clock when the article row of [uuid] is
    inserted, [metadata_insert row] is the exception with which the
    backend refuses a metadata row (a word count beyond 64 bits, a date
    out of range), [None] when it stores the row. *)
Record lib := {
  netloc : string → option string;
  detect : string → option string;
  html_to_markdown : string → string;
  parse_pub_date : string → option string;
  get_redirected_url : string → Extractor.fetched;
  now : string → string;
  metadata_insert : ArticleMetadata → option exn
}.

Inductive log_line :=
| LogInfo (msg : string)
| LogError (msg : string).

(** [detect_language]. *)
Definition detect_language (l : lib) (text : option string) : string :=
match text with
| None => "unknown"
| Some t =>
    if negb (Py.truthy t) || (String.length (Py.strip t) <? 3) then "unknown"
    else match detect l (Py.str_take 500 t) with
         | Some lang => lang
         | None => "unknown"
         end
end.

(** [x or y] on optional strings. *)
Definition py_or (x y : option string) : option string :=
if Py.truthy_opt x then x else y.

(** [ArticleMetadata.objects.create(...)] inside [transaction.atomic()]:
    the keyword arguments are evaluated left to right and ["title"],
    ["pub_date"], ["description"], ["content"] are read with
    [article[...]]; then the row is handed to the backend, which stores
    it or raises. *)
Definition metadata_create (l : lib) (d : database) (a : article)
  (article_uuid language : string) : exn + database :=
match a_title a with
| None => inl (KeyError "title")
| Some title =>
match a_pub_date a with
| None => inl (KeyError "pub_date")
| Some pub_date =>
match a_description a with
| None => inl (KeyError "description")
| Some description =>
match a_content a with
| None => inl (KeyError "content")
| Some content =>
    let row := {| md_uuid := article_uuid;
                  md_url := a_link a;
                  md_title := title;
                  md_pub_date := pub_date;
                  md_description := description;
                  md_content := content;
                  md_creator := default "" (a_creator a);
                  md_category := default "" (a_given_category a);
                  md_word_count := default 0 (a_word_count a);
                  md_language := language |} in
    match metadata_insert l row with
    | Some exc => inl exc
    | None => inr (set_article_metadata d (article_metadata d ++ [row]))
    end
end end end end.

(** [article.get("_uuid") or str(uuid_lib.uuid4())]; [fresh] is the value
    of [str(uuid_lib.uuid4())]. *)
Definition uuid_of (fresh : string) (a : article) : string :=
if Py.truthy_opt (a_uuid a) then default "" (a_uuid a) else fresh.

Record write_result := {
  wr_ok : bool;
  wr_db : database;
  wr_log : list log_line
}.

(** [write_article_to_db].  In the handler of a failed metadata insert the
    source calls [log_failed_article(config, article_uuid,
    type(metadata_exc).__name__, str(metadata_exc))]; whatever that call
    raises, or else the re-raised [metadata_exc], is caught by the outer
    [except Exception]. *)
Definition write_article_to_db (l : lib) (fresh : string) (d : database) (a : article)
  : write_result :=
match netloc l (a_link a) with
| None =>
    {| wr_ok := false; wr_db := d; wr_log := [LogError "Failed to insert article"] |}
| Some domain =>
    let article_uuid := uuid_of fresh a in
    let text_for_lang := py_or (py_or (a_content a) (a_description a)) (a_title a) in
    let detected_language := detect_language l text_for_lang in
    match rss_create d {| rss_uuid := article_uuid;
                          rss_url := a_link a;
                          rss_source_url := default "" (a_source_url a);
                          rss_domain := domain;
                          rss_fetched_at := now l article_uuid |} with
    | inl _ =>
        {| wr_ok := false; wr_db := d;
           wr_log := [LogInfo "Article already exists, skipping insert"] |}
    | inr d1 =>
        match metadata_create l d1 a article_uuid detected_language with
        | inl metadata_exc =>
            match DbFunc.call_log_failed_article d1
                    [article_uuid; exn_name metadata_exc; exn_str metadata_exc] with
            | inl _ =>
                {| wr_ok := false; wr_db := d1;
                   wr_log := [LogError "Failed to insert article"] |}
            | inr d2 =>
                {| wr_ok := false; wr_db := d2;
                   wr_log := [LogError "Failed to insert article"] |}
            end
        | inr d2 =>
            {| wr_ok := true; wr_db := d2; wr_log := [LogInfo "Inserted article"] |}
        end
    end
end.

(** An [<item>] element: the text of each child that
    [process_single_article] looks up ([None]: no such child, or no text),
    and the result of [extract_categories]. *)
Record item := {
  i_title : option string;
  i_link : option string;
  i_pubDate : option string;
  i_creator : option string;
  i_description : option string;
  i_content_encoded : option string;
  i_categories : string
}.

(** [elem.text.strip() if elem is not None and elem.text else ''] *)
Definition text_or_empty (t : option string) : string :=
if Py.truthy_opt t then Py.strip (default "" t) else "".

Record process_result := {
  pr_success : bool;
  pr_status : string;
  pr_db : database;
  pr_existing_urls : gset string
}.

(** [process_single_article]; [uuids] are the values of the successive
    [uuid.uuid4()] calls.  The [except Exception] around
    [get_article_content] has no counterpart: the embedded function is
    total. *)
Definition process_single_article (l : lib) (w : Extractor.web) (uuids : string * string)
  (d : database) (it : item) (source_name : string) (existing_urls : gset string)
  (source_url : string) : process_result :=
let stop ok st d' :=
  {| pr_success := ok; pr_status := st; pr_db := d'; pr_existing_urls := existing_urls |} in
let title := text_or_empty (i_title it) in
let link := text_or_empty (i_link it) in
if negb (Py.truthy link) || bool_decide (link ∈ existing_urls) then stop false "skipped" d else
let pub_date :=
  if Py.truthy_opt (i_pubDate it) then parse_pub_date l (default "" (i_pubDate it)) else None in
let creator := text_or_empty (i_creator it) in
let description :=
  if Py.truthy_opt (i_description it)
  then html_to_markdown l (default "" (i_description it)) else "" in
let article_uuid := uuids.1 in
let finish link content :=
  let a := {| a_link := link;
              a_uuid := Some article_uuid;
              a_title := Some title;
              a_pub_date := Some pub_date;
              a_description := Some description;
              a_content := Some content;
              a_creator := Some creator;
              a_given_category := Some (i_categories it);
              a_source_url := Some source_url;
              a_word_count :=
                Some (if Py.truthy content then length (Py.split content) else 0) |} in
  let r := write_article_to_db l uuids.2 d a in
  {| pr_success := wr_ok r;
     pr_status := if wr_ok r then "processed" else "failed";
     pr_db := wr_db r;
     pr_existing_urls := if wr_ok r then {[link]} ∪ existing_urls else existing_urls |} in
if Py.truthy_opt (i_content_encoded it)
then finish link (html_to_markdown l (default "" (i_content_encoded it)))
else
  let fetch link fetch_url :=
    match (Extractor.get_article_content w fetch_url None).1 with
    | Some content =>
        if Py.truthy content then finish link content
        else stop false "failed"
               (DbFunc.log_failed_article d article_uuid link "content_extraction_failed"
                  ("Failed to fetch content from: " +:+ fetch_url))
    | None =>
        stop false "failed"
          (DbFunc.log_failed_article d article_uuid link "content_extraction_failed"
             ("Failed to fetch content from: " +:+ fetch_url))
    end in
  if String.eqb source_name "news.google.com"
  then match get_redirected_url l link with
       | Extractor.Text resolved_url =>
           if Py.truthy resolved_url then fetch resolved_url resolved_url
           else stop false "failed"
                  (DbFunc.log_failed_article d article_uuid link "url_resolution_failed"
                     "Failed to resolve gnews URL")
       | Extractor.NoText =>
           stop false "failed"
             (DbFunc.log_failed_article d article_uuid link "url_resolution_failed"
                "Failed to resolve gnews URL")
       | Extractor.Raised exc =>
           stop false "failed"
             (DbFunc.log_failed_article d article_uuid link "url_resolution_error"
                ("Exception resolving gnews URL: " +:+ exc))
       end
  else fetch link link.

(** [is_valid_url] on a string. *)
Definition is_valid_url (url : string) : bool :=
Py.truthy url &&
(Py.startswith "http://" (Py.strip url) || Py.startswith "https://" (Py.strip url)).

(** The parsed feed document: what the four lookups of
    [extract_source_url] find (the [href] of the Atom self link with type
    application/rss+xml, the [href] of any Atom self link, the text of the
    channel's [link], the text of the first [link] anywhere; [None]: no
    such element, attribute or text) and the [<item>] elements in document
    order. *)
Record xml_root := {
  r_atom_self_rss_href : option string;
  r_atom_self_href : option string;
  r_channel_link : option string;
  r_first_link : option string;
  r_items : list item
}.

(** [extract_source_url]. *)
Definition extract_source_url (root : xml_root) : string :=
let valid (o : option string) :=
  match o with Some href => Py.truthy href && is_valid_url href | None => false end in
if valid (r_atom_self_rss_href root) then Py.strip (default "" (r_atom_self_rss_href root))
else if valid (r_atom_self_href root) then Py.strip (default "" (r_atom_self_href root))
else if valid (r_channel_link root) then Py.strip (default "" (r_channel_link root))
else if valid (r_first_link root) then Py.strip (default "" (r_first_link root))
else "".

(** A feed file on disk: missing, empty, not starting with an XML or RSS
    tag or not parseable ([Unreadable]), or parsed. *)
Inductive xml_file :=
| Unreadable
| Parsed (root : xml_root).

(** [extract_unique_urls_from_xml]. *)
Definition extract_unique_urls_from_xml (file : xml_file) : gset string :=
match file with
| Unreadable => ∅
| Parsed root =>
    list_to_set
      (List.filter Py.truthy ((λ it, text_or_empty (i_link it)) <$> r_items root))
end.

Record file_stats := {
  fs_processed : nat;
  fs_skipped : nat;
  fs_failed : nat
}.

Definition no_stats : file_stats :=
{| fs_processed := 0; fs_skipped := 0; fs_failed := 0 |}.

(** [stats[status] += 1]; the three keys are the only statuses
    [process_single_article] returns. *)
Definition count_status (st : file_stats) (status : string) : file_stats :=
if String.eqb status "processed"
then {| fs_processed := fs_processed st + 1; fs_skipped := fs_skipped st;
        fs_failed := fs_failed st |}
else if String.eqb status "skipped"
then {| fs_processed := fs_processed st; fs_skipped := fs_skipped st + 1;
        fs_failed := fs_failed st |}
else {| fs_processed := fs_processed st; fs_skipped := fs_skipped st;
        fs_failed := fs_failed st + 1 |}.

Definition add_stats (a b : file_stats) : file_stats :=
{| fs_processed := fs_processed a + fs_processed b;
   fs_skipped := fs_skipped a + fs_skipped b;
   fs_failed := fs_failed a + fs_failed b |}.

(** The state the item loop works on: the store and the caller's set of
    known urls, which [process_single_article] updates in place. *)
Record run_state := {
  rs_stats : file_stats;
  rs_db : database;
  rs_existing_urls : gset string
}.

(** The [for index, item in enumerate(items, 1)] loop of
    [process_xml_file_efficiently]; [uuid4 k] holds the values of the
    [uuid.uuid4()] calls made for the item at position [k]. *)
Fixpoint process_items (l : lib) (w : Extractor.web) (uuid4 : nat → string * string)
  (source_name source_url : string) (k : nat) (items : list item) (s : run_state)
  : run_state :=
match items with
| [] => s
| it :: rest =>
    let r := process_single_article l w (uuid4 k) (rs_db s) it source_name
               (rs_existing_urls s) source_url in
    process_items l w uuid4 source_name source_url (S k) rest
      {| rs_stats := count_status (rs_stats s) (pr_status r);
         rs_db := pr_db r;
         rs_existing_urls := pr_existing_urls r |}
end.

(** [process_xml_file_efficiently]: the counts of the file, the store and
    the set of known urls afterwards. *)
Definition process_xml_file_efficiently (l : lib) (w : Extractor.web)
  (uuid4 : nat → string * string) (file : xml_file) (source_name : string)
  (d : database) (existing_urls : gset string) : run_state :=
match file with
| Unreadable => {| rs_stats := no_stats; rs_db := d; rs_existing_urls := existing_urls |}
| Parsed root =>
    process_items l w uuid4 source_name (extract_source_url root) 0 (r_items root)
      {| rs_stats := no_stats; rs_db := d; rs_existing_urls := existing_urls |}
end.

(** Phase 2 of [process_source_directory]: the files in sorted order,
    [k] being the position of the first one; [uuid4 k] serves the file at
    position [k]. *)
Fixpoint process_files (l : lib) (w : Extractor.web)
  (uuid4 : nat → nat → string * string) (source_name : string) (k : nat)
  (files : list xml_file) (s : run_state) : run_state :=
match files with
| [] => s
| file :: rest =>
    let file_new_urls := extract_unique_urls_from_xml file ∖ rs_existing_urls s in
    if bool_decide (file_new_urls = ∅)
    then process_files l w uuid4 source_name (S k) rest s
    else
      let r := process_xml_file_efficiently l w (uuid4 k) file source_name
                 (rs_db s) (rs_existing_urls s) in
      process_files l w uuid4 source_name (S k) rest
        {| rs_stats := add_stats (rs_stats s) (rs_stats r);
           rs_db := rs_db r;
           rs_existing_urls := rs_existing_urls r |}
end.

(** [process_source_directory] on the sorted [*.xml] files of a source:
    the store afterwards, and the totals when phase 2 ran. *)
Definition process_source_directory (l : lib) (w : Extractor.web)
  (uuid4 : nat → nat → string * string) (files : list xml_file) (source_name : string)
  (d : database) : option file_stats * database :=
match files with
| [] => (None, d)
| _ :: _ =>
    let existing_urls := DbFunc.get_existing_urls d in
    let all_urls_from_xml := ⋃ (extract_unique_urls_from_xml <$> files) in
    let new_urls := all_urls_from_xml ∖ existing_urls in
    if bool_decide (new_urls = ∅) then (None, d)
    else
      let r := process_files l w uuid4 source_name 0 files
                 {| rs_stats := no_stats; rs_db := d; rs_existing_urls := existing_urls |} in
      (Some (rs_stats r), rs_db r)
end.

End ArticleProcesser.

(** ** vector_db.py *)

Module VectorDb.
Import DjangoConfig.

(** An article dictionary as built by [fetch_articles_from_db]: every key
    is present. *)
Record article := {
  uuid : string;
  url : string;
  title : string;
  pub_date : option string;
  description : string;
  content : string;
  category : string;
  language : string;
  source_url : string;
  domain : string;
  fetched_at : option string;
  word_count : nat;
  creator : string
}.

Record metadata := {
  m_uuid : string;
  m_url : string;
  m_title : string;
  m_pub_date : option string;
  m_description : string;
  m_content : string;
  m_category : string;
  m_language : string;
  m_source_url : string;
  m_domain : string;
  m_fetched_at : option string;
  m_word_count : nat;
  m_creator : string;
  chunk_index : nat;
  total_chunks : nat
}.

(** [config["pinecone"].get("max_words_per_chunk", 5500)]. *)
Record config := { max_words_per_chunk : option nat }.

Definition DEFAULT_MAX_WORDS_PER_CHUNK : nat := 5500.

Definition MAX_EMBED_CHARS : nat := 8000.

(** [x[:n] if x else ""] *)
Definition clip (n : nat) (x : string) : string :=
if Py.truthy x then Py.str_take n x else "".

(** [chunk_text_by_words]. *)
Definition chunk_text_by_words (text : string) (max_words_per_chunk : nat)
  : option (list string) :=
let words := Py.split text in
match Py.range (length words) max_words_per_chunk with
| None => None
| Some starts =>
    Some ((λ i, Py.join " " (Py.slice i (i + max_words_per_chunk) words)) <$> starts)
end.

Definition text_to_embed (a : article) : string :=
title a +:+ " " +:+ description a +:+ " " +:+ content a.

Definition chunk_metadata (a : article) (idx total : nat) : metadata :=
{| m_uuid := uuid a;
   m_url := url a;
   m_title := clip 500 (title a);
   m_pub_date := pub_date a;
   m_description := clip 1000 (description a);
   m_content := clip 2000 (content a);
   m_category := clip 300 (category a);
   m_language := language a;
   m_source_url := source_url a;
   m_domain := domain a;
   m_fetched_at := fetched_at a;
   m_word_count := word_count a;
   m_creator := creator a;
   chunk_index := idx;
   total_chunks := total |}.

(** [prepare_article_for_embedding]. *)
Definition prepare_article_for_embedding (a : article) (cfg : config)
  : exn + list (string * metadata) :=
let max_words := default DEFAULT_MAX_WORDS_PER_CHUNK (max_words_per_chunk cfg) in
let words := Py.split (text_to_embed a) in
let word_count := length words in
if word_count <=? max_words
then inr [(Py.str_take MAX_EMBED_CHARS (text_to_embed a), chunk_metadata a 0 1)]
else match chunk_text_by_words (text_to_embed a) max_words with
     | None => inl (ValueError "range() arg 3 must not be zero")
     | Some chunks =>
         inr (imap (λ idx chunk,
                      (Py.str_take MAX_EMBED_CHARS chunk,
                       chunk_metadata a idx (length chunks))) chunks)
     end.

(** [is_article_synced_to_vector_db]. *)
Definition is_article_synced_to_vector_db (d : database) (article_uuid namespace : string)
  : bool :=
match first_where
        (λ r, String.eqb (vt_article_uuid r) article_uuid
              && String.eqb (vt_namespace r) namespace
              && bool_decide (vt_status r = Synced))
        (vector_database_tracking d) with
| Some _ => true
| None => false
end.

(** [mark_article_as_synced]; a failed [create] is caught and reported as
    [False]. *)
Definition mark_article_as_synced (d : database)
  (article_uuid url title domain namespace vector_id : string) (total_chunks : nat)
  : bool * database :=
let same r := String.eqb (vt_article_uuid r) article_uuid
              && String.eqb (vt_namespace r) namespace in
match first_where same (vector_database_tracking d) with
| Some _ =>
    (true,
     set_vector_database_tracking d
       (save_first same
          (λ r, {| vt_article_uuid := vt_article_uuid r;
                   vt_url := vt_url r;
                   vt_title := vt_title r;
                   vt_domain := vt_domain r;
                   vt_namespace := vt_namespace r;
                   vt_vector_id := vector_id;
                   vt_status := Synced;
                   vt_total_chunks := total_chunks;
                   vt_synced_chunks := total_chunks;
                   vt_error_message := "" |})
          (vector_database_tracking d)))
| None =>
    match tracking_create d
            {| vt_article_uuid := article_uuid;
               vt_url := url;
               vt_title := title;
               vt_domain := domain;
               vt_namespace := namespace;
               vt_vector_id := vector_id;
               vt_status := Synced;
               vt_total_chunks := total_chunks;
               vt_synced_chunks := total_chunks;
               vt_error_message := "" |} with
    | inr d' => (true, d')
    | inl _ => (false, d)
    end
end.

(** [mark_article_as_failed]. *)
Definition mark_article_as_failed (d : database)
  (article_uuid url title domain error_message namespace : string) : bool * database :=
let same r := String.eqb (vt_article_uuid r) article_uuid
              && String.eqb (vt_namespace r) namespace in
match first_where same (vector_database_tracking d) with
| Some _ =>
    (true,
     set_vector_database_tracking d
       (save_first same
          (λ r, {| vt_article_uuid := vt_article_uuid r;
                   vt_url := vt_url r;
                   vt_title := vt_title r;
                   vt_domain := vt_domain r;
                   vt_namespace := vt_namespace r;
                   vt_vector_id := vt_vector_id r;
                   vt_status := Failed;
                   vt_total_chunks := vt_total_chunks r;
                   vt_synced_chunks := vt_synced_chunks r;
                   vt_error_message := error_message |})
          (vector_database_tracking d)))
| None =>
    match tracking_create d
            {| vt_article_uuid := article_uuid;
               vt_url := url;
               vt_title := title;
               vt_domain := domain;
               vt_namespace := namespace;
               vt_vector_id := "";
               vt_status := Failed;
               vt_total_chunks := 1;
               vt_synced_chunks := 0;
               vt_error_message := error_message |} with
    | inr d' => (true, d')
    | inl _ => (false, d)
    end
end.

(** [log_failed_embedding]; [chunk_index] and [total_chunks] default to 0
    and 1 at the call sites that omit them. *)
Definition log_failed_embedding (d : database)
  (article_uuid url title domain error_type error_message : string)
  (chunk_index total_chunks : nat) : database :=
let same r := String.eqb (fe_article_uuid r) article_uuid
              && (fe_chunk_index r =? chunk_index) in
match first_where same (failed_vector_embeddings d) with
| Some _ =>
    set_failed_vector_embeddings d
      (save_first same
         (λ r, {| fe_article_uuid := fe_article_uuid r;
                  fe_url := fe_url r;
                  fe_title := fe_title r;
                  fe_domain := fe_domain r;
                  fe_error_type := error_type;
                  fe_error_message := error_message;
                  fe_chunk_index := fe_chunk_index r;
                  fe_total_chunks := fe_total_chunks r;
                  fe_attempt_count := fe_attempt_count r + 1 |})
         (failed_vector_embeddings d))
| None =>
    set_failed_vector_embeddings d
      (failed_vector_embeddings d ++
       [{| fe_article_uuid := article_uuid;
           fe_url := url;
           fe_title := title;
           fe_domain := domain;
           fe_error_type := error_type;
           fe_error_message := error_message;
           fe_chunk_index := chunk_index;
           fe_total_chunks := total_chunks;
           fe_attempt_count := 1 |}])
end.

(** [get_pending_articles_for_vector_db]: the rows behind the dictionaries
    it returns. *)
Definition get_pending_articles_for_vector_db (d : database) (namespace : string)
  : list VectorDatabaseTracking :=
List.filter
  (λ r, String.eqb (vt_namespace r) namespace && bool_decide (vt_status r = Pending))
  (vector_database_tracking d).

(** [order_by('-attempt_count', 'created_at')]: rows are created in table
    order, so among rows with equal attempt counts the table order is
    kept. *)
Fixpoint insert_by_attempts (r : FailedVectorEmbeddings)
  (sorted : list FailedVectorEmbeddings) : list FailedVectorEmbeddings :=
match sorted with
| [] => [r]
| r' :: rest =>
    if fe_attempt_count r' <=? fe_attempt_count r then r :: sorted
    else r' :: insert_by_attempts r rest
end.

(** [get_failed_embeddings]: the rows behind the dictionaries it returns. *)
Definition get_failed_embeddings (d : database) : list FailedVectorEmbeddings :=
foldr insert_by_attempts [] (failed_vector_embeddings d).

(** [clear_failed_embedding]. *)
Definition clear_failed_embedding (d : database) (article_uuid : string) (chunk_index : nat)
  : database :=
set_failed_vector_embeddings d
  (List.filter
     (λ r, negb (String.eqb (fe_article_uuid r) article_uuid
                 && (fe_chunk_index r =? chunk_index)))
     (failed_vector_embeddings d)).

(** One iteration of the loop of [fetch_articles_from_db]: the metadata
    row joined with the article row its foreign key points to. *)
Definition joined_article (d : database) (md : ArticleMetadata) : option article :=
match first_where (λ r, String.eqb (rss_uuid r) (md_uuid md)) (rss_feed_articles d) with
| None => None
| Some r =>
    Some {| uuid := rss_uuid r;
            url := if Py.truthy (md_url md) then md_url md else rss_url r;
            title := md_title md;
            pub_date := md_pub_date md;
            description := md_description md;
            content := md_content md;
            category := md_category md;
            language := if Py.truthy (md_language md) then md_language md else "en";
            source_url := rss_source_url r;
            domain := rss_domain r;
            fetched_at := Some (rss_fetched_at r);
            word_count := md_word_count md;
            creator := md_creator md |}
end.

(** [fetch_articles_from_db]: the inner join of the two article tables in
    metadata order, cut to [limit] rows [if limit:]. *)
Definition fetch_articles_from_db (d : database) (limit : option nat) : list article :=
let joined := omap (joined_article d) (article_metadata d) in
match limit with
| None => joined
| Some n => if n =? 0 then joined else take n joined
end.

Section Sync.

(** The embedding of a text is opaque to the pipeline. *)
Context {Emb : Type}.

Record vector := {
  v_id : string;
  v_values : Emb;
  v_metadata : metadata
}.

(** The two providers: [embed_texts_batch] either raises (with the message
    of the exception) or returns the embeddings; [get_pinecone_index]
    (which reads the API key, lists the indexes of the account and creates
    the configured one when it is missing) and [index.upsert] either raise
    ([false]) or succeed. *)
Record cloud := {
  embed_texts_batch : list string → string + list Emb;
  get_pinecone_index : bool;
  index_upsert : list vector → string → bool
}.

(** Calls made to the providers, oldest first; [IndexCall] is a call of
    [get_pinecone_index], whether or not it returns the handle. *)
Inductive call :=
| EmbedCall (texts : list string)
| IndexCall
| UpsertCall (vectors : list vector) (namespace : string).

Record state := {
  db : database;
  calls : list call
}.

Definition chunk_ref : Type := nat * nat * nat.

(** The chunks of one article that the first loop of
    [prepare_vectors_batch] appends to [texts_to_embed] and [chunk_info]. *)
Definition kept_chunks (idx : nat) (skip_short : bool) (chunk_data : list (string * metadata))
  : list (string * chunk_ref) :=
omap (λ kept, kept)
  (imap (λ chunk_idx (c : string * metadata),
           if skip_short && (String.length (Py.strip c.1) <? 10) then None
           else Some (c.1, (idx, chunk_idx, length chunk_data)))
        chunk_data).

Definition collect_chunks (cfg : config) (skip_short : bool) (articles : list article)
  : list (string * chunk_ref) :=
mjoin
  (imap (λ idx a,
           match prepare_article_for_embedding a cfg with
           | inr chunk_data => kept_chunks idx skip_short chunk_data
           | inl _ => []
           end)
        articles).

Definition vector_id (a : article) (chunk_idx : nat) : string :=
uuid a +:+ "_chunk_" +:+ Py.str_of_nat chunk_idx.

Definition build_vector (cfg : config) (articles : list article)
  (embedding : Emb) (ref : chunk_ref) : option vector :=
let '(article_idx, chunk_idx, _) := ref in
match articles !! article_idx with
| None => None
| Some a =>
    match prepare_article_for_embedding a cfg with
    | inl _ => None
    | inr chunk_data =>
        match chunk_data !! chunk_idx with
        | None => None
        | Some (_, md) =>
            Some {| v_id := vector_id a chunk_idx; v_values := embedding;
                    v_metadata := md |}
        end
    end
end.

(** The [for embedding, (...) in zip(embeddings, chunk_info)] loop; the
    flag is [false] when an iteration raised. *)
Fixpoint build_vectors (cfg : config) (articles : list article)
  (pairs : list (Emb * chunk_ref)) : list vector * bool :=
match pairs with
| [] => ([], true)
| (embedding, ref) :: rest =>
    match build_vector cfg articles embedding ref with
    | None => ([], false)
    | Some v => let '(vs, ok) := build_vectors cfg articles rest in (v :: vs, ok)
    end
end.

(** The [except] block of [prepare_vectors_batch]. *)
Definition log_failed_chunks (articles : list article) (error_message : string)
  (chunk_info : list chunk_ref) (d : database) : database :=
foldl (λ d (ref : chunk_ref),
         let '(article_idx, chunk_idx, total) := ref in
         match articles !! article_idx with
         | None => d
         | Some a =>
             log_failed_embedding d (uuid a) (url a) (Py.str_take 500 (title a)) (domain a)
               "EmbeddingGenerationError" error_message chunk_idx total
         end)
      d chunk_info.

(** [prepare_vectors_batch]. *)
Definition prepare_vectors_batch (c : cloud) (cfg : config) (skip_short : bool)
  (articles : list article) (s : state) : list vector * state :=
let collected := collect_chunks cfg skip_short articles in
let texts_to_embed := collected.*1 in
let chunk_info := collected.*2 in
match texts_to_embed with
| [] => ([], s)
| _ :: _ =>
    let calls' := calls s ++ [EmbedCall texts_to_embed] in
    match embed_texts_batch c texts_to_embed with
    | inl e =>
        ([], {| db := log_failed_chunks articles e chunk_info (db s); calls := calls' |})
    | inr embeddings =>
        match build_vectors cfg articles (zip embeddings chunk_info) with
        | (vectors, true) => (vectors, {| db := db s; calls := calls' |})
        | (vectors, false) =>
            (vectors,
             {| db := log_failed_chunks articles "list index out of range" chunk_info (db s);
                calls := calls' |})
        end
    end
end.

(** [upsert_vectors_batch]. *)
Definition upsert_vectors_batch (c : cloud) (vectors : list vector) (namespace : string)
  (s : state) : bool * state :=
match vectors with
| [] => (false, s)
| _ :: _ =>
    (index_upsert c vectors namespace,
     {| db := db s; calls := calls s ++ [UpsertCall vectors namespace] |})
end.

Record stats := {
  st_total : nat;
  st_upserted : nat;
  st_failed : nat;
  st_skipped : nat;
  st_already_synced : nat
}.

(** The two [for article in batch] loops of [upsert_articles_to_pinecone]. *)
Definition mark_batch_synced (namespace : string) (batch : list article) (d : database)
  : database :=
foldl (λ d a,
         (mark_article_as_synced d (uuid a) (url a) (Py.str_take 500 (title a)) (domain a)
            namespace "" 1).2)
      d batch.

Definition mark_batch_failed (namespace : string) (batch : list article) (d : database)
  : database :=
foldl (λ d a,
         let d1 := (mark_article_as_failed d (uuid a) (url a) (Py.str_take 500 (title a))
                      (domain a) "Failed to upsert vectors to Pinecone" namespace).2 in
         log_failed_embedding d1 (uuid a) (url a) (Py.str_take 500 (title a)) (domain a)
           "VectorUpsertError" "Failed to upsert vectors to Pinecone" 0 1)
      d batch.

(** One iteration of the batch loop of [upsert_articles_to_pinecone]. *)
Definition process_batch (c : cloud) (cfg : config) (namespace : string)
  (acc : stats * state) (batch : list article) : stats * state :=
let '(st, s) := acc in
let '(vectors, s1) := prepare_vectors_batch c cfg true batch s in
match vectors with
| _ :: _ =>
    let '(success, s2) := upsert_vectors_batch c vectors namespace s1 in
    if success
    then ({| st_total := st_total st;
             st_upserted := st_upserted st + length vectors;
             st_failed := st_failed st;
             st_skipped := st_skipped st;
             st_already_synced := st_already_synced st |},
          {| db := mark_batch_synced namespace batch (db s2); calls := calls s2 |})
    else ({| st_total := st_total st;
             st_upserted := st_upserted st;
             st_failed := st_failed st + length batch;
             st_skipped := st_skipped st;
             st_already_synced := st_already_synced st |},
          {| db := mark_batch_failed namespace batch (db s2); calls := calls s2 |})
| [] =>
    ({| st_total := st_total st;
        st_upserted := st_upserted st;
        st_failed := st_failed st;
        st_skipped := st_skipped st + length batch;
        st_already_synced := st_already_synced st |}, s1)
end.

Definition not_synced (d : database) (namespace : string) (a : article) : bool :=
negb (is_article_synced_to_vector_db d (uuid a) namespace).

(** [upsert_articles_to_pinecone]; [inl] is the [ValueError] that
    [range(0, n, 0)] raises out of the function.  The index handle is
    asked for before the tracking table is read. *)
Definition upsert_articles_to_pinecone (c : cloud) (cfg : config) (articles : list article)
  (batch_size : Z) (namespace : string) (s : state) : (exn + stats) * state :=
let stats0 := {| st_total := length articles; st_upserted := 0; st_failed := 0;
                 st_skipped := 0; st_already_synced := 0 |} in
match articles with
| [] => (inr stats0, s)
| _ :: _ =>
    let s0 := {| db := db s; calls := calls s ++ [IndexCall] |} in
    if negb (get_pinecone_index c)
    then (inr {| st_total := length articles; st_upserted := 0;
                 st_failed := length articles;
                 st_skipped := 0; st_already_synced := 0 |}, s0)
    else
      let articles_to_process := List.filter (not_synced (db s) namespace) articles in
      let stats1 := {| st_total := length articles; st_upserted := 0; st_failed := 0;
                       st_skipped := 0;
                       st_already_synced :=
                         length (List.filter
                                   (λ a, is_article_synced_to_vector_db (db s) (uuid a) namespace)
                                   articles) |} in
      match articles_to_process with
      | [] => (inr stats1, s0)
      | _ :: _ =>
          match Py.range_int (length articles_to_process) batch_size with
          | None => (inl (ValueError "range() arg 3 must not be zero"), s0)
          | Some starts =>
              let r := foldl (process_batch c cfg namespace) (stats1, s0)
                         ((λ i, Py.slice i (i + Z.to_nat batch_size) articles_to_process)
                            <$> starts) in
              (inr r.1, r.2)
          end
      end
end.

(** [process_single_article_to_pinecone]. *)
Definition process_single_article_to_pinecone (c : cloud) (cfg : config) (a : article)
  (namespace : string) (s : state) : bool * state :=
let '(vectors, s1) := prepare_vectors_batch c cfg true [a] s in
match vectors with
| [] => (false, s1)
| _ :: _ =>
    let s2 := {| db := db s1; calls := calls s1 ++ [IndexCall] |} in
    if get_pinecone_index c then upsert_vectors_batch c vectors namespace s2
    else (false, s2)
end.

(** [sync_database_to_pinecone]: [inl] is the dictionary with the key
    "error". *)
Definition sync_database_to_pinecone (c : cloud) (cfg : config) (batch_size : Z)
  (limit : option nat) (namespace : string) (s : state) : (string + stats) * state :=
match fetch_articles_from_db (db s) limit with
| [] =>
    (inr {| st_total := 0; st_upserted := 0; st_failed := 0; st_skipped := 0;
            st_already_synced := 0 |}, s)
| (_ :: _) as articles =>
    match upsert_articles_to_pinecone c cfg articles batch_size namespace s with
    | (inr st, s') => (inr st, s')
    | (inl e, s') => (inl (exn_str e), s')
    end
end.

End Sync.

Arguments vector : clear implicits.
Arguments cloud : clear implicits.
Arguments call : clear implicits.
Arguments state : clear implicits.

End VectorDb.

(** ** jobs/batch_vector_db_sync.py *)

Module BatchVectorDbSync.
Import DjangoConfig VectorDb.

Section Retry.
Context {Emb : Type}.

Record retry_result := {
  retried : nat;
  succeeded : nat
}.

(** [articles_by_uuid[article_uuid]]: the dictionary is filled in list
    order, a later article replacing an earlier one with the same uuid. *)
Definition article_by_uuid (articles : list article) (article_uuid : string)
  : option article :=
last (List.filter (λ a, String.eqb (uuid a) article_uuid) articles).

(** One iteration of the [for record in failed_records] loop.  After a
    retry the loop tests [retried_count % batch_size]: with a batch size
    of 0 this raises, and the handler logs the record again, as a
    "retry_error". *)
Definition retry_record (c : cloud Emb) (cfg : config) (namespace : string)
  (batch_size : Z) (all_articles : list article) (acc : retry_result * state Emb)
  (record : FailedVectorEmbeddings) : retry_result * state Emb :=
let '(counts, s) := acc in
match article_by_uuid all_articles (fe_article_uuid record) with
| None => ({| retried := retried counts + 1; succeeded := succeeded counts |}, s)
| Some a =>
    let '(result, s1) := process_single_article_to_pinecone c cfg a namespace s in
    let r :=
      if result
      then ({| retried := retried counts + 1; succeeded := succeeded counts + 1 |},
            {| db := clear_failed_embedding (db s1) (fe_article_uuid record)
                       (fe_chunk_index record);
               calls := calls s1 |})
      else ({| retried := retried counts + 1; succeeded := succeeded counts |}, s1) in
    if (batch_size =? 0)%Z
    then (r.1,
          {| db := log_failed_embedding (db r.2) (fe_article_uuid record) (fe_url record)
                     (fe_title record) (fe_domain record) "retry_error" Py.modulo_by_zero
                     (fe_chunk_index record) (fe_total_chunks record);
             calls := calls r.2 |})
    else r
end.

(** [retry_failed_embeddings]. *)
Definition retry_failed_embeddings (c : cloud Emb) (cfg : config) (namespace : string)
  (batch_size : Z) (s : state Emb) : retry_result * state Emb :=
match get_failed_embeddings (db s) with
| [] => ({| retried := 0; succeeded := 0 |}, s)
| (_ :: _) as failed_records =>
    foldl (retry_record c cfg namespace batch_size (fetch_articles_from_db (db s) None))
      ({| retried := 0; succeeded := 0 |}, s) failed_records
end.

End Retry.

End BatchVectorDbSync.

(** ** chroma_db.py *)

Module ChromaDb.
Import DjangoConfig.

(** The dictionaries [sync_articles_from_db_to_chroma] builds. *)
Record chroma_article := {
  ca_id : string;
  ca_content : string;
  ca_title : string;
  ca_url : string;
  ca_domain : string;
  ca_published_date : string;
  ca_article_uuid : string
}.

(** The Chroma client: [get_or_create_collection] and [collection.add] on
    the documents, metadata and ids of a list of articles; [false]: the
    call raised. *)
Record client := {
  get_or_create_collection : string → bool;
  collection_add : string → list chroma_article → bool
}.

(** The sub-batch loop of [add_articles_to_chroma]; [added] collects the
    sub-batches handed to [collection.add]. *)
Fixpoint add_batches (c : client) (collection_name : string)
  (batches : list (list chroma_article)) (added : list (list chroma_article))
  : bool * list (list chroma_article) :=
match batches with
| [] => (true, added)
| batch :: rest =>
    if collection_add c collection_name batch
    then add_batches c collection_name rest (added ++ [batch])
    else (false, added ++ [batch])
end.

(** [add_articles_to_chroma]. *)
Definition add_articles_to_chroma (c : client) (articles : list chroma_article)
  (collection_name : string) (batch_size : nat) (added : list (list chroma_article))
  : bool * list (list chroma_article) :=
if get_or_create_collection c collection_name
then match Py.range (length articles) batch_size with
     | None => (false, added)
     | Some starts =>
         add_batches c collection_name
           ((λ i, Py.slice i (i + batch_size) articles) <$> starts) added
     end
else (false, added).

(** The articles of a batch that have metadata with content. *)
Definition articles_to_add (d : database) (batch : list RSSFeedArticle)
  : list chroma_article :=
omap (λ article,
        match first_where (λ md, String.eqb (md_uuid md) (rss_uuid article))
                (article_metadata d) with
        | Some md =>
            if Py.truthy (md_content md)
            then Some {| ca_id := rss_uuid article;
                         ca_content := md_content md;
                         ca_title := md_title md;
                         ca_url := rss_url article;
                         ca_domain := rss_domain article;
                         ca_published_date := default "" (md_pub_date md);
                         ca_article_uuid := rss_uuid article |}
            else None
        | None => None
        end)
     batch.

(** [sync_articles_from_db_to_chroma]. *)
Definition sync_articles_from_db_to_chroma (c : client) (d : database)
  (collection_name : string) (batch_size : nat) : bool * list (list chroma_article) :=
match rss_feed_articles d with
| [] => (true, [])
| (_ :: _) as articles =>
    match Py.range (length articles) batch_size with
    | None => (false, [])
    | Some starts =>
        (true,
         foldl (λ added i,
                  match articles_to_add d (Py.slice i (i + batch_size) articles) with
                  | [] => added
                  | (_ :: _) as to_add =>
                      (add_articles_to_chroma c to_add collection_name batch_size added).2
                  end)
               [] starts)
    end
end.

End ChromaDb.

(** ** embedding_funcs.py *)

Module EmbeddingFuncs.

Section Embedding.
Context {Emb : Type}.

Inductive event :=
| Sleep
| Request (document : string).

(** The body both embedding functions share: one request per document,
    a pause before every document but the first, and the first failure
    re-raised.  [embed_one] is the request for one document, [None] when
    it raises or, for Jina, answers without an embedding. *)
Fixpoint embed_documents (embed_one : string → option Emb) (i : nat)
  (input : list string) : option (list Emb) * list event :=
match input with
| [] => (Some [], [])
| document :: rest =>
    let pause := if 0 <? i then [Sleep] else [] in
    match embed_one document with
    | None => (None, pause ++ [Request document])
    | Some embedding =>
        let '(r, events) := embed_documents embed_one (S i) rest in
        (option_map (cons embedding) r, pause ++ Request document :: events)
    end
end.

(** [MistralCustomEmbeddingFunction.__call__] and
    [JinaCustomEmbeddingFunction.__call__]. *)
Definition MistralCustomEmbeddingFunction_call (embeddings_create : string → option Emb)
  (input : list string) : option (list Emb) * list event :=
embed_documents embeddings_create 0 input.

Definition JinaCustomEmbeddingFunction_call (post_embedding : string → option Emb)
  (input : list string) : option (list Emb) * list event :=
embed_documents post_embedding 0 input.

End Embedding.

End EmbeddingFuncs.

(** * Properties *)

(** ** Python built-ins *)

Section PyFacts.
Import Py.

Lemma truthy_true (s : string) : truthy s = true ↔ s ≠ "".
Proof.
unfold truthy. rewrite negb_true_iff. split.
- intros H ->. discriminate.
- intros H. destruct s; [done | reflexivity].
Qed.

Lemma str_take_length (n : nat) (s : string) :
  String.length (str_take n s) = n `min` String.length s.
Proof. revert s. induction n as [|n IH]; intros [|c s]; simpl; auto. Qed.

Lemma str_take_prefix (n : nat) (s : string) :
  ∃ rest, s = str_take n s +:+ rest.
Proof.
revert s. induction n as [|n IH]; intros [|c s]; simpl; try (eexists; reflexivity).
destruct (IH s) as [rest Hrest]. exists rest.
change (String c s = String c (str_take n s +:+ rest)). by rewrite <- Hrest.
Qed.

End PyFacts.

(** ** The extraction fallback chain *)

Section ExtractorFacts.
Import Extractor.

Lemma long_enough_truthy (t : string) : long_enough t = true → Py.truthy t = true.
Proof.
unfold long_enough, MIN_CONTENT_LENGTH. intros H. apply truthy_true. intros ->.
vm_compute in H. discriminate.
Qed.

(** A strategy hands back a text only when the text passed the length
    test. *)
Lemma run_strategy_accepts (w : web) (s : strategy) (url text : string) :
  run_strategy w s url = Some text → long_enough text = true.
Proof.
destruct s; simpl;
  unfold extract_with_newspaper, extract_with_trafilatura, extract_with_readability,
    extract_with_playwright, extract_with_jina; intros H;
  repeat (case_match; simplify_eq/=); try done;
  repeat match goal with H : _ && _ = true |- _ => apply andb_true_iff in H as [? ?] end;
  done.
Qed.

Lemma run_strategy_truthy (w : web) (s : strategy) (url : string) :
  Py.truthy_opt (run_strategy w s url) = false → run_strategy w s url = None.
Proof.
destruct (run_strategy w s url) as [t|] eqn:E; [|done].
simpl. intros H. apply run_strategy_accepts, long_enough_truthy in E. congruence.
Qed.

Lemma try_methods_spec (w : web) (url : string) (ms : list (string * strategy)) :
  match try_methods w url ms with
  | (Some text, invoked) =>
      ∃ before s after,
        ms.*2 = before ++ s :: after ∧ invoked = before ++ [s] ∧
        (∀ s', s' ∈ before → run_strategy w s' url = None) ∧
        run_strategy w s url = Some text
  | (None, invoked) =>
      invoked = ms.*2 ∧ ∀ s, s ∈ ms.*2 → run_strategy w s url = None
  end.
Proof.
induction ms as [|[name s] ms IH]; csimpl.
- split; [done|]. intros s Hs. by apply elem_of_nil in Hs.
- destruct (Py.truthy_opt (run_strategy w s url)) eqn:Hrun.
  + destruct (run_strategy w s url) as [text|] eqn:E; [|done].
    exists [], s, (ms.*2). repeat split; try done.
    intros s' Hs'. by apply elem_of_nil in Hs'.
  + apply run_strategy_truthy in Hrun.
    destruct (try_methods w url ms) as [[text|] invoked].
    * destruct IH as (before & s0 & after & Hms & Hinv & Hbefore & Hs0).
      exists (s :: before), s0, after. csimpl. rewrite Hms, Hinv. repeat split; try done.
      intros s' [->|Hs']%elem_of_cons; auto.
    * destruct IH as [-> Hall]. split; [done|].
      intros s' [->|Hs']%elem_of_cons; auto.
Qed.

End ExtractorFacts.

(** The five strategies in their fixed priority order. *)
Definition fixed_priority : list Extractor.strategy :=
[Extractor.Newspaper3k; Extractor.Trafilatura; Extractor.Readability;
 Extractor.Playwright; Extractor.Jina].

Definition text_of (f : Extractor.fetched) : option string :=
match f with
| Extractor.Text t => Some t
| Extractor.NoText => None
| Extractor.Raised _ => None
end.

(** The text a strategy extracts from a page, whatever its length: what
    its third-party call produced, [None] when the call raised or produced
    nothing; Jina is only asked with an API key and only heard when its
    answer is ok. *)
Definition extracted_text (w : Extractor.web) (s : Extractor.strategy) (url : string)
  : option string :=
match s with
| Extractor.Newspaper3k => text_of (Extractor.newspaper_text w url)
| Extractor.Trafilatura => text_of (Extractor.trafilatura_extract w url)
| Extractor.Readability => text_of (Extractor.readability_text w url)
| Extractor.Playwright => text_of (Extractor.playwright_extract w url)
| Extractor.Jina =>
    if Extractor.jina_api_key w
    then match Extractor.jina_post w url with
         | Some (true, f) => text_of f
         | Some (false, _) => None
         | None => None
         end
    else None
end.

(** A strategy's output is acceptable when the text it extracted has more
    than 100 characters once stripped. *)
Definition acceptable (w : Extractor.web) (s : Extractor.strategy) (url text : string)
  : Prop :=
extracted_text w s url = Some text ∧ 100 < String.length (Py.strip text).

Section AcceptFacts.
Import Extractor.

(** Each wrapper hands back exactly the acceptable text of its strategy. *)
Lemma run_strategy_acceptable (w : web) (s : strategy) (url text : string) :
  run_strategy w s url = Some text ↔ acceptable w s url text.
Proof.
unfold acceptable, extracted_text.
destruct s; simpl;
  unfold extract_with_newspaper, extract_with_trafilatura, extract_with_readability,
    extract_with_playwright, extract_with_jina, long_enough, MIN_CONTENT_LENGTH.
1-4: match goal with |- context [text_of ?f] => destruct f as [exc| |t] end; simpl;
       try (split; [done | by intros [? _]]);
       destruct (Nat.ltb_spec 100 (String.length (Py.strip t))) as [Hlong|Hshort];
       rewrite ?andb_true_r, ?andb_false_r;
       [ assert (Py.truthy t = true) as Ht
           by (apply truthy_true; intros ->; vm_compute in Hlong; lia);
         rewrite ?Ht; split; [by intros [= <-] | by intros [[= <-] _]]
       | destruct (Py.truthy t); (split; [done | intros [[= <-] ?]; lia]) ].
destruct (jina_api_key w); [|split; [done | by intros [? _]]].
destruct (jina_post w url) as [[[] f]|]; try (split; [done | by intros [? _]]).
- destruct f as [exc| |t]; simpl; try (split; [done | by intros [? _]]).
  destruct (Nat.ltb_spec 100 (String.length (Py.strip t))) as [Hlong|Hshort];
    rewrite ?andb_true_r, ?andb_false_r.
  + assert (Py.truthy t = true) as ->
      by (apply truthy_true; intros ->; vm_compute in Hlong; lia).
    split; [by intros [= <-] | by intros [[= <-] _]].
  + split; [done | intros [[= <-] ?]; lia].
- destruct f as [exc| |t]; simpl; split; done || by intros [? _].
Qed.

Lemma run_strategy_none (w : web) (s : strategy) (url : string) :
  run_strategy w s url = None ↔ ∀ text, ¬ acceptable w s url text.
Proof.
split.
- intros Hnone text Hacc%run_strategy_acceptable. congruence.
- intros Hnot. destruct (run_strategy w s url) as [text|] eqn:Hrun; [|done].
  apply run_strategy_acceptable in Hrun. by destruct (Hnot text).
Qed.

End AcceptFacts.

(** What a run of the chain with method "all" must look like: [r] is the
    returned text (or [None]) and the strategies that were invoked.  A
    text is returned exactly when it is the acceptable output of the first
    strategy, in the fixed order, that has one, and no later strategy is
    invoked; [None] is returned exactly when all five were invoked and
    none has an acceptable output. *)
Definition fallback_outcome (w : Extractor.web) (url : string)
  (r : option string * list Extractor.strategy) : Prop :=
match r with
| (Some text, invoked) =>
    ∃ before s after,
      fixed_priority = before ++ s :: after ∧
      invoked = before ++ [s] ∧
      (∀ s' text', s' ∈ before → ¬ acceptable w s' url text') ∧
      acceptable w s url text
| (None, invoked) =>
    invoked = fixed_priority ∧
    ∀ s text', s ∈ fixed_priority → ¬ acceptable w s url text'
end.

(** C2.  With method "all" the strategies run in the fixed priority order
    newspaper3k, trafilatura, readability, playwright, jina; the output of
    a strategy is taken exactly when the text it extracted has more than
    100 characters once stripped; the first such text is returned and no
    later strategy is invoked; when no strategy has such a text, the
    result is [None] after all five were tried.  The embedded function is
    total: no exception reaches the caller. *)
Theorem get_article_content_all_fallback
  (w : Extractor.web) (url : string) (method : option string) :
  Py.lower (default (Extractor.extraction_method_for_site w url) method) = "all" →
  fallback_outcome w url (Extractor.get_article_content w url method).
Proof.
intros Hall. unfold Extractor.get_article_content, fallback_outcome.
replace (match method with Some m => m | None => Extractor.extraction_method_for_site w url end)
  with (default (Extractor.extraction_method_for_site w url) method) by by destruct method.
rewrite Hall. simpl negb. cbv iota.
pose proof (try_methods_spec w url Extractor.methods) as H.
change (Extractor.methods.*2) with fixed_priority in H.
destruct (Extractor.try_methods w url Extractor.methods) as [[text|] invoked].
- destruct H as (before & s & after & Hms & Hinv & Hbefore & Hs).
  exists before, s, after. split; [done|]. split; [done|]. split.
  + intros s' text' Hs'. by apply run_strategy_none, Hbefore.
  + by apply run_strategy_acceptable.
- destruct H as [Hinv Hnone]. split; [done|].
  intros s text' Hs. by apply run_strategy_none, Hnone.
Qed.

(** A page on which newspaper3k finds a stub, trafilatura an article, and
    the later strategies would find the article too. *)
Definition sample_text : string :=
"Bitcoin climbed above its previous high on Tuesday as traders priced in a rate cut, " +:+
"while ether and other large tokens followed with smaller gains across the board.".

Definition sample_web : Extractor.web :=
{| Extractor.newspaper_text := λ _, Extractor.Text "Subscribe to read";
   Extractor.trafilatura_extract := λ _, Extractor.Text sample_text;
   Extractor.readability_text := λ _, Extractor.Text sample_text;
   Extractor.playwright_extract := λ _, Extractor.Raised "TimeoutError";
   Extractor.jina_api_key := false;
   Extractor.jina_post := λ _, None;
   Extractor.extraction_method_for_site := λ _, "all" |}.

Lemma get_article_content_all_fallback_witness :
  Py.lower "all" = "all" ∧
  Extractor.get_article_content sample_web "https://example.org/a" None
  = (Some sample_text, [Extractor.Newspaper3k; Extractor.Trafilatura]) ∧
  acceptable sample_web Extractor.Trafilatura "https://example.org/a" sample_text ∧
  ∀ text, ¬ acceptable sample_web Extractor.Newspaper3k "https://example.org/a" text.
Proof.
split; [reflexivity|].
pose proof (get_article_content_all_fallback sample_web "https://example.org/a" None
              eq_refl) as H.
assert (Extractor.get_article_content sample_web "https://example.org/a" None
        = (Some sample_text, [Extractor.Newspaper3k; Extractor.Trafilatura])) as Hrun
  by (vm_compute; reflexivity).
split; [exact Hrun|]. rewrite Hrun in H.
destruct H as (before & s & after & _ & Hinvoked & Hbefore & Hs).
change [Extractor.Newspaper3k; Extractor.Trafilatura]
  with ([Extractor.Newspaper3k] ++ [Extractor.Trafilatura]) in Hinvoked.
apply app_inj_tail in Hinvoked as [<- <-]. split; [exact Hs|].
intros text. apply Hbefore. left.
Defined.

(** On that page the chain stops at trafilatura: readability, which would
    also have delivered, is never invoked. *)
Example fallback_chain_short_circuit :
  Extractor.get_article_content sample_web "https://example.org/a" None
  = (Some sample_text, [Extractor.Newspaper3k; Extractor.Trafilatura]).
Proof. vm_compute. reflexivity. Qed.

(** ** Feed change detection *)

Section FeedHashFacts.
Import FeedHash.

Variable fetch : string → option string.
Variable rss_of : string → option string.
Variable calculate_hash : string → string.
Variable get_output_path : string → option string.
Variable save : string → string → bool.

(** The RSS document a run gets hold of: the fetch returned a non-empty
    text and a non-empty RSS document was found in it. *)
Definition rss_document (url : string) : option string :=
match fetch url with
| None => None
| Some content =>
    if Py.truthy content
    then match rss_of content with
         | Some rss => if Py.truthy rss then Some rss else None
         | None => None
         end
    else None
end.

Let run := process_rss_feed_body fetch rss_of calculate_hash get_output_path save.

Lemma process_rss_feed_body_no_document (url : string) (hashes : gmap string string) :
  rss_document url = None → run url hashes = (Returns false, hashes).
Proof.
unfold run, rss_document, process_rss_feed_body.
destruct (fetch url) as [content|]; [|done].
destruct (Py.truthy content); [|done]. simpl.
destruct (rss_of content) as [rss|]; [|done].
destruct (Py.truthy rss); done.
Qed.

Lemma process_rss_feed_body_document (url rss : string) (hashes : gmap string string) :
  rss_document url = Some rss →
  run url hashes =
    if bool_decide (hashes !! url = Some (calculate_hash rss)) then (Returns false, hashes)
    else match get_output_path url with
         | None => (Raises, hashes)
         | Some output_path =>
             if save output_path rss
             then (Returns true, <[url := calculate_hash rss]> hashes)
             else (Returns false, hashes)
         end.
Proof.
unfold run, rss_document, process_rss_feed_body.
destruct (fetch url) as [content|]; [|done].
destruct (Py.truthy content); [|done]. simpl.
destruct (rss_of content) as [rss'|]; [|done].
destruct (Py.truthy rss'); [|done]. simpl. by intros [= ->].
Qed.

(** What the detector guarantees, in terms of the document it obtained,
    of the capture path and of the saving of the capture file. *)
Definition change_detection (url : string) (hashes : gmap string string)
  (r : outcome * gmap string string) : Prop :=
(rss_document url = None → r = (Returns false, hashes)) ∧
(∀ rss output_path,
   rss_document url = Some rss → get_output_path url = Some output_path →
   save output_path rss = true →
   r.1 = Returns (bool_decide (hashes !! url ≠ Some (calculate_hash rss)))) ∧
(∀ rss output_path,
   rss_document url = Some rss → get_output_path url = Some output_path →
   save output_path rss = false → r = (Returns false, hashes)) ∧
(∀ rss, rss_document url = Some rss → hashes !! url = Some (calculate_hash rss) →
   r = (Returns false, hashes)) ∧
(∀ rss output_path,
   rss_document url = Some rss → hashes !! url = None →
   get_output_path url = Some output_path → save output_path rss = true →
   r = (Returns true, <[url := calculate_hash rss]> hashes)) ∧
(∀ rss, rss_document url = Some rss → hashes !! url ≠ Some (calculate_hash rss) →
   get_output_path url = None → r = (Raises, hashes)) ∧
(r.1 ≠ Returns true → r.2 = hashes) ∧
(r.1 = Returns true →
 ∃ rss, rss_document url = Some rss ∧ r.2 = <[url := calculate_hash rss]> hashes).

Lemma process_rss_feed_body_change_detection (url : string) (hashes : gmap string string) :
  change_detection url hashes (run url hashes).
Proof.
unfold change_detection.
destruct (rss_document url) as [rss|] eqn:Hdoc.
- rewrite (process_rss_feed_body_document url rss hashes Hdoc).
  split; [done|]. split; [|split; [|split; [|split; [|split; [|split]]]]].
  + intros ? output_path [= <-] -> ->.
    destruct (bool_decide_reflect (hashes !! url = Some (calculate_hash rss))) as [Heq|Hne];
      simpl; f_equal; symmetry.
    * apply bool_decide_eq_false. tauto.
    * by apply bool_decide_eq_true.
  + intros ? output_path [= <-] -> ->. by case_bool_decide.
  + intros ? [= <-] Heq. by rewrite bool_decide_eq_true_2.
  + intros ? output_path [= <-] Hnone -> ->. rewrite bool_decide_eq_false_2; [done|].
    rewrite Hnone. done.
  + intros ? [= <-] Hne ->. by rewrite bool_decide_eq_false_2.
  + case_bool_decide; [done|]. destruct (get_output_path url) as [output_path|]; [|done].
    by destruct (save output_path rss).
  + case_bool_decide; [done|]. destruct (get_output_path url) as [output_path|]; [|done].
    destruct (save output_path rss); [|done]. eauto.
- rewrite (process_rss_feed_body_no_document url hashes Hdoc).
  repeat split; done.
Qed.

End FeedHashFacts.

(** C8 (as amended).  In both feed modules: when an RSS document is
    obtained, its capture path is prepared and its capture file is saved,
    [has_changed] is [new_hash != previous_hash], so an identically
    hashing document gives [false] and a url without a stored hash gives
    [true]; when the fetch fails, no RSS document is found or the capture
    file cannot be written, the result is [false]; when the document has
    a new hash and the capture path cannot be prepared
    ([get_output_path] raises), the call raises; and whenever the result
    is not [true] the stored hashes are left as they were. *)
Theorem process_rss_feed_change_detection
  (sites : SitesRss.net) (gnews : GnewsRss.net) (url : string)
  (hashes : gmap string string) (exclude_headers : list string) :
  change_detection
    (λ u, SitesRss.fetch_rss sites u exclude_headers) (SitesRss.extract_rss_content sites)
    (SitesRss.calculate_hash sites) (SitesRss.get_output_path sites)
    (SitesRss.write_output sites) url hashes
    (SitesRss.process_rss_feed sites url hashes exclude_headers)
  ∧
  change_detection
    (GnewsRss.fetch_rss gnews) (GnewsRss.parse_and_format_rss gnews)
    (GnewsRss.calculate_hash gnews) (GnewsRss.get_output_path gnews)
    (GnewsRss.write_output gnews) url hashes
    (GnewsRss.process_rss_feed gnews url hashes).
Proof. split; apply process_rss_feed_body_change_detection. Qed.

(** A feed that is served, a capture directory that can be created or
    not, and a disk that is either writable or full.  The digest is a
    stand-in: nothing below depends on its values. *)
Definition sample_feed_url : string := "https://example.org/feed".

Definition sample_feed : string := "<?xml version='1.0'?><rss><channel></channel></rss>".

Definition sample_capture_path : string :=
"data/rss_feeds/example.org/rss_20261104_090000.xml".

Definition sample_sites (writable : bool) : SitesRss.net :=
{| SitesRss.fetch_rss := λ _ _, Some sample_feed;
   SitesRss.soup_find_rss := λ _, None;
   SitesRss.calculate_hash := λ content, "sha256:" +:+ content;
   SitesRss.get_output_path := λ _, Some sample_capture_path;
   SitesRss.write_output := λ _ _, writable |}.

Definition sample_gnews (writable : bool) : GnewsRss.net :=
{| GnewsRss.fetch_rss := λ _, Some sample_feed;
   GnewsRss.parse_and_format_rss := λ content, Some content;
   GnewsRss.calculate_hash := λ content, "sha256:" +:+ content;
   GnewsRss.get_output_path := λ _, Some sample_capture_path;
   GnewsRss.write_output := λ _ _, writable |}.

(** The same feed when the capture directory cannot be created. *)
Definition sample_sites_no_directory : SitesRss.net :=
{| SitesRss.fetch_rss := λ _ _, Some sample_feed;
   SitesRss.soup_find_rss := λ _, None;
   SitesRss.calculate_hash := λ content, "sha256:" +:+ content;
   SitesRss.get_output_path := λ _, None;
   SitesRss.write_output := λ _ _, true |}.

(** C8 as stated fails: the feed is fetched, no hash is stored for the url
    (so the new hash differs from the previous one), and yet
    [has_changed] is [false] because the capture file could not be saved;
    and when the capture directory cannot be created no flag is returned
    at all. *)
Lemma process_rss_feed_changed_but_unsaved :
  SitesRss.fetch_rss (sample_sites false) sample_feed_url [] = Some sample_feed ∧
  (∅ : gmap string string) !! sample_feed_url = None ∧
  SitesRss.process_rss_feed (sample_sites false) sample_feed_url ∅ []
  = (FeedHash.Returns false, ∅) ∧
  GnewsRss.process_rss_feed (sample_gnews false) sample_feed_url ∅
  = (FeedHash.Returns false, ∅) ∧
  SitesRss.process_rss_feed sample_sites_no_directory sample_feed_url ∅ []
  = (FeedHash.Raises, ∅).
Proof. repeat split; reflexivity. Qed.

(** A page that is served in place of the feed: nothing is captured and no
    hash is stored, so the next run looks at the url afresh. *)
Example process_rss_feed_not_a_feed :
  let n := {| SitesRss.fetch_rss := λ _ _, Some "<html><body>Not found</body></html>";
              SitesRss.soup_find_rss := λ _, None;
              SitesRss.calculate_hash := λ content, "sha256:" +:+ content;
              SitesRss.get_output_path := λ _, Some sample_capture_path;
              SitesRss.write_output := λ _ _, true |} in
  SitesRss.process_rss_feed n sample_feed_url ∅ [] = (FeedHash.Returns false, ∅).
Proof. reflexivity. Qed.

Lemma process_rss_feed_change_detection_witness :
  SitesRss.process_rss_feed (sample_sites true) sample_feed_url ∅ []
  = (FeedHash.Returns true, {[ sample_feed_url := "sha256:" +:+ sample_feed ]}) ∧
  GnewsRss.process_rss_feed (sample_gnews true) sample_feed_url
    {[ sample_feed_url := "sha256:" +:+ sample_feed ]}
  = (FeedHash.Returns false, {[ sample_feed_url := "sha256:" +:+ sample_feed ]}) ∧
  SitesRss.process_rss_feed sample_sites_no_directory sample_feed_url ∅ []
  = (FeedHash.Raises, ∅).
Proof.
pose proof (process_rss_feed_change_detection (sample_sites true) (sample_gnews true)
              sample_feed_url ∅ []) as [Hsites _].
pose proof (process_rss_feed_change_detection (sample_sites true) (sample_gnews true)
              sample_feed_url {[ sample_feed_url := "sha256:" +:+ sample_feed ]} [])
  as [_ Hgnews].
pose proof (process_rss_feed_change_detection sample_sites_no_directory (sample_gnews true)
              sample_feed_url ∅ []) as [Hraise _].
destruct Hsites as (_ & _ & _ & _ & Hfirst & _).
destruct Hgnews as (_ & _ & _ & Hsame & _).
destruct Hraise as (_ & _ & _ & _ & _ & Hraise & _).
split; [|split].
- rewrite (Hfirst sample_feed sample_capture_path);
    [by rewrite insert_empty | reflexivity | reflexivity | reflexivity | reflexivity].
- apply (Hsame sample_feed); [reflexivity|]. apply lookup_singleton_eq.
- apply (Hraise sample_feed); [reflexivity | by rewrite lookup_empty | reflexivity].
Defined.

(** ** Tables: lookups and saves *)

Section TableFacts.
Import DjangoConfig.
Context {A : Type}.
Implicit Types (p : A → bool) (f : A → A) (rows : list A).

Lemma save_first_length p f rows : length (save_first p f rows) = length rows.
Proof. induction rows as [|r rows IH]; simpl; [done|]. destruct (p r); simpl; auto. Qed.

Lemma first_where_save_first p f rows :
  (∀ r, p r = true → p (f r) = true) →
  first_where p (save_first p f rows) = f <$> first_where p rows.
Proof.
intros Hkey. unfold first_where.
induction rows as [|r rows IH]; simpl; [done|].
destruct (p r) eqn:Hp; simpl.
- by rewrite (Hkey r Hp).
- by rewrite Hp.
Qed.

Lemma first_where_app_new p rows r :
  first_where p rows = None → p r = true → first_where p (rows ++ [r]) = Some r.
Proof.
unfold first_where. induction rows as [|r' rows IH]; simpl; intros Hnone Hp.
- by rewrite Hp.
- destruct (p r'); [done|]. auto.
Qed.

Lemma first_where_None p rows :
  first_where p rows = None ↔ ∀ r, r ∈ rows → p r = false.
Proof.
unfold first_where. induction rows as [|r' rows IH]; simpl.
- split; [|done]. intros _ r Hr. by apply elem_of_nil in Hr.
- destruct (p r') eqn:Hp.
  + split; [done|]. intros H. rewrite (H r') in Hp; [done | left].
  + rewrite IH. split.
    * intros H r [->|Hr]%elem_of_cons; auto.
    * intros H r Hr. apply H. by right.
Qed.

Lemma existsb_false p rows :
  existsb p rows = false ↔ ∀ r, r ∈ rows → p r = false.
Proof.
induction rows as [|r' rows IH]; simpl.
- split; [|done]. intros _ r Hr. by apply elem_of_nil in Hr.
- rewrite orb_false_iff, IH. split.
  + intros [Hp H] r [->|Hr]%elem_of_cons; auto.
  + intros H. split; [apply H; left | intros r Hr; apply H; by right].
Qed.

End TableFacts.

(** ** Vector sync tracking *)

Section TrackingFacts.
Import DjangoConfig VectorDb.

(** The table never holds two rows of one article: [tracking_create]
    refuses a second row whatever its namespace. *)
Lemma tracking_create_refuses (d : database) (row r : VectorDatabaseTracking) :
  r ∈ vector_database_tracking d → vt_article_uuid r = vt_article_uuid row →
  ∃ e, tracking_create d row = inl e.
Proof.
intros Hr Huuid. unfold tracking_create.
destruct (existsb _ _) eqn:Hex; [eauto|].
rewrite existsb_false in Hex. specialize (Hex r Hr). simpl in Hex.
rewrite Huuid, String.eqb_refl in Hex. done.
Qed.

(** Once an article is tracked in one namespace, marking it synced in
    another namespace changes nothing and reports [False]. *)
Lemma mark_article_as_synced_other_namespace
  (d : database) (r : VectorDatabaseTracking)
  (article_uuid url title domain namespace vector_id : string) (total_chunks : nat) :
  r ∈ vector_database_tracking d → vt_article_uuid r = article_uuid →
  (∀ r', r' ∈ vector_database_tracking d → vt_article_uuid r' = article_uuid →
         vt_namespace r' ≠ namespace) →
  mark_article_as_synced d article_uuid url title domain namespace vector_id total_chunks
  = (false, d).
Proof.
intros Hr Huuid Hother. unfold mark_article_as_synced.
assert (first_where
          (λ r0, String.eqb (vt_article_uuid r0) article_uuid
                 && String.eqb (vt_namespace r0) namespace)
          (vector_database_tracking d) = None) as ->.
{ apply first_where_None. intros r' Hr'. apply andb_false_iff.
  destruct (String.eqb_spec (vt_article_uuid r') article_uuid) as [Heq|]; [|by left].
  right. apply String.eqb_neq. by apply Hother. }
edestruct tracking_create_refuses as [e ->]; [exact Hr | exact Huuid | done].
Qed.

End TrackingFacts.

Definition sample_tracked : DjangoConfig.database :=
(VectorDb.mark_article_as_synced DjangoConfig.empty_database
   "3f2c9a" "https://example.org/a" "A title" "example.org" "rss-feeds" "" 1).2.

(** C9.  An article synced in namespace "rss-feeds" holds its one tracking
    row; syncing it in namespace "archive" is refused by the unique
    [article_uuid] column, reports [False], adds no row, and the article is
    not seen as synced in "archive". *)
Theorem tracking_second_namespace_refused :
  VectorDb.is_article_synced_to_vector_db sample_tracked "3f2c9a" "rss-feeds" = true ∧
  VectorDb.mark_article_as_synced sample_tracked
    "3f2c9a" "https://example.org/a" "A title" "example.org" "archive" "" 1
  = (false, sample_tracked) ∧
  VectorDb.mark_article_as_failed sample_tracked
    "3f2c9a" "https://example.org/a" "A title" "example.org" "upsert failed" "archive"
  = (false, sample_tracked) ∧
  VectorDb.is_article_synced_to_vector_db sample_tracked "3f2c9a" "archive" = false ∧
  length (DjangoConfig.vector_database_tracking sample_tracked) = 1.
Proof. repeat split; reflexivity. Qed.

(** ** Article ingestion *)

Section IngestFacts.
Import DjangoConfig ArticleProcesser.




Lemma rss_create_tables (d d' : database) (row : RSSFeedArticle) :
  rss_create d row = inr d' →
  rss_feed_articles d' = rss_feed_articles d ++ [row] ∧
  article_metadata d' = article_metadata d ∧
  failed_articles d' = failed_articles d.
Proof.
unfold rss_create. repeat case_match; try done. by intros [= <-].
Qed.

Lemma metadata_create_tables (l : lib) (d d' : database) (a : article) (u lang : string) :
  metadata_create l d a u lang = inr d' →
  rss_feed_articles d' = rss_feed_articles d ∧ failed_articles d' = failed_articles d.
Proof.
unfold metadata_create. repeat case_match; try done. by intros [= <-].
Qed.

(** The handler of a failed metadata insert passes three arguments after
    [config]: the call raises before [log_failed_article] runs. *)
Lemma call_log_failed_article_three (d : database) (x y z : string) :
  ∃ e, DbFunc.call_log_failed_article d [x; y; z] = inl e.
Proof. simpl. eauto. Qed.

(** Whatever happens, [write_article_to_db] leaves the failed-articles
    table as it found it. *)
Lemma write_article_to_db_failed_articles (l : lib) (fresh : string) (d : database)
  (a : article) :
  failed_articles (wr_db (write_article_to_db l fresh d a)) = failed_articles d.
Proof.
unfold write_article_to_db.
destruct (netloc l (a_link a)) as [dom|]; [|done].
destruct (rss_create d _) as [e|d1] eqn:Hrss; [done|].
apply rss_create_tables in Hrss as (_ & _ & Hfa).
destruct (metadata_create l d1 a _ _) as [e|d2] eqn:Hmd; simpl.
- done.
- apply metadata_create_tables in Hmd as [_ Hfa2]. congruence.
Qed.





End IngestFacts.


Definition sample_lib : ArticleProcesser.lib :=
{| ArticleProcesser.netloc := λ _, Some "example.org";
   ArticleProcesser.detect := λ _, Some "en";
   ArticleProcesser.html_to_markdown := λ text, text;
   ArticleProcesser.parse_pub_date := λ _, None;
   ArticleProcesser.get_redirected_url := λ _, Extractor.NoText;
   ArticleProcesser.now := λ _, "2026-11-04T09:00:00";
   ArticleProcesser.metadata_insert := λ _, None |}.

Definition sample_article (uuid : string) : ArticleProcesser.article :=
{| ArticleProcesser.a_link := "https://example.org/a";
   ArticleProcesser.a_uuid := Some uuid;
   ArticleProcesser.a_title := Some "A title";
   ArticleProcesser.a_pub_date := Some None;
   ArticleProcesser.a_description := Some "A description";
   ArticleProcesser.a_content := Some sample_text;
   ArticleProcesser.a_creator := Some "";
   ArticleProcesser.a_given_category := Some "";
   ArticleProcesser.a_source_url := Some "https://example.org/feed";
   ArticleProcesser.a_word_count := Some 26 |}.

(** The same article without its "title" key: the primary insert succeeds
    and the metadata insert raises [KeyError]. *)
Definition sample_article_without_title (link uuid : string) : ArticleProcesser.article :=
{| ArticleProcesser.a_link := link;
   ArticleProcesser.a_uuid := Some uuid;
   ArticleProcesser.a_title := None;
   ArticleProcesser.a_pub_date := Some None;
   ArticleProcesser.a_description := Some "A description";
   ArticleProcesser.a_content := Some sample_text;
   ArticleProcesser.a_creator := Some "";
   ArticleProcesser.a_given_category := Some "";
   ArticleProcesser.a_source_url := Some "https://example.org/feed";
   ArticleProcesser.a_word_count := Some 26 |}.

Definition sample_ingested : DjangoConfig.database :=
ArticleProcesser.wr_db
  (ArticleProcesser.write_article_to_db sample_lib "" DjangoConfig.empty_database
     (sample_article "3f2c9a")).



(** A feed item carrying the stored link, with its content inline. *)
Definition sample_inline_item : ArticleProcesser.item :=
{| ArticleProcesser.i_title := Some "A title";
   ArticleProcesser.i_link := Some "https://example.org/a";
   ArticleProcesser.i_pubDate := None;
   ArticleProcesser.i_creator := None;
   ArticleProcesser.i_description := Some "A description";
   ArticleProcesser.i_content_encoded := Some sample_text;
   ArticleProcesser.i_categories := "" |}.



(** C7.  The primary insert of an article succeeds and its metadata insert
    fails.  The call returns [False] and keeps the primary row, but the
    failed-articles table stays empty: the handler's call of
    [log_failed_article] lacks an argument and raises before anything is
    recorded.  Called with all its arguments, [log_failed_article] would
    have created the record of the uuid with attempt count 1. *)
Theorem write_article_to_db_metadata_failure_unrecorded :
  let r := ArticleProcesser.write_article_to_db sample_lib "" DjangoConfig.empty_database
             (sample_article_without_title "https://example.org/a" "3f2c9a") in
  ArticleProcesser.wr_ok r = false ∧
  DjangoConfig.rss_feed_articles (ArticleProcesser.wr_db r)
  = [{| DjangoConfig.rss_uuid := "3f2c9a";
        DjangoConfig.rss_url := "https://example.org/a";
        DjangoConfig.rss_source_url := "https://example.org/feed";
        DjangoConfig.rss_domain := "example.org";
        DjangoConfig.rss_fetched_at := "2026-11-04T09:00:00" |}] ∧
  DjangoConfig.article_metadata (ArticleProcesser.wr_db r) = [] ∧
  DjangoConfig.failed_articles (ArticleProcesser.wr_db r) = [] ∧
  DjangoConfig.failed_articles
    (DbFunc.log_failed_article (ArticleProcesser.wr_db r)
       "3f2c9a" "https://example.org/a" "KeyError" "'title'")
  = [{| DjangoConfig.fa_uuid := "3f2c9a";
        DjangoConfig.fa_url := "https://example.org/a";
        DjangoConfig.fa_error_type := "KeyError";
        DjangoConfig.fa_error_message := "'title'";
        DjangoConfig.fa_attempt_count := 1 |}].
Proof. repeat split; reflexivity. Qed.

(** ** The failure ledger and items whose content cannot be extracted *)

Section LedgerFacts.
Import DjangoConfig ArticleProcesser.

(** The attempt count a failure of [article_uuid] is recorded with. *)
Definition next_attempt (d : database) (article_uuid : string) : nat :=
match first_where (λ r, String.eqb (fa_uuid r) article_uuid) (failed_articles d) with
| Some r => fa_attempt_count r + 1
| None => 1
end.

(** [log_failed_article] creates the record of a uuid on its first failure
    and afterwards updates that record, counting the attempts. *)
Lemma log_failed_article_record (d : database) (u url etype emsg : string) :
  let d' := DbFunc.log_failed_article d u url etype emsg in
  first_where (λ r, String.eqb (fa_uuid r) u) (failed_articles d')
  = Some {| fa_uuid := u; fa_url := url; fa_error_type := etype;
            fa_error_message := emsg; fa_attempt_count := next_attempt d u |} ∧
  length (failed_articles d')
  = match first_where (λ r, String.eqb (fa_uuid r) u) (failed_articles d) with
    | Some _ => length (failed_articles d)
    | None => S (length (failed_articles d))
    end ∧
  rss_feed_articles d' = rss_feed_articles d ∧
  article_metadata d' = article_metadata d.
Proof.
unfold DbFunc.log_failed_article, next_attempt.
destruct (first_where _ (failed_articles d)) as [old|] eqn:Hold; simpl.
- repeat split.
  + rewrite first_where_save_first, Hold by done. simpl.
    apply List.find_some in Hold as [_ Heq%String.eqb_eq]. by rewrite Heq.
  + apply save_first_length.
- repeat split.
  + apply first_where_app_new; [done|]. apply String.eqb_refl.
  + rewrite length_app. simpl. lia.
Qed.

End LedgerFacts.

(** C6 (as amended).  A feed item with a new link and no inline content is
    processed, and the extraction for the url to fetch (the link itself,
    or for news.google.com the url it resolves to) returns nothing.  Then
    the item is reported as failed, the failure is recorded in the
    failed-articles table under the item's uuid, with attempt count 1 for a
    new uuid and one more than before for a uuid already recorded, and the
    article tables are left as they were: no article row is written. *)
Theorem process_single_article_extraction_failure
  (l : ArticleProcesser.lib) (w : Extractor.web) (uuids : string * string)
  (d : DjangoConfig.database) (it : ArticleProcesser.item)
  (source_name source_url fetch_url : string) (existing_urls : gset string) :
  let link := ArticleProcesser.text_or_empty (ArticleProcesser.i_link it) in
  Py.truthy link = true →
  link ∉ existing_urls →
  Py.truthy_opt (ArticleProcesser.i_content_encoded it) = false →
  (source_name ≠ "news.google.com" ∧ fetch_url = link) ∨
  (source_name = "news.google.com" ∧
   ArticleProcesser.get_redirected_url l link = Extractor.Text fetch_url ∧
   Py.truthy fetch_url = true) →
  (Extractor.get_article_content w fetch_url None).1 = None →
  let r := ArticleProcesser.process_single_article l w uuids d it source_name
             existing_urls source_url in
  ArticleProcesser.pr_success r = false ∧
  ArticleProcesser.pr_status r = "failed" ∧
  ArticleProcesser.pr_existing_urls r = existing_urls ∧
  DjangoConfig.rss_feed_articles (ArticleProcesser.pr_db r)
  = DjangoConfig.rss_feed_articles d ∧
  DjangoConfig.article_metadata (ArticleProcesser.pr_db r)
  = DjangoConfig.article_metadata d ∧
  DjangoConfig.first_where (λ row, String.eqb (DjangoConfig.fa_uuid row) uuids.1)
    (DjangoConfig.failed_articles (ArticleProcesser.pr_db r))
  = Some {| DjangoConfig.fa_uuid := uuids.1;
            DjangoConfig.fa_url := fetch_url;
            DjangoConfig.fa_error_type := "content_extraction_failed";
            DjangoConfig.fa_error_message := "Failed to fetch content from: " +:+ fetch_url;
            DjangoConfig.fa_attempt_count := next_attempt d uuids.1 |}.
Proof.
intros link Hlink Hnew Hinline Htarget Hnone r.
assert (r = {| ArticleProcesser.pr_success := false;
               ArticleProcesser.pr_status := "failed";
               ArticleProcesser.pr_db :=
                 DbFunc.log_failed_article d uuids.1 fetch_url "content_extraction_failed"
                   ("Failed to fetch content from: " +:+ fetch_url);
               ArticleProcesser.pr_existing_urls := existing_urls |}) as ->.
{ unfold r, ArticleProcesser.process_single_article. fold link.
  rewrite Hlink, Hinline. simpl negb. rewrite bool_decide_eq_false_2 by done.
  cbv beta iota. simpl orb. cbv iota.
  destruct Htarget as [[Hsrc ->]|(-> & Hres & Htruthy)].
  - apply String.eqb_neq in Hsrc. rewrite Hsrc. rewrite Hnone. reflexivity.
  - rewrite String.eqb_refl, Hres, Htruthy, Hnone. reflexivity. }
simpl.
pose proof (log_failed_article_record d uuids.1 fetch_url "content_extraction_failed"
              ("Failed to fetch content from: " +:+ fetch_url)) as (Hrec & _ & Hrss & Hmd).
repeat split; assumption.
Qed.

(** An item with a link and no inline content, on a site where every
    extraction strategy comes back empty-handed. *)
Definition sample_item : ArticleProcesser.item :=
{| ArticleProcesser.i_title := Some "A title";
   ArticleProcesser.i_link := Some "https://example.org/a";
   ArticleProcesser.i_pubDate := None;
   ArticleProcesser.i_creator := None;
   ArticleProcesser.i_description := Some "A description";
   ArticleProcesser.i_content_encoded := None;
   ArticleProcesser.i_categories := "" |}.

Definition sample_dead_web : Extractor.web :=
{| Extractor.newspaper_text := λ _, Extractor.Raised "ArticleException";
   Extractor.trafilatura_extract := λ _, Extractor.NoText;
   Extractor.readability_text := λ _, Extractor.Text "Access denied";
   Extractor.playwright_extract := λ _, Extractor.Raised "TimeoutError";
   Extractor.jina_api_key := false;
   Extractor.jina_post := λ _, None;
   Extractor.extraction_method_for_site := λ _, "all" |}.

Definition sample_failed_item : ArticleProcesser.process_result :=
ArticleProcesser.process_single_article sample_lib sample_dead_web ("3f2c9a", "77b0e4")
  DjangoConfig.empty_database sample_item "example.org" ∅ "https://example.org/feed".

Lemma process_single_article_extraction_failure_witness :
  ArticleProcesser.pr_status sample_failed_item = "failed" ∧
  DjangoConfig.first_where (λ row, String.eqb (DjangoConfig.fa_uuid row) "3f2c9a")
    (DjangoConfig.failed_articles (ArticleProcesser.pr_db sample_failed_item))
  = Some {| DjangoConfig.fa_uuid := "3f2c9a";
            DjangoConfig.fa_url := "https://example.org/a";
            DjangoConfig.fa_error_type := "content_extraction_failed";
            DjangoConfig.fa_error_message :=
              "Failed to fetch content from: https://example.org/a";
            DjangoConfig.fa_attempt_count := 1 |}.
Proof.
pose proof (process_single_article_extraction_failure sample_lib sample_dead_web
              ("3f2c9a", "77b0e4") DjangoConfig.empty_database sample_item
              "example.org" "https://example.org/feed" "https://example.org/a" ∅) as H.
simpl in H. specialize (H eq_refl).
destruct H as (_ & Hstatus & _ & _ & _ & Hrecord).
- apply not_elem_of_empty.
- reflexivity.
- left. split; [discriminate | reflexivity].
- reflexivity.
- split; [exact Hstatus | exact Hrecord].
Defined.

(** C6 as stated fails: after the failed extraction the failure is on the
    ledger, but neither article table holds a row for the item. *)
Lemma process_single_article_failed_item_not_stored :
  ArticleProcesser.pr_status sample_failed_item = "failed" ∧
  length (DjangoConfig.failed_articles (ArticleProcesser.pr_db sample_failed_item)) = 1 ∧
  DjangoConfig.rss_feed_articles (ArticleProcesser.pr_db sample_failed_item) = [] ∧
  DjangoConfig.article_metadata (ArticleProcesser.pr_db sample_failed_item) = [].
Proof. repeat split; reflexivity. Qed.

(** ** Chunking *)

(** [ceil(n / s)] on natural numbers. *)
Definition ceil_div (n s : nat) : nat := (n + s - 1) / s.

Section ChunkFacts.
Import DjangoConfig VectorDb.

(** [ceil_div n s] is the least number of blocks of size [s] covering
    [n]. *)
Lemma ceil_div_le_iff (n s k : nat) : 0 < s → ceil_div n s ≤ k ↔ n ≤ k * s.
Proof.
intros Hs. unfold ceil_div.
pose proof (Nat.div_mod_eq (n + s - 1) s) as Hdiv.
pose proof (Nat.mod_upper_bound (n + s - 1) s ltac:(lia)) as Hmod.
split; intros H; nia.
Qed.

Lemma ceil_div_0 (s : nat) : 0 < s → ceil_div 0 s = 0.
Proof.
intros Hs. apply Nat.le_0_r. apply ceil_div_le_iff; [done | lia].
Qed.

Lemma ceil_div_step (n s : nat) : 0 < s → 0 < n → ceil_div n s = S (ceil_div (n - s) s).
Proof.
intros Hs Hn. apply Nat.le_antisymm.
- apply ceil_div_le_iff; [done|].
  pose proof (proj1 (ceil_div_le_iff (n - s) s (ceil_div (n - s) s) Hs) (Nat.le_refl _)).
  nia.
- destruct (ceil_div n s) as [|k] eqn:Hk.
  + pose proof (proj1 (ceil_div_le_iff n s 0 Hs)) as H. rewrite Hk in H.
    specialize (H (Nat.le_refl _)). lia.
  + apply le_n_S. apply ceil_div_le_iff; [done|].
    pose proof (proj1 (ceil_div_le_iff n s (S k) Hs)) as H. rewrite Hk in H.
    specialize (H (Nat.le_refl _)). nia.
Qed.

Lemma range_go_length (fuel i stop step : nat) :
  0 < step → stop - i ≤ fuel →
  length (Py.range_go fuel i stop step) = ceil_div (stop - i) step.
Proof.
intros Hstep. revert i. induction fuel as [|fuel IH]; intros i Hfuel; simpl.
- replace (stop - i) with 0 by lia. by rewrite ceil_div_0.
- destruct (Nat.ltb_spec i stop) as [Hlt|Hge]; simpl.
  + rewrite IH by lia. rewrite (ceil_div_step (stop - i) step) by lia.
    do 2 f_equal. lia.
  + replace (stop - i) with 0 by lia. by rewrite ceil_div_0.
Qed.

Lemma range_length (stop step : nat) :
  0 < step → ∃ starts, Py.range stop step = Some starts ∧ length starts = ceil_div stop step.
Proof.
intros Hstep. unfold Py.range.
destruct (Nat.eqb_spec step 0) as [->|_]; [lia|].
eexists. split; [reflexivity|].
rewrite range_go_length by lia. f_equal. lia.
Qed.

(** [chunk_text_by_words] cuts a text of [W] words into [ceil(W / B)]
    chunks. *)
Lemma chunk_text_by_words_length (text : string) (B : nat) :
  0 < B →
  ∃ chunks, chunk_text_by_words text B = Some chunks ∧
            length chunks = ceil_div (length (Py.split text)) B.
Proof.
intros HB. unfold chunk_text_by_words.
destruct (range_length (length (Py.split text)) B HB) as (starts & -> & Hlen).
eexists. split; [reflexivity|]. by rewrite length_fmap.
Qed.

(** The word budget in force. *)
Definition budget (cfg : config) : nat :=
default DEFAULT_MAX_WORDS_PER_CHUNK (max_words_per_chunk cfg).

(** The word count of what is embedded for an article. *)
Definition words_of (a : article) : nat := length (Py.split (text_to_embed a)).

Lemma prepare_article_chunk_count (a : article) (cfg : config) :
  0 < budget cfg →
  ∃ chunk_data,
    prepare_article_for_embedding a cfg = inr chunk_data ∧
    length chunk_data = 1 `max` ceil_div (words_of a) (budget cfg).
Proof.
intros HB. unfold prepare_article_for_embedding. fold (budget cfg). fold (words_of a).
destruct (Nat.leb_spec (words_of a) (budget cfg)) as [Hle|Hgt].
- eexists. split; [reflexivity|]. simpl.
  assert (ceil_div (words_of a) (budget cfg) ≤ 1); [|lia].
  apply ceil_div_le_iff; [done | lia].
- destruct (chunk_text_by_words_length (text_to_embed a) (budget cfg) HB)
    as (chunks & -> & Hlen).
  eexists. split; [reflexivity|]. rewrite length_imap, Hlen. fold (words_of a).
  assert (¬ ceil_div (words_of a) (budget cfg) ≤ 1); [|lia].
  rewrite ceil_div_le_iff by done. lia.
Qed.

(** Every chunk carries its own index and the number of chunks. *)
Lemma prepare_article_chunk_metadata (a : article) (cfg : config)
  (chunk_data : list (string * metadata)) (i : nat) (text : string) (md : metadata) :
  prepare_article_for_embedding a cfg = inr chunk_data →
  chunk_data !! i = Some (text, md) →
  chunk_index md = i ∧ total_chunks md = length chunk_data ∧ m_uuid md = uuid a.
Proof.
unfold prepare_article_for_embedding.
destruct (_ <=? _).
- intros [= <-]. destruct i as [|i]; [|done]. by intros [= <- <-].
- destruct (chunk_text_by_words _ _) as [chunks|]; [|done].
  intros [= <-]. rewrite list_lookup_imap, length_imap.
  destruct (chunks !! i) as [chunk|]; [|done]. by intros [= <- <-].
Qed.

End ChunkFacts.

(** ** Texts and vectors of a batch *)

Section BatchFacts.
Import DjangoConfig VectorDb.
Context {Emb : Type}.

(** Every text handed to the embedder by the calls [cs]. *)
Definition embedded_texts (cs : list (call Emb)) : list string :=
cs ≫= λ c, match c with EmbedCall texts => texts | IndexCall | UpsertCall _ _ => [] end.

Lemma embedded_texts_app (cs1 cs2 : list (call Emb)) :
  embedded_texts (cs1 ++ cs2) = embedded_texts cs1 ++ embedded_texts cs2.
Proof. unfold embedded_texts. apply bind_app. Qed.

Lemma kept_chunks_elem (idx : nat) (skip_short : bool)
  (chunk_data : list (string * metadata)) (text : string) (ref : chunk_ref) :
  (text, ref) ∈ kept_chunks idx skip_short chunk_data →
  ∃ chunk_idx md, chunk_data !! chunk_idx = Some (text, md) ∧
                  ref = (idx, chunk_idx, length chunk_data).
Proof.
unfold kept_chunks. intros (o & Ho & Hsome)%list_elem_of_omap.
apply elem_of_lookup_imap in Ho as (chunk_idx & [t md] & -> & Hlookup).
simpl in Hsome. destruct (_ && _); [done|]. injection Hsome as <- <-. eauto.
Qed.

Lemma collect_chunks_elem (cfg : config) (skip_short : bool) (articles : list article)
  (text : string) (ref : chunk_ref) :
  (text, ref) ∈ collect_chunks cfg skip_short articles →
  ∃ idx a chunk_data chunk_idx md,
    articles !! idx = Some a ∧ prepare_article_for_embedding a cfg = inr chunk_data ∧
    chunk_data !! chunk_idx = Some (text, md) ∧ ref = (idx, chunk_idx, length chunk_data).
Proof.
unfold collect_chunks. intros (kept & Hin & Hkept)%list_elem_of_join.
apply elem_of_lookup_imap in Hkept as (idx & a & -> & Ha).
destruct (prepare_article_for_embedding a cfg) as [e|chunk_data] eqn:Hprep.
- by apply elem_of_nil in Hin.
- apply kept_chunks_elem in Hin as (chunk_idx & md & Hchunk & ->).
  exists idx, a, chunk_data, chunk_idx, md. done.
Qed.

(** The text of a prepared chunk is the first 8000 characters of the whole
    text (one chunk) or of a word-bounded chunk (several). *)
Lemma prepare_article_text_cut (a : article) (cfg : config)
  (chunk_data : list (string * metadata)) (i : nat) (text : string) (md : metadata) :
  prepare_article_for_embedding a cfg = inr chunk_data →
  chunk_data !! i = Some (text, md) →
  ∃ chunk, text = Py.str_take MAX_EMBED_CHARS chunk ∧
    (words_of a ≤ budget cfg → chunk = text_to_embed a) ∧
    (budget cfg < words_of a →
     ∃ chunks, chunk_text_by_words (text_to_embed a) (budget cfg) = Some chunks ∧
               chunks !! i = Some chunk).
Proof.
unfold prepare_article_for_embedding. fold (budget cfg). fold (words_of a).
destruct (Nat.leb_spec (words_of a) (budget cfg)) as [Hle|Hgt].
- intros [= <-]. destruct i as [|i]; [|done]. intros [= <- <-].
  exists (text_to_embed a). split; [done|]. split; [done | lia].
- destruct (chunk_text_by_words _ _) as [chunks|]; [|done].
  intros [= <-]. rewrite list_lookup_imap.
  destruct (chunks !! i) as [chunk|] eqn:Hchunk; [|done]. intros [= <- <-].
  exists chunk. split; [done|]. split; [lia | eauto].
Qed.

Lemma prepare_vectors_batch_calls (c : cloud Emb) (cfg : config) (skip_short : bool)
  (articles : list article) (s : state Emb) :
  calls (prepare_vectors_batch c cfg skip_short articles s).2 = calls s ∨
  calls (prepare_vectors_batch c cfg skip_short articles s).2
  = calls s ++ [EmbedCall (collect_chunks cfg skip_short articles).*1].
Proof.
unfold prepare_vectors_batch.
destruct ((collect_chunks cfg skip_short articles).*1) as [|t ts] eqn:Htexts; [by left|].
right. destruct (embed_texts_batch c (t :: ts)); [done|].
by destruct (build_vectors _ _ _) as [vectors []].
Qed.

Lemma build_vectors_elem (cfg : config) (articles : list article)
  (pairs : list (Emb * chunk_ref)) (v : vector Emb) :
  v ∈ (build_vectors cfg articles pairs).1 →
  ∃ embedding ref, build_vector cfg articles embedding ref = Some v.
Proof.
induction pairs as [|[embedding ref] pairs IH]; simpl.
- intros H. by apply elem_of_nil in H.
- destruct (build_vector cfg articles embedding ref) as [v'|] eqn:Hv'; simpl.
  + destruct (build_vectors cfg articles pairs) as [vs ok]. simpl in *.
    intros [->|Hv]%elem_of_cons; eauto.
  + intros H. by apply elem_of_nil in H.
Qed.

Lemma prepare_vectors_batch_vectors (c : cloud Emb) (cfg : config) (skip_short : bool)
  (articles : list article) (s : state Emb) (v : vector Emb) :
  v ∈ (prepare_vectors_batch c cfg skip_short articles s).1 →
  ∃ embedding ref, build_vector cfg articles embedding ref = Some v.
Proof.
unfold prepare_vectors_batch.
destruct ((collect_chunks cfg skip_short articles).*1) as [|t ts]; simpl.
{ intros H. by apply elem_of_nil in H. }
destruct (embed_texts_batch c (t :: ts)) as [e|embeddings]; simpl.
{ intros H. by apply elem_of_nil in H. }
destruct (build_vectors cfg articles _) as [vectors ok] eqn:Hbuild.
intros Hv.
apply (build_vectors_elem cfg articles
         (zip embeddings (collect_chunks cfg skip_short articles).*2)).
rewrite Hbuild. by destruct ok.
Qed.

Lemma build_vector_shape (cfg : config) (articles : list article) (embedding : Emb)
  (ref : chunk_ref) (v : vector Emb) :
  build_vector cfg articles embedding ref = Some v →
  ∃ a chunk_data i,
    a ∈ articles ∧ prepare_article_for_embedding a cfg = inr chunk_data ∧
    i < length chunk_data ∧
    v_id v = uuid a +:+ "_chunk_" +:+ Py.str_of_nat i ∧
    chunk_index (v_metadata v) = i ∧
    total_chunks (v_metadata v) = length chunk_data.
Proof.
destruct ref as [[article_idx chunk_idx] total]. unfold build_vector.
destruct (articles !! article_idx) as [a|] eqn:Ha; [|done].
destruct (prepare_article_for_embedding a cfg) as [e|chunk_data] eqn:Hprep; [done|].
destruct (chunk_data !! chunk_idx) as [[text md]|] eqn:Hchunk; [|done].
intros [= <-]. simpl.
destruct (prepare_article_chunk_metadata a cfg chunk_data chunk_idx text md Hprep Hchunk)
  as (Hidx & Htotal & _).
exists a, chunk_data, chunk_idx. repeat split; try done.
- by eapply list_elem_of_lookup_2.
- by eapply lookup_lt_Some.
Qed.

(** A chunk is kept unless short chunks are skipped and its stripped text
    has fewer than 10 characters. *)
Definition kept (skip_short : bool) (text : string) : Prop :=
skip_short = false ∨ 10 ≤ String.length (Py.strip text).

Lemma kept_spec (skip_short : bool) (text : string) :
  skip_short && (String.length (Py.strip text) <? 10) = false ↔ kept skip_short text.
Proof.
unfold kept. destruct skip_short; simpl.
- rewrite Nat.ltb_ge. split; [by right|]. by intros [|].
- split; [by left|done].
Qed.

Lemma kept_chunks_spec (idx : nat) (skip_short : bool)
  (chunk_data : list (string * metadata)) (text : string) (ref : chunk_ref) :
  (text, ref) ∈ kept_chunks idx skip_short chunk_data ↔
  ∃ chunk_idx md, chunk_data !! chunk_idx = Some (text, md) ∧ kept skip_short text ∧
                  ref = (idx, chunk_idx, length chunk_data).
Proof.
unfold kept_chunks. rewrite list_elem_of_omap. split.
- intros (o & Ho & Hsome).
  apply elem_of_lookup_imap in Ho as (chunk_idx & [t md] & -> & Hlookup).
  simpl in Hsome. destruct (_ && _) eqn:Hshort; [done|]. injection Hsome as <- <-.
  apply kept_spec in Hshort. eauto.
- intros (chunk_idx & md & Hlookup & Hkept%kept_spec & ->).
  exists (Some (text, (idx, chunk_idx, length chunk_data))). split; [|done].
  apply elem_of_lookup_imap. exists chunk_idx, (text, md). simpl. by rewrite Hkept.
Qed.

Lemma collect_chunks_spec (cfg : config) (skip_short : bool) (articles : list article)
  (text : string) (ref : chunk_ref) :
  (text, ref) ∈ collect_chunks cfg skip_short articles ↔
  ∃ idx a chunk_data chunk_idx md,
    articles !! idx = Some a ∧ prepare_article_for_embedding a cfg = inr chunk_data ∧
    chunk_data !! chunk_idx = Some (text, md) ∧ kept skip_short text ∧
    ref = (idx, chunk_idx, length chunk_data).
Proof.
unfold collect_chunks. rewrite list_elem_of_join. split.
- intros (chunks & Hin & Hchunks).
  apply elem_of_lookup_imap in Hchunks as (idx & a & -> & Ha).
  destruct (prepare_article_for_embedding a cfg) as [e|chunk_data] eqn:Hprep.
  + by apply elem_of_nil in Hin.
  + apply kept_chunks_spec in Hin as (chunk_idx & md & Hchunk & Hkept & ->).
    exists idx, a, chunk_data, chunk_idx, md. done.
- intros (idx & a & chunk_data & chunk_idx & md & Ha & Hprep & Hchunk & Hkept & ->).
  exists (kept_chunks idx skip_short chunk_data). split.
  + apply kept_chunks_spec. eauto.
  + apply elem_of_lookup_imap. exists idx, a. by rewrite Hprep.
Qed.

(** The vector of a chunk that [collect_chunks] kept. *)
Lemma build_vector_collected (cfg : config) (skip_short : bool) (articles : list article)
  (embedding : Emb) (text : string) (ref : chunk_ref) :
  (text, ref) ∈ collect_chunks cfg skip_short articles →
  ∃ a chunk_data md,
    articles !! ref.1.1 = Some a ∧ prepare_article_for_embedding a cfg = inr chunk_data ∧
    chunk_data !! ref.1.2 = Some (text, md) ∧ kept skip_short text ∧
    build_vector cfg articles embedding ref
    = Some {| v_id := vector_id a ref.1.2; v_values := embedding; v_metadata := md |}.
Proof.
intros (idx & a & chunk_data & chunk_idx & md & Ha & Hprep & Hchunk & Hkept & ->)
  %collect_chunks_spec.
exists a, chunk_data, md. simpl. rewrite Ha, Hprep, Hchunk. done.
Qed.

(** When every pair gives a vector, the loop builds them all, in order. *)
Lemma build_vectors_all (cfg : config) (articles : list article)
  (pairs : list (Emb * chunk_ref)) :
  (∀ embedding ref, (embedding, ref) ∈ pairs →
     is_Some (build_vector cfg articles embedding ref)) →
  Forall2 (λ (pair : Emb * chunk_ref) v, build_vector cfg articles pair.1 pair.2 = Some v)
    pairs (build_vectors cfg articles pairs).1.
Proof.
induction pairs as [|[embedding ref] pairs IH]; intros Hall; simpl; [constructor|].
destruct (Hall embedding ref) as [v Hv]; [left|]. rewrite Hv.
specialize (IH (λ e r Hin, Hall e r (list_elem_of_further _ _ _ Hin))).
destruct (build_vectors cfg articles pairs) as [vs ok]. simpl in *. by constructor.
Qed.

Lemma zip_fmap_snd {A B} (xs : list Emb) (l : list (A * B)) :
  length xs = length l →
  Forall2 (λ (x : A * B) (pair : Emb * B), pair.2 = x.2) l (zip xs l.*2).
Proof.
revert xs. induction l as [|x l IH]; intros [|e xs] Hlen; try done; try by constructor.
csimpl. constructor; [done|]. apply IH. simpl in Hlen. lia.
Qed.

(** With an embedding for every kept chunk, [prepare_vectors_batch] builds
    one vector per kept chunk, in the order of the chunks. *)
Lemma prepare_vectors_batch_all (c : cloud Emb) (cfg : config) (skip_short : bool)
  (articles : list article) (s : state Emb) (embeddings : list Emb) :
  let collected := collect_chunks cfg skip_short articles in
  embed_texts_batch c collected.*1 = inr embeddings →
  length embeddings = length collected →
  Forall2 (λ (chunk : string * chunk_ref) v,
             ∃ a chunk_data md,
               articles !! chunk.2.1.1 = Some a ∧
               prepare_article_for_embedding a cfg = inr chunk_data ∧
               chunk_data !! chunk.2.1.2 = Some (chunk.1, md) ∧
               v_id v = vector_id a chunk.2.1.2 ∧ v_metadata v = md)
    collected (prepare_vectors_batch c cfg skip_short articles s).1.
Proof.
intros collected Hembed Hlen. unfold prepare_vectors_batch. fold collected.
destruct (collected.*1) as [|t ts] eqn:Htexts.
{ apply fmap_nil_inv in Htexts. rewrite Htexts. constructor. }
rewrite Hembed.
assert (Forall2 (λ (pair : Emb * chunk_ref) v,
                   build_vector cfg articles pair.1 pair.2 = Some v)
          (zip embeddings collected.*2)
          (build_vectors cfg articles (zip embeddings collected.*2)).1) as Hbuilt.
{ apply build_vectors_all. intros embedding ref Hin.
  apply elem_of_zip_r in Hin. apply list_elem_of_fmap in Hin as ([text ref'] & -> & Hin).
  destruct (build_vector_collected cfg skip_short articles embedding text ref' Hin)
    as (a & chunk_data & md & _ & _ & _ & _ & Hvec).
  simpl. by rewrite Hvec. }
destruct (build_vectors cfg articles (zip embeddings collected.*2)) as [vectors ok].
assert (Forall2 (λ (chunk : string * chunk_ref) (pair : Emb * chunk_ref), pair.2 = chunk.2)
          collected (zip embeddings collected.*2)) as Hzip.
{ by apply zip_fmap_snd. }
assert (Forall2 (λ (chunk : string * chunk_ref) v,
                   ∃ a chunk_data md,
                     articles !! chunk.2.1.1 = Some a ∧
                     prepare_article_for_embedding a cfg = inr chunk_data ∧
                     chunk_data !! chunk.2.1.2 = Some (chunk.1, md) ∧
                     v_id v = vector_id a chunk.2.1.2 ∧ v_metadata v = md)
          collected vectors) as Hall.
{ apply Forall2_same_length_lookup. split.
  - apply Forall2_length in Hzip, Hbuilt. simpl in Hbuilt. congruence.
  - intros k [text ref] v Hchunk Hv.
    destruct (Forall2_lookup_l _ _ _ _ _ Hzip Hchunk) as ([e ref'] & Hpair & Href).
    simpl in Href. subst ref'.
    destruct (Forall2_lookup_l _ _ _ _ _ Hbuilt Hpair) as (v' & Hv' & Hbuild).
    simpl in Hv', Hbuild. assert (v' = v) as -> by congruence.
    destruct (build_vector_collected cfg skip_short articles e text ref)
      as (a & chunk_data & md & Ha & Hprep & Hlookup & _ & Hvec);
      [by eapply list_elem_of_lookup_2|].
    rewrite Hvec in Hbuild. injection Hbuild as <-.
    exists a, chunk_data, md. done. }
by destruct ok.
Qed.

Lemma build_vectors_elem_pair (cfg : config) (articles : list article)
  (pairs : list (Emb * chunk_ref)) (v : vector Emb) :
  v ∈ (build_vectors cfg articles pairs).1 →
  ∃ embedding ref, (embedding, ref) ∈ pairs ∧
                   build_vector cfg articles embedding ref = Some v.
Proof.
induction pairs as [|[embedding ref] pairs IH]; simpl.
- intros H. by apply elem_of_nil in H.
- destruct (build_vector cfg articles embedding ref) as [v'|] eqn:Hv'; simpl.
  + destruct (build_vectors cfg articles pairs) as [vs ok]. simpl in *.
    intros [->|Hv]%elem_of_cons.
    * exists embedding, ref. split; [left|done].
    * destruct (IH Hv) as (e & r & Hin & Hbuild). exists e, r. split; [by right|done].
  + intros H. by apply elem_of_nil in H.
Qed.

(** Every vector built is the vector of a kept chunk. *)
Lemma prepare_vectors_batch_vectors_kept (c : cloud Emb) (cfg : config) (skip_short : bool)
  (articles : list article) (s : state Emb) (v : vector Emb) :
  v ∈ (prepare_vectors_batch c cfg skip_short articles s).1 →
  ∃ a chunk_data i text md,
    a ∈ articles ∧ prepare_article_for_embedding a cfg = inr chunk_data ∧
    chunk_data !! i = Some (text, md) ∧ kept skip_short text ∧
    v_id v = vector_id a i ∧ v_metadata v = md.
Proof.
unfold prepare_vectors_batch.
destruct ((collect_chunks cfg skip_short articles).*1) as [|t ts]; simpl.
{ intros H. by apply elem_of_nil in H. }
destruct (embed_texts_batch c (t :: ts)) as [e|embeddings]; simpl.
{ intros H. by apply elem_of_nil in H. }
destruct (build_vectors cfg articles _) as [vectors ok] eqn:Hbuild.
intros Hv.
assert (v ∈ (build_vectors cfg articles
               (zip embeddings (collect_chunks cfg skip_short articles).*2)).1) as Hin
  by (rewrite Hbuild; by destruct ok).
apply build_vectors_elem_pair in Hin as (embedding & ref & Hpair & Hvec).
apply elem_of_zip_r, list_elem_of_fmap in Hpair as ([text ref'] & Href & Hchunk).
simpl in Href. subst ref'.
destruct (build_vector_collected cfg skip_short articles embedding text ref Hchunk)
  as (a & chunk_data & md & Ha & Hprep & Hlookup & Hkept & Hvec').
rewrite Hvec' in Hvec. injection Hvec as <-.
exists a, chunk_data, ref.1.2, text, md. repeat split; try done.
by eapply list_elem_of_lookup_2.
Qed.

End BatchFacts.

(** C10.  Every text that [prepare_vectors_batch] hands to the embedder is
    at most 8000 characters long: it is the first 8000 characters of the
    whole title + description + content text when the article fits the
    word budget (the single-chunk case), and of one word-bounded chunk
    otherwise.  Nothing beyond the first 8000 characters of a chunk is
    embedded. *)
Theorem embedded_text_truncated {Emb : Type}
  (c : VectorDb.cloud Emb) (cfg : VectorDb.config) (skip_short : bool)
  (articles : list VectorDb.article) (s : VectorDb.state Emb) (t : string) :
  t ∈ embedded_texts
        (VectorDb.calls (VectorDb.prepare_vectors_batch c cfg skip_short articles s).2) →
  t ∈ embedded_texts (VectorDb.calls s) ∨
  (String.length t ≤ 8000 ∧
   ∃ a chunk,
     a ∈ articles ∧ t = Py.str_take 8000 chunk ∧
     (words_of a ≤ budget cfg → chunk = VectorDb.text_to_embed a) ∧
     (budget cfg < words_of a →
      ∃ chunks,
        VectorDb.chunk_text_by_words (VectorDb.text_to_embed a) (budget cfg) = Some chunks ∧
        chunk ∈ chunks)).
Proof.
destruct (prepare_vectors_batch_calls c cfg skip_short articles s) as [->| ->]; [by left|].
rewrite embedded_texts_app. intros [Hold|Hnew]%elem_of_app; [by left|]. right.
unfold embedded_texts in Hnew. simpl in Hnew. rewrite app_nil_r in Hnew.
apply list_elem_of_fmap in Hnew as ([t' ref] & -> & Hin). simpl.
apply collect_chunks_elem in Hin as (idx & a & chunk_data & i & md & Ha & Hprep & Hchunk & _).
destruct (prepare_article_text_cut a cfg chunk_data i t' md Hprep Hchunk)
  as (chunk & -> & Hone & Hmany).
split.
- rewrite str_take_length. apply Nat.le_min_l.
- exists a, chunk. split; [by eapply list_elem_of_lookup_2|]. split; [done|].
  split; [done|]. intros Hgt. destruct (Hmany Hgt) as (chunks & Hchunks & Hi).
  exists chunks. split; [done|]. by eapply list_elem_of_lookup_2.
Qed.

(** Sample articles and providers.  The stand-in embedding of a text is
    its length. *)
Definition sample_varticle (uuid title description content : string) : VectorDb.article :=
{| VectorDb.uuid := uuid;
   VectorDb.url := "https://example.org/" +:+ uuid;
   VectorDb.title := title;
   VectorDb.pub_date := None;
   VectorDb.description := description;
   VectorDb.content := content;
   VectorDb.category := "";
   VectorDb.language := "en";
   VectorDb.source_url := "https://example.org/feed";
   VectorDb.domain := "example.org";
   VectorDb.fetched_at := None;
   VectorDb.word_count := length (Py.split content);
   VectorDb.creator := "" |}.

Definition sample_cloud (index_ok upsert_ok : bool) : VectorDb.cloud nat :=
{| VectorDb.embed_texts_batch := λ texts, inr (String.length <$> texts);
   VectorDb.get_pinecone_index := index_ok;
   VectorDb.index_upsert := λ _ _, upsert_ok |}.

Definition sample_down_embedder : VectorDb.cloud nat :=
{| VectorDb.embed_texts_batch := λ _, inl "Service unavailable";
   VectorDb.get_pinecone_index := true;
   VectorDb.index_upsert := λ _ _, true |}.

Definition default_config : VectorDb.config := {| VectorDb.max_words_per_chunk := None |}.

Definition two_word_config : VectorDb.config := {| VectorDb.max_words_per_chunk := Some 2 |}.

Definition sample_state (d : DjangoConfig.database) : VectorDb.state nat :=
{| VectorDb.db := d; VectorDb.calls := [] |}.

Definition sample_short : VectorDb.article :=
sample_varticle "3f2c9a" "Bitcoin rallies" "Markets" "Prices rose again.".

Lemma embedded_text_truncated_witness :
  "Bitcoin rallies Markets Prices rose again."
    ∈ embedded_texts
        (VectorDb.calls
           (VectorDb.prepare_vectors_batch (sample_cloud true true) default_config true
              [sample_short] (sample_state DjangoConfig.empty_database)).2) ∧
  String.length "Bitcoin rallies Markets Prices rose again." ≤ 8000.
Proof.
assert ("Bitcoin rallies Markets Prices rose again."
          ∈ embedded_texts
              (VectorDb.calls
                 (VectorDb.prepare_vectors_batch (sample_cloud true true) default_config true
                    [sample_short] (sample_state DjangoConfig.empty_database)).2)) as Hin.
{ vm_compute. apply list_elem_of_here. }
split; [exact Hin|].
destruct (embedded_text_truncated (sample_cloud true true) default_config true
            [sample_short] (sample_state DjangoConfig.empty_database) _ Hin)
  as [Hold|[Hlen _]].
- simpl in Hold. by apply elem_of_nil in Hold.
- exact Hlen.
Defined.

(** An article of 2002 short words fits the budget of 5500 words, yet its
    text of 12009 characters is embedded as its first 8000 characters. *)
Definition sample_wordy : VectorDb.article :=
sample_varticle "77b0e4" "Long" "read" (Py.join " " (replicate 2000 "lorem")).

Example single_chunk_embedded_as_8000_characters :
  words_of sample_wordy = 2002 ∧
  String.length (VectorDb.text_to_embed sample_wordy) = 12009 ∧
  String.length <$>
    embedded_texts
      (VectorDb.calls
         (VectorDb.prepare_vectors_batch (sample_cloud true true) default_config true
            [sample_wordy] (sample_state DjangoConfig.empty_database)).2)
  = [8000].
Proof. vm_compute. repeat split; reflexivity. Qed.

(** C5 (as amended).  With a positive word budget [B], an article whose
    title + description + content has [W] words is prepared as
    [max(1, ceil(W / B))] chunks, that is [ceil(W / B)] chunks when
    [W >= 1] and one chunk when [W = 0]; the chunk at position [i] carries
    [chunk_index = i] and [total_chunks] equal to the number of chunks.
    When the embedder returns one embedding per text handed to it, one
    vector is built per chunk handed to it, and the chunk [i] of an
    article of the batch gets a vector with the id "{uuid}_chunk_{i}" and
    the metadata of that chunk, unless short chunks are skipped and the
    stripped text of the chunk has fewer than 10 characters: such a chunk
    is not embedded and gets no vector, so the ids of an article need not
    cover every index below [total_chunks].  Conversely every vector built
    is the vector of such a chunk of an article of the batch. *)
Theorem prepare_chunks_and_vector_ids {Emb : Type}
  (c : VectorDb.cloud Emb) (cfg : VectorDb.config) (skip_short : bool)
  (articles : list VectorDb.article) (s : VectorDb.state Emb) :
  0 < budget cfg →
  let vectors := (VectorDb.prepare_vectors_batch c cfg skip_short articles s).1 in
  let collected := VectorDb.collect_chunks cfg skip_short articles in
  (∀ a, ∃ chunk_data,
     VectorDb.prepare_article_for_embedding a cfg = inr chunk_data ∧
     length chunk_data = 1 `max` ceil_div (words_of a) (budget cfg) ∧
     ∀ i text md,
       chunk_data !! i = Some (text, md) →
       VectorDb.chunk_index md = i ∧ VectorDb.total_chunks md = length chunk_data) ∧
  (∀ embeddings,
     VectorDb.embed_texts_batch c collected.*1 = inr embeddings →
     length embeddings = length collected →
     length vectors = length collected ∧
     ∀ a chunk_data i text md,
       a ∈ articles →
       VectorDb.prepare_article_for_embedding a cfg = inr chunk_data →
       chunk_data !! i = Some (text, md) →
       kept skip_short text →
       ∃ v, v ∈ vectors ∧
            VectorDb.v_id v = VectorDb.uuid a +:+ "_chunk_" +:+ Py.str_of_nat i ∧
            VectorDb.v_metadata v = md ∧
            VectorDb.chunk_index md = i ∧
            VectorDb.total_chunks md = 1 `max` ceil_div (words_of a) (budget cfg)) ∧
  (∀ v, v ∈ vectors →
     ∃ a chunk_data i text,
       a ∈ articles ∧
       VectorDb.prepare_article_for_embedding a cfg = inr chunk_data ∧
       chunk_data !! i = Some (text, VectorDb.v_metadata v) ∧
       kept skip_short text ∧
       i < 1 `max` ceil_div (words_of a) (budget cfg) ∧
       VectorDb.v_id v = VectorDb.uuid a +:+ "_chunk_" +:+ Py.str_of_nat i ∧
       VectorDb.chunk_index (VectorDb.v_metadata v) = i ∧
       VectorDb.total_chunks (VectorDb.v_metadata v)
       = 1 `max` ceil_div (words_of a) (budget cfg)).
Proof.
intros HB vectors collected. split; [|split].
- intros a. destruct (prepare_article_chunk_count a cfg HB) as (chunk_data & Hprep & Hlen).
  exists chunk_data. split; [done|]. split; [done|].
  intros i text md Hchunk.
  destruct (prepare_article_chunk_metadata a cfg chunk_data i text md Hprep Hchunk)
    as (? & ? & _). done.
- intros embeddings Hembed Hlen.
  pose proof (prepare_vectors_batch_all c cfg skip_short articles s embeddings Hembed Hlen)
    as Hall.
  cbv zeta in Hall. fold vectors collected in Hall. split.
  { symmetry. by eapply Forall2_length. }
  intros a chunk_data i text md Ha Hprep Hchunk Hkept.
  apply list_elem_of_lookup_1 in Ha as [idx Ha].
  assert ((text, (idx, i, length chunk_data)) ∈ collected) as Hin.
  { apply collect_chunks_spec. exists idx, a, chunk_data, i, md. done. }
  apply list_elem_of_lookup_1 in Hin as [k Hk].
  destruct (Forall2_lookup_l _ _ _ _ _ Hall Hk)
    as (v & Hv & a' & chunk_data' & md' & Ha' & Hprep' & Hchunk' & Hid & Hmd).
  simpl in Ha', Hchunk', Hid.
  assert (a' = a) as -> by congruence.
  assert (chunk_data' = chunk_data) as -> by congruence.
  assert (md' = md) as -> by congruence.
  destruct (prepare_article_chunk_metadata a cfg chunk_data i text md Hprep Hchunk)
    as (Hidx & Htotal & _).
  destruct (prepare_article_chunk_count a cfg HB) as (chunk_data' & Hprep'' & Hcount).
  assert (chunk_data' = chunk_data) as -> by congruence.
  exists v. split; [by eapply list_elem_of_lookup_2|]. split; [exact Hid|].
  split; [exact Hmd|]. split; [exact Hidx|]. by rewrite Htotal.
- intros v Hv.
  apply prepare_vectors_batch_vectors_kept in Hv
    as (a & chunk_data & i & text & md & Ha & Hprep & Hchunk & Hkept & Hid & Hmd).
  destruct (prepare_article_chunk_metadata a cfg chunk_data i text md Hprep Hchunk)
    as (Hidx & Htotal & _).
  destruct (prepare_article_chunk_count a cfg HB) as (chunk_data' & Hprep' & Hcount).
  assert (chunk_data' = chunk_data) as -> by congruence.
  exists a, chunk_data, i, text. rewrite Hmd, <- Hcount.
  split; [done|]. split; [done|]. split; [done|]. split; [done|].
  split; [by eapply lookup_lt_Some|]. done.
Qed.

(** Three long words under a budget of two words: two chunks. *)
Definition sample_two_chunks : VectorDb.article :=
sample_varticle "3f2c9a" "alpha-bravo" "charlie-delta" "echo-foxtrot-golf".

Lemma prepare_chunks_and_vector_ids_witness :
  0 < budget two_word_config ∧
  ∃ v,
    v ∈ (VectorDb.prepare_vectors_batch (sample_cloud true true) two_word_config true
           [sample_two_chunks] (sample_state DjangoConfig.empty_database)).1 ∧
    VectorDb.v_id v = VectorDb.uuid sample_two_chunks +:+ "_chunk_" +:+ Py.str_of_nat 1 ∧
    VectorDb.v_metadata v = VectorDb.chunk_metadata sample_two_chunks 1 2.
Proof.
assert (0 < budget two_word_config) as HB by (unfold budget; simpl; lia).
split; [exact HB|].
destruct (prepare_chunks_and_vector_ids (sample_cloud true true) two_word_config true
            [sample_two_chunks] (sample_state DjangoConfig.empty_database) HB)
  as (_ & Hids & _).
edestruct Hids as [_ Hchunk]; [vm_compute; reflexivity | reflexivity |].
destruct (Hchunk sample_two_chunks
            [("alpha-bravo charlie-delta", VectorDb.chunk_metadata sample_two_chunks 0 2);
             ("echo-foxtrot-golf", VectorDb.chunk_metadata sample_two_chunks 1 2)]
            1 "echo-foxtrot-golf" (VectorDb.chunk_metadata sample_two_chunks 1 2))
  as (v & Hv & Hid & Hmd & _).
- apply list_elem_of_here.
- reflexivity.
- reflexivity.
- right. vm_compute. lia.
- exists v. done.
Defined.

(** The two chunks of that article and the vectors built for them. *)
Example two_chunks_vector_ids :
  (λ v, (VectorDb.v_id v,
         VectorDb.chunk_index (VectorDb.v_metadata v),
         VectorDb.total_chunks (VectorDb.v_metadata v))) <$>
    (VectorDb.prepare_vectors_batch (sample_cloud true true) two_word_config true
       [sample_two_chunks] (sample_state DjangoConfig.empty_database)).1
  = [("3f2c9a_chunk_0", 0, 2); ("3f2c9a_chunk_1", 1, 2)].
Proof. vm_compute. reflexivity. Qed.

(** 12000 words under the default budget of 5500 words: three chunks, each
    with [total_chunks = 3]. *)
Example three_chunks_of_12000_words :
  let a := sample_varticle "77b0e4" "t" "d" (Py.join " " (replicate 11998 "w")) in
  words_of a = 12000 ∧
  match VectorDb.prepare_article_for_embedding a default_config with
  | inr chunk_data =>
      (λ chunk : string * VectorDb.metadata,
         (VectorDb.chunk_index chunk.2, VectorDb.total_chunks chunk.2)) <$> chunk_data
      = [(0, 3); (1, 3); (2, 3)]
  | inl _ => False
  end.
Proof. vm_compute. split; reflexivity. Qed.

(** An article without any text. *)
Definition sample_empty_article : VectorDb.article := sample_varticle "c41d07" "" "" "".

(** C5 as stated fails for an article without words: [ceil(0 / B)] is 0,
    but one chunk is prepared; and that chunk, being short, gets no vector
    at all when the batch is prepared, so that no id "{uuid}_chunk_0"
    exists for its index 0. *)
Lemma prepare_article_no_words_one_chunk :
  words_of sample_empty_article = 0 ∧
  ceil_div (words_of sample_empty_article) (budget default_config) = 0 ∧
  VectorDb.prepare_article_for_embedding sample_empty_article default_config
  = inr [("  ", VectorDb.chunk_metadata sample_empty_article 0 1)] ∧
  VectorDb.prepare_vectors_batch (sample_cloud true true) default_config true
    [sample_empty_article] (sample_state DjangoConfig.empty_database)
  = ([], sample_state DjangoConfig.empty_database).
Proof. vm_compute. repeat split; reflexivity. Qed.

(** ** Synchronisation runs *)

Section SyncFacts.
Import DjangoConfig VectorDb.
Context {Emb : Type}.







Lemma filter_synced_of_not_synced (d : database) (namespace : string)
  (articles : list article) :
  List.filter (λ a, is_article_synced_to_vector_db d (uuid a) namespace)
    (List.filter (not_synced d namespace) articles) = [].
Proof.
induction articles as [|a articles IH]; [done|]. simpl.
destruct (not_synced d namespace a) eqn:Ha; [|done].
simpl. unfold not_synced in Ha. apply negb_true_iff in Ha. by rewrite Ha.
Qed.



(** A batch leaves the [total] and [already_synced] counters alone. *)
Lemma process_batch_counters (c : cloud Emb) (cfg : config) (namespace : string)
  (acc : stats * state Emb) (batch : list article) :
  st_total (process_batch c cfg namespace acc batch).1 = st_total acc.1 ∧
  st_already_synced (process_batch c cfg namespace acc batch).1 = st_already_synced acc.1.
Proof.
destruct acc as [st s]. unfold process_batch.
destruct (prepare_vectors_batch c cfg true batch s) as [[|v vectors] s1]; [done|].
destruct (upsert_vectors_batch c (v :: vectors) namespace s1) as [[] s2]; done.
Qed.

Lemma process_batches_counters (c : cloud Emb) (cfg : config) (namespace : string)
  (batches : list (list article)) (acc : stats * state Emb) :
  st_total (foldl (process_batch c cfg namespace) acc batches).1 = st_total acc.1 ∧
  st_already_synced (foldl (process_batch c cfg namespace) acc batches).1
  = st_already_synced acc.1.
Proof.
revert acc. induction batches as [|batch batches IH]; intros acc; [done|].
cbn [foldl]. destruct (IH (process_batch c cfg namespace acc batch)) as [-> ->].
apply process_batch_counters.
Qed.









End SyncFacts.




(** An article not synced anywhere. *)
Definition sample_unsynced : VectorDb.article :=
sample_varticle "77b0e4" "Ether steadies" "Markets" "Prices held on Tuesday.".



(** ** A batch whose upsert fails *)

(** Three articles under a budget of two words: the first has two chunks,
    the others one chunk each. *)
Definition sample_batch : list VectorDb.article :=
[sample_two_chunks;
 sample_varticle "77b0e4" "hotel-india" "juliett-kilo" "";
 sample_varticle "c41d07" "lima-mike" "november-oscar" ""].

Definition initial_stats (n : nat) : VectorDb.stats :=
{| VectorDb.st_total := n; VectorDb.st_upserted := 0; VectorDb.st_failed := 0;
   VectorDb.st_skipped := 0; VectorDb.st_already_synced := 0 |}.

Definition sample_failed_upsert : VectorDb.stats * VectorDb.state nat :=
VectorDb.process_batch (sample_cloud true false) two_word_config "rss-feeds"
  (initial_stats 3, sample_state DjangoConfig.empty_database) sample_batch.

Definition sample_failed_embedding : list (VectorDb.vector nat) * VectorDb.state nat :=
VectorDb.prepare_vectors_batch sample_down_embedder two_word_config true sample_batch
  (sample_state DjangoConfig.empty_database).

(** C3.  The upsert of a batch of three articles, four chunks in all,
    fails.  All three articles are marked failed and none synced, but the
    failed-embeddings table receives one entry per article, each with
    [chunk_index = 0] and [total_chunks = 1]: the second chunk of the first
    article has no entry.  When it is the embedding call that fails,
    [prepare_vectors_batch] does record one entry per chunk. *)
Theorem process_batch_upsert_failure_entries :
  (VectorDb.calls sample_failed_upsert.2
   ≫= λ c, match c with
           | VectorDb.UpsertCall vectors _ => VectorDb.v_id <$> vectors
           | VectorDb.EmbedCall _ | VectorDb.IndexCall => []
           end)
  = ["3f2c9a_chunk_0"; "3f2c9a_chunk_1"; "77b0e4_chunk_0"; "c41d07_chunk_0"] ∧
  VectorDb.st_failed sample_failed_upsert.1 = 3 ∧
  (λ r, (DjangoConfig.vt_article_uuid r, DjangoConfig.vt_status r)) <$>
    DjangoConfig.vector_database_tracking (VectorDb.db sample_failed_upsert.2)
  = [("3f2c9a", DjangoConfig.Failed); ("77b0e4", DjangoConfig.Failed);
     ("c41d07", DjangoConfig.Failed)] ∧
  (λ r, (DjangoConfig.fe_article_uuid r, DjangoConfig.fe_chunk_index r,
         DjangoConfig.fe_total_chunks r)) <$>
    DjangoConfig.failed_vector_embeddings (VectorDb.db sample_failed_upsert.2)
  = [("3f2c9a", 0, 1); ("77b0e4", 0, 1); ("c41d07", 0, 1)] ∧
  (λ r, (DjangoConfig.fe_article_uuid r, DjangoConfig.fe_chunk_index r,
         DjangoConfig.fe_total_chunks r)) <$>
    DjangoConfig.failed_vector_embeddings (VectorDb.db sample_failed_embedding.2)
  = [("3f2c9a", 0, 2); ("3f2c9a", 1, 2); ("77b0e4", 0, 1); ("c41d07", 0, 1)].
Proof. vm_compute. repeat split; reflexivity. Qed.

(** * Further properties of the code *)

(** ** Ranges and slices *)

Section SliceFacts.
Context {A : Type}.

(** The slices taken at the steps of a range tile the list. *)
Lemma range_go_slices (l : list A) (fuel i step : nat) :
  0 < step → length l - i ≤ fuel →
  concat ((λ j, Py.slice j (j + step) l) <$> Py.range_go fuel i (length l) step)
  = drop i l.
Proof.
intros Hstep. revert i. induction fuel as [|fuel IH]; intros i Hfuel; simpl.
- symmetry. apply drop_ge. lia.
- destruct (Nat.ltb_spec i (length l)) as [Hlt|Hge].
  + csimpl. rewrite IH by lia. unfold Py.slice.
    replace (i + step - i) with step by lia.
    rewrite <- drop_drop. apply take_drop.
  + symmetry. apply drop_ge. lia.
Qed.

Lemma range_slices (l : list A) (step : nat) (starts : list nat) :
  Py.range (length l) step = Some starts →
  concat ((λ j, Py.slice j (j + step) l) <$> starts) = l.
Proof.
unfold Py.range. destruct (Nat.eqb_spec step 0) as [|Hstep]; [done|].
intros [= <-]. rewrite range_go_slices by lia. apply drop_0.
Qed.

Lemma range_go_bounds (fuel i stop step j : nat) :
  j ∈ Py.range_go fuel i stop step → i ≤ j < stop.
Proof.
revert i. induction fuel as [|fuel IH]; intros i; simpl.
- intros H. by apply elem_of_nil in H.
- destruct (Nat.ltb_spec i stop) as [Hlt|Hge].
  + intros [->|Hj]%elem_of_cons; [lia|]. apply IH in Hj. lia.
  + intros H. by apply elem_of_nil in H.
Qed.

Lemma slice_length (l : list A) (i step : nat) :
  0 < step → i < length l →
  0 < length (Py.slice i (i + step) l) ≤ step.
Proof.
intros Hstep Hi. unfold Py.slice. rewrite length_take, length_drop. lia.
Qed.

End SliceFacts.

(** ** Words *)

(** A word: a non-empty string without white space. *)
Fixpoint no_space (s : string) : bool :=
match s with
| EmptyString => true
| String c s' => negb (Py.isspace c) && no_space s'
end.

Definition is_word (w : string) : Prop := w ≠ "" ∧ no_space w = true.

Section WordFacts.

Lemma append_cons (c : ascii) (a b : string) : String c a +:+ b = String c (a +:+ b).
Proof. reflexivity. Qed.

Lemma append_empty_l (b : string) : "" +:+ b = b.
Proof. reflexivity. Qed.

Lemma append_empty_r (a : string) : a +:+ "" = a.
Proof. induction a as [|c a IH]; [done|]. by rewrite append_cons, IH. Qed.

Lemma rev_app_rev_app (a b c : string) :
  String.rev_app (String.rev_app a b) c = String.rev_app b (a +:+ c).
Proof.
revert b. induction a as [|x a IH]; intros b; simpl; [done|].
rewrite IH. by rewrite append_cons.
Qed.

Lemma rev_rev (s : string) : String.rev (String.rev s) = s.
Proof. unfold String.rev. rewrite rev_app_rev_app. simpl. apply append_empty_r. Qed.

Lemma rev_app_no_space (a b : string) :
  no_space (String.rev_app a b) = no_space a && no_space b.
Proof.
revert b. induction a as [|x a IH]; intros b; simpl; [done|].
rewrite IH. simpl. destruct (Py.isspace x), (no_space a), (no_space b); done.
Qed.

Lemma rev_app_nonempty (a b : string) : a ≠ "" ∨ b ≠ "" → String.rev_app a b ≠ "".
Proof.
revert b. induction a as [|x a IH]; intros b; simpl.
- intros [|]; done.
- intros _. apply IH. by right.
Qed.

Lemma rev_word (w : string) : is_word w → is_word (String.rev w).
Proof.
intros [Hne Hns]. split.
- apply rev_app_nonempty. by left.
- unfold String.rev. by rewrite rev_app_no_space, Hns.
Qed.

(** Reading the characters of a word pushes them on the word in
    progress. *)
Definition push (cur : option string) (w : string) : option string :=
match w with
| EmptyString => cur
| String _ _ => Some (String.rev_app w (default "" cur))
end.

Lemma split_go_word (cur : option string) (w s : string) :
  no_space w = true → Py.split_go cur (w +:+ s) = Py.split_go (push cur w) s.
Proof.
revert cur. induction w as [|x w IH]; intros cur Hw; [done|].
simpl in Hw. apply andb_true_iff in Hw as [Hx Hw]. apply negb_true_iff in Hx.
rewrite append_cons. cbn [Py.split_go]. rewrite Hx, IH by done. by destruct w.
Qed.

Lemma rev_pushed (x : ascii) (w : string) :
  String.rev (String.rev_app w (String x "")) = String x w.
Proof. unfold String.rev. by rewrite rev_app_rev_app, append_empty_r. Qed.

Lemma split_join (ws : list string) :
  Forall is_word ws → Py.split (Py.join " " ws) = ws.
Proof.
unfold Py.split. induction ws as [|w ws IH]; [done|].
intros [[Hne Hns] Hws]%Forall_cons. destruct ws as [|w2 ws].
- simpl. rewrite <- (append_empty_r w) at 1. rewrite split_go_word by done.
  destruct w as [|x w]; [done|]. simpl. by rewrite rev_pushed.
- change (Py.join " " (w :: w2 :: ws)) with (w +:+ " " +:+ Py.join " " (w2 :: ws)).
  rewrite split_go_word by done. destruct w as [|x w]; [done|].
  cbn [push default]. rewrite append_cons, append_empty_l.
  cbn [Py.split_go]. change (Py.isspace " ") with true. cbn iota.
  rewrite IH by done. simpl. by rewrite rev_pushed.
Qed.

Lemma split_go_words (cur : option string) (s : string) :
  (∀ acc, cur = Some acc → is_word acc) → Forall is_word (Py.split_go cur s).
Proof.
revert cur. induction s as [|c s IH]; intros cur Hcur; simpl.
- destruct cur as [acc|]; [|done]. apply Forall_singleton, rev_word, Hcur. done.
- destruct (Py.isspace c) eqn:Hc.
  + destruct cur as [acc|].
    * apply Forall_cons. split; [by apply rev_word, Hcur|]. by apply IH.
    * by apply IH.
  + apply IH. intros acc [= <-]. split; [done|]. simpl. rewrite Hc. simpl.
    destruct cur as [acc|]; [|done]. by destruct (Hcur acc eq_refl).
Qed.

Lemma split_words (s : string) : Forall is_word (Py.split s).
Proof. apply split_go_words. done. Qed.

End WordFacts.

(** ** extractor.py: what the chain hands back *)

(** X1.  Whatever method is asked for, a text that [get_article_content]
    returns has more than 100 characters once stripped, and it is the text
    the last strategy invoked produced. *)
Theorem get_article_content_min_length (w : Extractor.web) (url : string)
  (method : option string) (text : string) :
  (Extractor.get_article_content w url method).1 = Some text →
  100 < String.length (Py.strip text) ∧
  ∃ s, last (Extractor.get_article_content w url method).2 = Some s ∧
       Extractor.run_strategy w s url = Some text.
Proof.
unfold Extractor.get_article_content.
set (m := match method with Some m => m | None => _ end).
destruct (negb (String.eqb (Py.lower m) "all")).
- destruct (Extractor.methods_get _ _) as [s|]; [|done]. simpl. intros Hrun. split.
  + apply Nat.ltb_lt. exact (run_strategy_accepts _ _ _ _ Hrun).
  + by exists s.
- pose proof (try_methods_spec w url Extractor.methods) as Hspec.
  destruct (Extractor.try_methods w url Extractor.methods) as [[t|] invoked]; [|done].
  destruct Hspec as (before & s & after & _ & -> & _ & Hrun). simpl. intros [= ->].
  split.
  + apply Nat.ltb_lt. exact (run_strategy_accepts _ _ _ _ Hrun).
  + exists s. by rewrite last_snoc.
Qed.

Lemma get_article_content_min_length_witness :
  (Extractor.get_article_content sample_web "https://example.org/a" (Some "readability")).1
  = Some sample_text ∧
  100 < String.length (Py.strip sample_text).
Proof.
split; [reflexivity|].
apply (get_article_content_min_length sample_web "https://example.org/a"
         (Some "readability") sample_text).
reflexivity.
Defined.

Section SiteMethodFacts.
Import Extractor.

Lemma startswith_empty (s : string) : Py.startswith "" s = true.
Proof. by destruct s. Qed.

Lemma contains_empty (s : string) : Py.contains "" s = true.
Proof. destruct s; reflexivity. Qed.

Lemma existsb_site_matches_empty (sites : list string) :
  existsb (site_matches "") sites = negb (bool_decide (sites = [])).
Proof.
destruct sites as [|site sites]; [done|]. simpl.
unfold site_matches at 1. by rewrite contains_empty, orb_true_r.
Qed.

End SiteMethodFacts.

(** X2.  A URL without a host part (its [netloc] is empty) matches every
    site pattern, so it is given the method of the first mapping entry
    that lists at least one site, and the default only when no entry
    lists a site. *)
Theorem get_extraction_method_for_site_no_host (cfg : Extractor.site_config)
  (netloc : string → option string) (url : string) :
  netloc url = Some "" →
  Extractor.get_extraction_method_for_site cfg netloc url
  = match List.find (λ e : string * list string, negb (bool_decide (e.2 = [])))
            (Extractor.extractor_mapping cfg) with
    | Some e => e.1
    | None => default "all" (Extractor.default_extractor_method cfg)
    end.
Proof.
intros Hhost. unfold Extractor.get_extraction_method_for_site. rewrite Hhost. simpl.
induction (Extractor.extractor_mapping cfg) as [|[method sites] mapping IH]; [done|].
simpl. rewrite existsb_site_matches_empty.
destruct (negb (bool_decide (sites = []))); [done | exact IH].
Qed.

Definition sample_site_config : Extractor.site_config :=
{| Extractor.extractor_mapping :=
     [("playwright", []); ("jina", ["coindesk.com"; "decrypt.co"]);
      ("trafilatura", ["cointelegraph.com"])];
   Extractor.default_extractor_method := Some "newspaper3k" |}.

Lemma get_extraction_method_for_site_no_host_witness :
  Extractor.get_extraction_method_for_site sample_site_config (λ _, Some "")
    "theblock.co/post/1" = "jina".
Proof.
exact (get_extraction_method_for_site_no_host sample_site_config (λ _, Some "")
         "theblock.co/post/1" eq_refl).
Defined.

(** X3.  One leading "www." of the host is ignored: a host that does not
    itself begin with "www." (in any letter case) and the same host behind
    "www." are given the same extraction method. *)
Theorem get_extraction_method_for_site_www (cfg : Extractor.site_config)
  (netloc : string → option string) (url url_www host : string) :
  netloc url = Some host → netloc url_www = Some ("www." +:+ host) →
  Py.startswith "www." (Py.lower host) = false →
  Extractor.get_extraction_method_for_site cfg netloc url_www
  = Extractor.get_extraction_method_for_site cfg netloc url.
Proof.
intros Hhost Hwww Hplain. unfold Extractor.get_extraction_method_for_site.
rewrite Hhost, Hwww.
change (Py.lower ("www." +:+ host)) with ("www." +:+ Py.lower host).
change (Py.startswith "www." ("www." +:+ Py.lower host))
  with (Py.startswith "" (Py.lower host)).
rewrite startswith_empty, Hplain. reflexivity.
Qed.

Lemma get_extraction_method_for_site_www_witness :
  Extractor.get_extraction_method_for_site sample_site_config
    (λ u, if String.eqb u "https://www.Decrypt.co/1" then Some "www.Decrypt.co"
          else Some "Decrypt.co")
    "https://www.Decrypt.co/1"
  = Extractor.get_extraction_method_for_site sample_site_config
      (λ u, if String.eqb u "https://www.Decrypt.co/1" then Some "www.Decrypt.co"
            else Some "Decrypt.co")
      "https://Decrypt.co/1".
Proof.
apply (get_extraction_method_for_site_www sample_site_config _ "https://Decrypt.co/1"
         "https://www.Decrypt.co/1" "Decrypt.co"); reflexivity.
Defined.

(** ** sites_rss.py: the fetch chain *)

Definition all_fetchers : list SitesFetch.fetcher :=
[SitesFetch.Requests; SitesFetch.Newspaper3k; SitesFetch.Trafilatura;
 SitesFetch.JinaApi; SitesFetch.Stealthy].

(** What one fetcher delivers when it is called for [url]: the body of a
    status 200 answer for requests and for the stealthy browser, a
    non-empty document for the three others, and nothing otherwise. *)
Definition delivered (n : SitesFetch.net) (url : string) (exclude_headers : list string)
  (f : SitesFetch.fetcher) : option string :=
match f with
| SitesFetch.Requests =>
    match SitesFetch.requests_get n url (negb (bool_decide (url ∈ exclude_headers))) with
    | SitesFetch.Response status text => if status =? 200 then Some text else None
    | SitesFetch.NoResponse => None
    end
| SitesFetch.Newspaper3k =>
    match SitesFetch.article_html n url with
    | Extractor.Text html => if Py.truthy html then Some html else None
    | _ => None
    end
| SitesFetch.Trafilatura =>
    match SitesFetch.trafilatura_fetch_url n url with
    | Extractor.Text downloaded => if Py.truthy downloaded then Some downloaded else None
    | _ => None
    end
| SitesFetch.JinaApi =>
    match SitesFetch.fetch_jina_api n url with
    | Some content => if Py.truthy content then Some content else None
    | None => None
    end
| SitesFetch.Stealthy =>
    match SitesFetch.stealthy_fetch n url with
    | SitesFetch.Response status page => if status =? 200 then Some page else None
    | SitesFetch.NoResponse => None
    end
end.

(** Calling the fetchers [fs] in turn up to the first that delivers. *)
Fixpoint first_delivery (n : SitesFetch.net) (url : string) (exclude_headers : list string)
  (fs : list SitesFetch.fetcher) : option string * list SitesFetch.fetcher :=
match fs with
| [] => (None, [])
| f :: fs' =>
    match delivered n url exclude_headers f with
    | Some document => (Some document, [f])
    | None =>
        let r := first_delivery n url exclude_headers fs' in (r.1, f :: r.2)
    end
end.

Section FetchChainFacts.

Context (n : SitesFetch.net) (url : string) (exclude_headers : list string).

Lemma first_delivery_spec (fs : list SitesFetch.fetcher) :
  let r := first_delivery n url exclude_headers fs in
  match r.1 with
  | Some document =>
      ∃ before f after,
        fs = before ++ f :: after ∧ r.2 = before ++ [f] ∧
        (∀ f', f' ∈ before → delivered n url exclude_headers f' = None) ∧
        delivered n url exclude_headers f = Some document
  | None =>
      r.2 = fs ∧ ∀ f, f ∈ fs → delivered n url exclude_headers f = None
  end.
Proof.
induction fs as [|f fs IH]; simpl.
- split; [done|]. intros f Hf. by apply elem_of_nil in Hf.
- destruct (delivered n url exclude_headers f) as [document|] eqn:Hf; simpl.
  + exists [], f, fs. split; [done|]. split; [done|]. split; [|done].
    intros f' Hf'. by apply elem_of_nil in Hf'.
  + cbv zeta in IH. destruct (first_delivery n url exclude_headers fs).1 as [document|].
    * destruct IH as (before & f0 & after & -> & -> & Hbefore & Hf0).
      exists (f :: before), f0, after. split; [done|]. split; [done|]. split; [|done].
      intros f' [->|Hf']%elem_of_cons; auto.
    * destruct IH as [-> Hnone]. split; [done|].
      intros f' [->|Hf']%elem_of_cons; auto.
Qed.

(** [fetch_rss] is the chain of its five fetchers. *)
Lemma fetch_rss_first_delivery :
  SitesFetch.fetch_rss n url exclude_headers
  = first_delivery n url exclude_headers all_fetchers.
Proof.
unfold SitesFetch.fetch_rss, all_fetchers. cbn [first_delivery delivered].
destruct (SitesFetch.requests_get n url _) as [|status text];
  [|destruct (status =? 200)]; cbn [fst snd]; [|done|].
all: destruct (SitesFetch.article_html n url) as [exc| |html];
  [| |destruct (Py.truthy html) eqn:Hhtml; [done|]]; cbn [fst snd].
all: destruct (SitesFetch.trafilatura_fetch_url n url) as [exc'| |downloaded];
  [| |destruct (Py.truthy downloaded) eqn:Hdl; [done|]]; cbn [fst snd].
all: destruct (SitesFetch.fetch_jina_api n url) as [content|];
  [destruct (Py.truthy content) eqn:Hcontent|]; cbn [Py.truthy_opt fst snd];
  rewrite ?Hcontent; [done| |].
all: destruct (SitesFetch.stealthy_fetch n url) as [|status' page];
  [|destruct (status' =? 200)]; done.
Qed.

End FetchChainFacts.

(** X4.  [fetch_rss] calls its five fetchers in a fixed order (requests,
    newspaper3k, trafilatura, the Jina API, the stealthy browser) and
    stops at the first that delivers.  When it returns a document, the
    fetchers called are those before some fetcher of that order, which
    all delivered nothing, and that fetcher, called last, which delivered
    the document returned.  When it returns [None], all five were called
    and none delivered.  An empty document can only come from requests or
    from the stealthy browser, the two that deliver whatever a status 200
    carries. *)
Theorem fetch_rss_fallback_order (n : SitesFetch.net) (url : string)
  (exclude_headers : list string) :
  let r := SitesFetch.fetch_rss n url exclude_headers in
  match r.1 with
  | Some document =>
      ∃ before f after,
        all_fetchers = before ++ f :: after ∧ r.2 = before ++ [f] ∧
        (∀ f', f' ∈ before → delivered n url exclude_headers f' = None) ∧
        delivered n url exclude_headers f = Some document ∧
        (document = "" → f = SitesFetch.Requests ∨ f = SitesFetch.Stealthy)
  | None =>
      r.2 = all_fetchers ∧
      ∀ f, f ∈ all_fetchers → delivered n url exclude_headers f = None
  end ∧
  r.2 `prefix_of` all_fetchers ∧
  head r.2 = Some SitesFetch.Requests.
Proof.
intros r. subst r. rewrite fetch_rss_first_delivery.
pose proof (first_delivery_spec n url exclude_headers all_fetchers) as Hspec.
cbv zeta in Hspec.
assert (head (first_delivery n url exclude_headers all_fetchers).2
        = Some SitesFetch.Requests) as Hhead.
{ unfold all_fetchers. cbn [first_delivery].
  by destruct (delivered n url exclude_headers SitesFetch.Requests). }
destruct (first_delivery n url exclude_headers all_fetchers).1 as [document|].
- destruct Hspec as (before & f & after & Hall & Hcalled & Hbefore & Hf).
  split; [|split; [|exact Hhead]].
  + exists before, f, after. split; [done|]. split; [done|]. split; [done|].
    split; [done|]. intros ->. clear -Hf.
    destruct f; simpl in Hf; auto.
    * destruct (SitesFetch.article_html n url) as [| |html]; try done.
      by destruct html.
    * destruct (SitesFetch.trafilatura_fetch_url n url) as [| |downloaded]; try done.
      by destruct downloaded.
    * destruct (SitesFetch.fetch_jina_api n url) as [content|]; try done.
      by destruct content.
  + rewrite Hcalled, Hall. apply prefix_app, prefix_cons, prefix_nil.
- destruct Hspec as [Hcalled Hnone]. split; [done|]. split; [by rewrite Hcalled|done].
Qed.

Section AfterFirstFacts.

Lemma str_drop_app (a b : string) : Py.str_drop (String.length a) (a +:+ b) = b.
Proof. induction a as [|c a IH]; [by destruct b | exact IH]. Qed.

Lemma startswith_app (sep s : string) :
  Py.startswith sep s = true → s = sep +:+ Py.str_drop (String.length sep) s.
Proof.
revert s. induction sep as [|c sep IH]; intros [|c' s]; simpl; try done.
intros [Hc Hs]%andb_true_iff. apply bool_decide_eq_true in Hc as ->.
rewrite append_cons. f_equal. by apply IH.
Qed.

(** [after_first sep s] is what follows an occurrence of [sep] in [s]. *)
Lemma after_first_Some (sep s rest : string) :
  Py.after_first sep s = Some rest → ∃ before, s = before +:+ sep +:+ rest.
Proof.
induction s as [|c s IH]; simpl.
- destruct (Py.startswith sep "") eqn:Hs; [|done]. intros [= <-].
  exists "". by apply startswith_app.
- destruct (Py.startswith sep (String c s)) eqn:Hs.
  + intros [= <-]. exists "". by apply startswith_app.
  + intros [before ->]%IH. by exists (String c before).
Qed.

End AfterFirstFacts.

(** X5.  [fetch_jina_api] delivers only from a status 200 answer that
    contains the marker "Markdown Content:", and what it delivers is the
    stripped text after an occurrence of the marker. *)
Theorem fetch_jina_api_marker (n : SitesFetch.net) (url content : string) :
  SitesFetch.fetch_jina_api n url = Some content →
  ∃ before rest,
    SitesFetch.jina_post n url
    = SitesFetch.Response 200 (before +:+ "Markdown Content:" +:+ rest) ∧
    content = Py.strip rest.
Proof.
unfold SitesFetch.fetch_jina_api.
destruct (SitesFetch.jina_post n url) as [|status body]; [done|].
destruct (status =? 200) eqn:Hstatus; [|done]. apply Nat.eqb_eq in Hstatus as ->.
destruct (Py.after_first _ body) as [rest|] eqn:Hafter; [|done].
intros [= <-]. apply after_first_Some in Hafter as [before ->]. by exists before, rest.
Qed.

Definition sample_net : SitesFetch.net :=
{| SitesFetch.requests_get := λ _ _, SitesFetch.Response 403 "Forbidden";
   SitesFetch.article_html := λ _, Extractor.Raised "ArticleException";
   SitesFetch.trafilatura_fetch_url := λ _, Extractor.NoText;
   SitesFetch.jina_post := λ _,
     SitesFetch.Response 200 "Title: Feed  Markdown Content: <rss>items</rss> ";
   SitesFetch.stealthy_fetch := λ _, SitesFetch.NoResponse |}.

Lemma fetch_jina_api_marker_witness :
  ∃ before rest,
    SitesFetch.jina_post sample_net "https://example.org/feed"
    = SitesFetch.Response 200 (before +:+ "Markdown Content:" +:+ rest) ∧
    "<rss>items</rss>" = Py.strip rest.
Proof.
apply (fetch_jina_api_marker sample_net "https://example.org/feed" "<rss>items</rss>").
reflexivity.
Defined.

(** ** resolve_url.py *)

Section ResolveFacts.
Import ResolveUrl.

(** The reload loop returns a URL only when its host differs from the
    initial one, and pauses then reloads once per attempt made. *)
Lemma reload_loop_spec (b : browser) (url initial_domain final_url : string)
  (attempts : list nat) :
  let r := reload_loop b url initial_domain final_url attempts in
  r.2 `prefix_of` (attempts ≫= λ attempt, [Sleep (2 ^ attempt); Reload]) ∧
  ∀ resolved, r.1 = inl resolved →
    ∃ final_domain, netloc b resolved = Some final_domain ∧ final_domain ≠ initial_domain.
Proof.
revert final_url. induction attempts as [|attempt attempts IH]; intros final_url.
- split; [by eexists | done].
- cbn [reload_loop]. change (?l ≫= ?f) with (mbind f l). cbn [mbind list_bind].
  destruct (reload b url attempt) as [final_url'|].
  2: { split; [by apply prefix_app_r|done]. }
  destruct (netloc b final_url') as [final_domain|] eqn:Hnet.
  2: { split; [by apply prefix_app_r|done]. }
  destruct (String.eqb_spec final_domain initial_domain) as [Heq|Hne]; simpl negb; cbv iota.
  + specialize (IH final_url').
    destruct (reload_loop b url initial_domain final_url' attempts) as [r events].
    destruct IH as [Hpre Hres]. split; [|exact Hres].
    simpl. by do 2 apply prefix_cons.
  + split; [by apply prefix_app_r|]. simpl. intros resolved [= <-]. eauto.
Qed.

End ResolveFacts.

(** X6.  [get_redirected_url] reloads the page at most three times, after
    pauses of 2, 4 and 8 seconds, and a URL it returns has a host that
    differs from the host of the URL it was given. *)
Theorem get_redirected_url_other_host (b : ResolveUrl.browser) (url : string) :
  let r := ResolveUrl.get_redirected_url b url in
  r.2 `prefix_of`
    [ResolveUrl.Sleep 2; ResolveUrl.Reload; ResolveUrl.Sleep 4; ResolveUrl.Reload;
     ResolveUrl.Sleep 8; ResolveUrl.Reload] ∧
  ∀ resolved, r.1 = Some resolved →
    ∃ initial_domain final_domain,
      ResolveUrl.netloc b url = Some initial_domain ∧
      ResolveUrl.netloc b resolved = Some final_domain ∧
      final_domain ≠ initial_domain.
Proof.
unfold ResolveUrl.get_redirected_url.
destruct (ResolveUrl.goto b url) as [final_url|]; [|split; [by eexists | done]].
destruct (ResolveUrl.netloc b url) as [initial|]; [|split; [by eexists | done]].
pose proof (reload_loop_spec b url initial final_url [1; 2; 3]) as [Hpre Hres].
destruct (ResolveUrl.reload_loop b url initial final_url [1; 2; 3]) as [[u|u] events].
- split; [exact Hpre|]. simpl. intros resolved [= <-].
  destruct (Hres u eq_refl) as (f & Hf & Hne). by exists initial, f.
- destruct (ResolveUrl.netloc b u) as [f|] eqn:Hf; [|split; [exact Hpre | done]].
  destruct (String.eqb_spec f initial) as [|Hne]; [split; [exact Hpre | done]|].
  split; [exact Hpre|]. simpl. intros resolved [= <-]. by exists initial, f.
Qed.

(** ** article_processer.py: ingestion *)

Section SourceUrlFacts.
Import ArticleProcesser.

Lemma is_valid_url_scheme (url : string) :
  is_valid_url url = true →
  Py.startswith "http://" (Py.strip url) = true ∨
  Py.startswith "https://" (Py.strip url) = true.
Proof.
unfold is_valid_url. intros [_ H]%andb_true_iff. by apply orb_true_iff in H.
Qed.

End SourceUrlFacts.

(** X7.  The source URL read from a feed document is either empty or
    starts with "http://" or "https://". *)
Theorem extract_source_url_scheme (root : ArticleProcesser.xml_root) :
  let source_url := ArticleProcesser.extract_source_url root in
  source_url = "" ∨
  Py.startswith "http://" source_url = true ∨
  Py.startswith "https://" source_url = true.
Proof.
unfold ArticleProcesser.extract_source_url. cbv zeta.
repeat case_match; try (by left); right;
  match goal with
  | H : _ && _ = true |- _ =>
      apply andb_true_iff in H as [_ H]; simpl; exact (is_valid_url_scheme _ H)
  end.
Qed.

Section StoreFacts.
Import DjangoConfig ArticleProcesser.

(** The consistency of the two article tables: no two articles share a
    link or a uuid, no two metadata rows belong to one article, and every
    metadata row belongs to a stored article. *)
Definition store_ok (d : database) : Prop :=
NoDup (rss_url <$> rss_feed_articles d) ∧
NoDup (rss_uuid <$> rss_feed_articles d) ∧
NoDup (md_uuid <$> article_metadata d) ∧
∀ u, u ∈ md_uuid <$> article_metadata d → u ∈ rss_uuid <$> rss_feed_articles d.

Lemma existsb_eqb_false {A} (key : A → string) (k : string) (rows : list A) :
  existsb (λ r, String.eqb (key r) k) rows = false → k ∉ key <$> rows.
Proof.
rewrite existsb_false. intros Hall (r & -> & Hr)%list_elem_of_fmap.
specialize (Hall r Hr). simpl in Hall. by rewrite String.eqb_refl in Hall.
Qed.

Lemma rss_create_inr (d d' : database) (row : RSSFeedArticle) :
  rss_create d row = inr d' →
  (rss_uuid row ∉ rss_uuid <$> rss_feed_articles d) ∧
  (rss_url row ∉ rss_url <$> rss_feed_articles d) ∧
  d' = {| rss_feed_articles := rss_feed_articles d ++ [row];
          article_metadata := article_metadata d;
          failed_articles := failed_articles d;
          failed_vector_embeddings := failed_vector_embeddings d;
          vector_database_tracking := vector_database_tracking d |}.
Proof.
unfold rss_create.
destruct (existsb _ _) eqn:Huuid; [done|].
destruct (existsb (λ r, String.eqb (rss_url r) _) _) eqn:Hurl; [done|].
intros [= <-]. split; [|split; [|done]]; by eapply existsb_eqb_false.
Qed.

(** What a successful [write_article_to_db] has done. *)
Lemma write_article_to_db_ok (l : lib) (fresh : string) (d : database) (a : article) :
  let r := write_article_to_db l fresh d a in
  wr_ok r = true →
  (a_link a ∉ rss_url <$> rss_feed_articles d) ∧
  (uuid_of fresh a ∉ rss_uuid <$> rss_feed_articles d) ∧
  ∃ row m,
    rss_feed_articles (wr_db r) = rss_feed_articles d ++ [row] ∧
    rss_url row = a_link a ∧ rss_uuid row = uuid_of fresh a ∧
    article_metadata (wr_db r) = article_metadata d ++ [m] ∧
    md_uuid m = uuid_of fresh a ∧ md_url m = a_link a ∧
    a_title a = Some (md_title m) ∧ a_content a = Some (md_content m) ∧
    failed_articles (wr_db r) = failed_articles d ∧
    failed_vector_embeddings (wr_db r) = failed_vector_embeddings d ∧
    vector_database_tracking (wr_db r) = vector_database_tracking d.
Proof.
unfold write_article_to_db.
destruct (netloc l (a_link a)) as [dom|]; [|done].
destruct (rss_create d _) as [e|d1] eqn:Hrss; [done|].
apply rss_create_inr in Hrss as (Huuid & Hurl & ->). simpl in Huuid, Hurl.
unfold metadata_create.
destruct (a_title a) as [title|]; [|done].
destruct (a_pub_date a) as [pub|]; [|done].
destruct (a_description a) as [desc|]; [|done].
destruct (a_content a) as [content|]; [|done].
cbv zeta. destruct (metadata_insert l _) as [exc|]; [done|].
simpl. intros _. split; [done|]. split; [done|].
eexists _, _. repeat split.
Qed.

(** With every key of the article dictionary set, a refused write leaves
    the store as it was, unless it is the backend that refused the
    metadata row: the article row then stays behind, without metadata. *)
Lemma write_article_to_db_refused (l : lib) (fresh : string) (d : database) (a : article) :
  is_Some (a_title a) → is_Some (a_pub_date a) → is_Some (a_description a) →
  is_Some (a_content a) →
  wr_ok (write_article_to_db l fresh d a) = false →
  wr_db (write_article_to_db l fresh d a) = d ∨
  ∃ row m exc,
    metadata_insert l m = Some exc ∧
    (rss_url row ∉ rss_url <$> rss_feed_articles d) ∧
    (rss_uuid row ∉ rss_uuid <$> rss_feed_articles d) ∧
    wr_db (write_article_to_db l fresh d a)
    = {| rss_feed_articles := rss_feed_articles d ++ [row];
         article_metadata := article_metadata d;
         failed_articles := failed_articles d;
         failed_vector_embeddings := failed_vector_embeddings d;
         vector_database_tracking := vector_database_tracking d |}.
Proof.
intros [title Ht] [pub Hp] [desc Hd] [content Hc]. unfold write_article_to_db.
destruct (netloc l (a_link a)) as [dom|]; [|by left].
destruct (rss_create d _) as [e|d1] eqn:Hrss; [by left|].
apply rss_create_inr in Hrss as (Huuid & Hurl & ->).
unfold metadata_create. rewrite Ht, Hp, Hd, Hc. cbv zeta.
destruct (metadata_insert l _) as [exc|] eqn:Hinsert; [|done].
simpl. intros _. right. eexists _, _, exc. split; [exact Hinsert|]. done.
Qed.

Lemma store_ok_write (l : lib) (fresh : string) (d : database) (a : article) :
  store_ok d → wr_ok (write_article_to_db l fresh d a) = true →
  store_ok (wr_db (write_article_to_db l fresh d a)).
Proof.
intros (Hurls & Huuids & Hmds & Hown) Hok.
destruct (write_article_to_db_ok l fresh d a Hok)
  as (Hurl & Huuid & row & m & Hrss & Hrow_url & Hrow_uuid & Hmd & Hm & _).
unfold store_ok. rewrite Hrss, Hmd, !fmap_app. csimpl. rewrite Hrow_url, Hrow_uuid, Hm.
repeat split.
- apply NoDup_app. split; [done|]. split; [|apply NoDup_singleton].
  intros u Hu ->%list_elem_of_singleton. done.
- apply NoDup_app. split; [done|]. split; [|apply NoDup_singleton].
  intros u Hu ->%list_elem_of_singleton. done.
- apply NoDup_app. split; [done|]. split; [|apply NoDup_singleton].
  intros u Hu ->%list_elem_of_singleton. auto.
- intros u [Hu| ->%list_elem_of_singleton]%elem_of_app; apply elem_of_app.
  + left. auto.
  + right. apply list_elem_of_singleton. done.
Qed.

Lemma store_ok_log_failed_article (d : database) (u url etype emsg : string) :
  store_ok d → store_ok (DbFunc.log_failed_article d u url etype emsg).
Proof. unfold DbFunc.log_failed_article. by destruct (first_where _ _). Qed.

Lemma get_existing_urls_elem (d : database) (link : string) :
  link ∈ DbFunc.get_existing_urls d ↔ link ∈ rss_url <$> rss_feed_articles d.
Proof. unfold DbFunc.get_existing_urls. by rewrite elem_of_list_to_set. Qed.

End StoreFacts.

(** X8.  [write_article_to_db] returns [True] only for a link that was not
    stored; the store then holds the link, one more article row and one
    more metadata row, both under the same uuid, and the failure tables
    and the tracking table are untouched. *)
Theorem write_article_to_db_success (l : ArticleProcesser.lib) (fresh : string)
  (d : DjangoConfig.database) (a : ArticleProcesser.article) :
  let r := ArticleProcesser.write_article_to_db l fresh d a in
  ArticleProcesser.wr_ok r = true →
  (ArticleProcesser.a_link a ∉ DbFunc.get_existing_urls d) ∧
  DbFunc.get_existing_urls (ArticleProcesser.wr_db r)
  = {[ArticleProcesser.a_link a]} ∪ DbFunc.get_existing_urls d ∧
  (∃ row m,
     DjangoConfig.rss_feed_articles (ArticleProcesser.wr_db r)
     = DjangoConfig.rss_feed_articles d ++ [row] ∧
     DjangoConfig.article_metadata (ArticleProcesser.wr_db r)
     = DjangoConfig.article_metadata d ++ [m] ∧
     DjangoConfig.rss_url row = ArticleProcesser.a_link a ∧
     DjangoConfig.md_uuid m = DjangoConfig.rss_uuid row ∧
     ArticleProcesser.a_content a = Some (DjangoConfig.md_content m)) ∧
  DjangoConfig.failed_articles (ArticleProcesser.wr_db r) = DjangoConfig.failed_articles d ∧
  DjangoConfig.failed_vector_embeddings (ArticleProcesser.wr_db r)
  = DjangoConfig.failed_vector_embeddings d ∧
  DjangoConfig.vector_database_tracking (ArticleProcesser.wr_db r)
  = DjangoConfig.vector_database_tracking d.
Proof.
intros r Hok. subst r.
destruct (write_article_to_db_ok l fresh d a Hok)
  as (Hurl & Huuid & row & m & Hrss & Hrow_url & Hrow_uuid & Hmd & Hm & _ & _ & Hc
      & Hfa & Hfe & Hvt).
split; [by rewrite get_existing_urls_elem|]. split.
- unfold DbFunc.get_existing_urls. rewrite Hrss, fmap_app, list_to_set_app_L.
  csimpl. rewrite Hrow_url.
  rewrite (right_id_L ∅ (∪)). apply (comm_L (∪)).
- split; [|done]. exists row, m. repeat split; try done. congruence.
Qed.

Lemma write_article_to_db_success_witness :
  DbFunc.get_existing_urls
    (ArticleProcesser.wr_db
       (ArticleProcesser.write_article_to_db sample_lib "9d1e55" DjangoConfig.empty_database
          (sample_article "3f2c9a")))
  = {[ArticleProcesser.a_link (sample_article "3f2c9a")]}
    ∪ DbFunc.get_existing_urls DjangoConfig.empty_database.
Proof.
apply (write_article_to_db_success sample_lib "9d1e55" DjangoConfig.empty_database
         (sample_article "3f2c9a")).
reflexivity.
Defined.

Section ItemFacts.
Import DjangoConfig ArticleProcesser.

Lemma log_failed_article_tables (d : database) (u url etype emsg : string) :
  rss_feed_articles (DbFunc.log_failed_article d u url etype emsg) = rss_feed_articles d ∧
  article_metadata (DbFunc.log_failed_article d u url etype emsg) = article_metadata d.
Proof. unfold DbFunc.log_failed_article. by destruct (first_where _ _). Qed.

(** What one item does to the store and to the set of known links:
    nothing when it is skipped; nothing to the metadata table when it
    fails, and nothing to the article table either unless the backend
    refused the metadata row, in which case the article row stays behind;
    and one article with its metadata when it is processed. *)
Definition item_outcome (l : lib) (d : database) (existing_urls : gset string)
  (r : process_result) : Prop :=
(pr_status r = "skipped" ∧ pr_success r = false ∧ pr_db r = d ∧
 pr_existing_urls r = existing_urls) ∨
(pr_status r = "failed" ∧ pr_success r = false ∧ pr_existing_urls r = existing_urls ∧
 article_metadata (pr_db r) = article_metadata d ∧
 (rss_feed_articles (pr_db r) = rss_feed_articles d ∨
  ∃ row m exc,
    metadata_insert l m = Some exc ∧
    rss_feed_articles (pr_db r) = rss_feed_articles d ++ [row] ∧
    (rss_url row ∉ rss_url <$> rss_feed_articles d) ∧
    (rss_uuid row ∉ rss_uuid <$> rss_feed_articles d))) ∨
(pr_status r = "processed" ∧ pr_success r = true ∧
 ∃ link row m,
   (link ∉ DbFunc.get_existing_urls d) ∧
   pr_existing_urls r = {[link]} ∪ existing_urls ∧
   rss_feed_articles (pr_db r) = rss_feed_articles d ++ [row] ∧ rss_url row = link ∧
   (rss_uuid row ∉ rss_uuid <$> rss_feed_articles d) ∧
   article_metadata (pr_db r) = article_metadata d ++ [m] ∧ md_uuid m = rss_uuid row ∧
   failed_articles (pr_db r) = failed_articles d).

Local Ltac item_logged :=
  right; left; simpl; split; [done|]; split; [done|]; split; [done|];
  split; [apply log_failed_article_tables | left; apply log_failed_article_tables].

Local Ltac item_written :=
  lazymatch goal with
  | |- context [wr_ok (write_article_to_db ?l ?f ?d ?a)] =>
      let Hok := fresh "Hok" in
      destruct (wr_ok (write_article_to_db l f d a)) eqn:Hok;
      [ right; right;
        destruct (write_article_to_db_ok l f d a Hok)
          as (Hurl & Huuid & row & m & Hrss & Hrow_url & Hrow_uuid & Hmd & Hm & _ & _ & _
              & Hfa & _);
        split; [done|]; split; [done|]; exists (a_link a), row, m; simpl;
        rewrite get_existing_urls_elem; repeat split; (done || congruence)
      | right; left;
        destruct (write_article_to_db_refused l f d a)
          as [Hdb|(row & m & exc & Hinsert & Hurl & Huuid & Hdb)];
          [simpl; eauto | simpl; eauto | simpl; eauto | simpl; eauto | exact Hok | |];
        simpl; rewrite Hdb;
        (split; [done|]; split; [done|]; split; [done|]; split; [done|]);
        [by left | right; by exists row, m, exc] ]
  end.

Lemma process_single_article_cases (l : lib) (w : Extractor.web) (uuids : string * string)
  (d : database) (it : item) (source_name : string) (existing_urls : gset string)
  (source_url : string) :
  item_outcome l d existing_urls
    (process_single_article l w uuids d it source_name existing_urls source_url).
Proof.
unfold process_single_article, item_outcome. cbv zeta.
destruct (negb _ || _) eqn:Hskip; [by left|].
destruct (Py.truthy_opt (i_content_encoded it)); [item_written|].
destruct (String.eqb source_name "news.google.com").
- destruct (get_redirected_url l _) as [exc| |resolved]; [item_logged|item_logged|].
  destruct (Py.truthy resolved); [|item_logged].
  destruct (Extractor.get_article_content w resolved None).1 as [content|]; [|item_logged].
  destruct (Py.truthy content); [item_written|item_logged].
- destruct (Extractor.get_article_content w _ None).1 as [content|]; [|item_logged].
  destruct (Py.truthy content); [item_written|item_logged].
Qed.

(** An item without a link, or with a link already known, is skipped. *)
Lemma process_single_article_known (l : lib) (w : Extractor.web) (uuids : string * string)
  (d : database) (it : item) (source_name : string) (existing_urls : gset string)
  (source_url : string) :
  text_or_empty (i_link it) = "" ∨ text_or_empty (i_link it) ∈ existing_urls →
  process_single_article l w uuids d it source_name existing_urls source_url
  = {| pr_success := false; pr_status := "skipped"; pr_db := d;
       pr_existing_urls := existing_urls |}.
Proof.
intros Hknown. unfold process_single_article. cbv zeta.
destruct (negb _ || _) eqn:Hskip; [done|].
apply orb_false_iff in Hskip as [Hlink Hin].
apply negb_false_iff, truthy_true in Hlink. apply bool_decide_eq_false in Hin.
by destruct Hknown.
Qed.

Lemma store_ok_article_row (d d' : database) (row : RSSFeedArticle) :
  store_ok d →
  rss_feed_articles d' = rss_feed_articles d ++ [row] →
  article_metadata d' = article_metadata d →
  rss_url row ∉ rss_url <$> rss_feed_articles d →
  rss_uuid row ∉ rss_uuid <$> rss_feed_articles d →
  store_ok d'.
Proof.
intros (Hurls & Huuids & Hmds & Hown) Hrss Hmd Hurl Huuid.
unfold store_ok. rewrite Hrss, Hmd, !fmap_app. csimpl. repeat split.
- apply NoDup_app. split; [done|]. split; [|apply NoDup_singleton].
  intros u Hu ->%list_elem_of_singleton. done.
- apply NoDup_app. split; [done|]. split; [|apply NoDup_singleton].
  intros u Hu ->%list_elem_of_singleton. done.
- done.
- intros u Hu. apply elem_of_app. left. auto.
Qed.

Lemma item_outcome_store_ok (l : lib) (d : database) (existing_urls : gset string)
  (r : process_result) :
  item_outcome l d existing_urls r → store_ok d → store_ok (pr_db r).
Proof.
intros [(_ & _ & -> & _)|[(_ & _ & _ & Hmd & [Hrss|(row & m & exc & _ & Hrss & Hurl & Huuid)])
  |(_ & _ & link & row & m & Hnew & _ & Hrss & Hurl & Huuid & Hmd & Hm & _)]]; [done| | |].
- intros (Hurls & Huuids & Hmds & Hown). unfold store_ok. by rewrite Hrss, Hmd.
- intros Hok. by eapply store_ok_article_row.
- intros (Hurls & Huuids & Hmds & Hown). unfold store_ok. rewrite Hrss, Hmd.
  rewrite get_existing_urls_elem in Hnew.
  rewrite !fmap_app. csimpl. rewrite Hurl, Hm. repeat split.
  + apply NoDup_app. split; [done|]. split; [|apply NoDup_singleton].
    intros u Hu ->%list_elem_of_singleton. done.
  + apply NoDup_app. split; [done|]. split; [|apply NoDup_singleton].
    intros u Hu ->%list_elem_of_singleton. done.
  + apply NoDup_app. split; [done|]. split; [|apply NoDup_singleton].
    intros u Hu ->%list_elem_of_singleton. auto.
  + intros u [Hu| ->%list_elem_of_singleton]%elem_of_app; apply elem_of_app.
    * left. auto.
    * right. apply list_elem_of_singleton. done.
Qed.

End ItemFacts.

(** X9.  [process_single_article] has three outcomes.  Skipped: the store
    and the set of known links are untouched.  Failed: the metadata table
    and the set of known links are untouched, and so is the article table
    unless the database refused the metadata row of a write whose article
    row was already inserted: that article row, for a link and a uuid that
    were not stored, then stays behind without metadata (the failure table
    may have changed in both cases).  Processed: one article row and one
    metadata row of the same uuid are added for a link that was not
    stored, that link joins the set of known links, and the failure table
    is untouched.  The flag returned is [True] exactly in the last case. *)
Theorem process_single_article_outcomes (l : ArticleProcesser.lib) (w : Extractor.web)
  (uuids : string * string) (d : DjangoConfig.database) (it : ArticleProcesser.item)
  (source_name : string) (existing_urls : gset string) (source_url : string) :
  let r := ArticleProcesser.process_single_article l w uuids d it source_name
             existing_urls source_url in
  (ArticleProcesser.pr_status r = "skipped" ∧ ArticleProcesser.pr_success r = false ∧
   ArticleProcesser.pr_db r = d ∧ ArticleProcesser.pr_existing_urls r = existing_urls) ∨
  (ArticleProcesser.pr_status r = "failed" ∧ ArticleProcesser.pr_success r = false ∧
   ArticleProcesser.pr_existing_urls r = existing_urls ∧
   DjangoConfig.article_metadata (ArticleProcesser.pr_db r)
   = DjangoConfig.article_metadata d ∧
   (DjangoConfig.rss_feed_articles (ArticleProcesser.pr_db r)
    = DjangoConfig.rss_feed_articles d ∨
    ∃ row m exc,
      ArticleProcesser.metadata_insert l m = Some exc ∧
      DjangoConfig.rss_feed_articles (ArticleProcesser.pr_db r)
      = DjangoConfig.rss_feed_articles d ++ [row] ∧
      (DjangoConfig.rss_url row ∉ DjangoConfig.rss_url <$> DjangoConfig.rss_feed_articles d) ∧
      (DjangoConfig.rss_uuid row
         ∉ DjangoConfig.rss_uuid <$> DjangoConfig.rss_feed_articles d))) ∨
  (ArticleProcesser.pr_status r = "processed" ∧ ArticleProcesser.pr_success r = true ∧
   ∃ link row m,
     (link ∉ DbFunc.get_existing_urls d) ∧
     ArticleProcesser.pr_existing_urls r = {[link]} ∪ existing_urls ∧
     DjangoConfig.rss_feed_articles (ArticleProcesser.pr_db r)
     = DjangoConfig.rss_feed_articles d ++ [row] ∧
     DjangoConfig.rss_url row = link ∧
     DjangoConfig.article_metadata (ArticleProcesser.pr_db r)
     = DjangoConfig.article_metadata d ++ [m] ∧
     DjangoConfig.md_uuid m = DjangoConfig.rss_uuid row ∧
     DjangoConfig.failed_articles (ArticleProcesser.pr_db r)
     = DjangoConfig.failed_articles d).
Proof.
intros r.
destruct (process_single_article_cases l w uuids d it source_name existing_urls source_url)
  as [H|[H|(H1 & H2 & link & row & m & H3 & H4 & H5 & H6 & _ & H7 & H8 & H9)]];
  [by left | by right; left | right; right].
split; [done|]. split; [done|]. by exists link, row, m.
Qed.

(** A database that refuses every metadata row, as SQLite does for an
    integer beyond 64 bits. *)
Definition sample_refusing_lib : ArticleProcesser.lib :=
{| ArticleProcesser.netloc := λ _, Some "example.org";
   ArticleProcesser.detect := λ _, Some "en";
   ArticleProcesser.html_to_markdown := λ text, text;
   ArticleProcesser.parse_pub_date := λ _, None;
   ArticleProcesser.get_redirected_url := λ _, Extractor.NoText;
   ArticleProcesser.now := λ _, "2026-11-04T09:00:00";
   ArticleProcesser.metadata_insert :=
     λ _, Some (DjangoConfig.OverflowError
                  "Python int too large to convert to SQLite INTEGER") |}.

(** The item fails, and its article row stays behind without metadata. *)
Example process_single_article_orphan_row :
  let r := ArticleProcesser.process_single_article sample_refusing_lib sample_web
             ("3f2c9a", "") DjangoConfig.empty_database sample_inline_item "example.org" ∅
             "https://example.org/feed" in
  ArticleProcesser.pr_status r = "failed" ∧
  DjangoConfig.rss_url <$> DjangoConfig.rss_feed_articles (ArticleProcesser.pr_db r)
  = ["https://example.org/a"] ∧
  DjangoConfig.article_metadata (ArticleProcesser.pr_db r) = [].
Proof. vm_compute. repeat split; reflexivity. Qed.

Section FileFacts.
Import DjangoConfig ArticleProcesser.

Context (l : lib) (w : Extractor.web) (source_name : string).

(** A property of the store and the set of known links that every item
    keeps is kept by the item loop, by a file and by the file loop. *)
Section Invariant.

Variable Q : database → gset string → Prop.

Hypothesis Q_item : ∀ uuids d it existing_urls source_url,
  Q d existing_urls →
  Q (pr_db (process_single_article l w uuids d it source_name existing_urls source_url))
    (pr_existing_urls
       (process_single_article l w uuids d it source_name existing_urls source_url)).

Lemma process_items_keeps (uuid4 : nat → string * string) (source_url : string)
  (items : list item) (k : nat) (s : run_state) :
  Q (rs_db s) (rs_existing_urls s) →
  Q (rs_db (process_items l w uuid4 source_name source_url k items s))
    (rs_existing_urls (process_items l w uuid4 source_name source_url k items s)).
Proof using Q_item.
revert k s. induction items as [|it items IH]; intros k s Hs; [done|].
cbn [process_items]. apply IH. simpl. by apply Q_item.
Qed.

Lemma process_xml_file_efficiently_keeps (uuid4 : nat → string * string) (file : xml_file)
  (d : database) (existing_urls : gset string) :
  Q d existing_urls →
  Q (rs_db (process_xml_file_efficiently l w uuid4 file source_name d existing_urls))
    (rs_existing_urls
       (process_xml_file_efficiently l w uuid4 file source_name d existing_urls)).
Proof using Q_item.
intros Hd. destruct file as [|root]; [done|]. by apply process_items_keeps.
Qed.

Lemma process_files_keeps (uuid4 : nat → nat → string * string) (files : list xml_file)
  (k : nat) (s : run_state) :
  Q (rs_db s) (rs_existing_urls s) →
  Q (rs_db (process_files l w uuid4 source_name k files s))
    (rs_existing_urls (process_files l w uuid4 source_name k files s)).
Proof using Q_item.
revert k s. induction files as [|file files IH]; intros k s Hs; [done|].
cbn [process_files]. destruct (bool_decide _); apply IH; [done|].
simpl. by apply process_xml_file_efficiently_keeps.
Qed.

End Invariant.

Definition total (st : file_stats) : nat := fs_processed st + fs_skipped st + fs_failed st.

Lemma count_status_total (st : file_stats) (status : string) :
  total (count_status st status) = S (total st).
Proof. unfold count_status, total. repeat case_match; simpl; lia. Qed.

Lemma process_items_total (uuid4 : nat → string * string) (source_url : string)
  (items : list item) (k : nat) (s : run_state) :
  total (rs_stats (process_items l w uuid4 source_name source_url k items s))
  = total (rs_stats s) + length items.
Proof.
revert k s. induction items as [|it items IH]; intros k s; simpl; [lia|].
rewrite IH. simpl. rewrite count_status_total. lia.
Qed.

Lemma count_status_processed (st : file_stats) (status : string) :
  fs_processed (count_status st status)
  = fs_processed st + (if String.eqb status "processed" then 1 else 0).
Proof. unfold count_status. repeat case_match; simpl; lia. Qed.

Lemma count_status_failed (st : file_stats) (status : string) :
  fs_failed (count_status st status)
  = fs_failed st
    + (if String.eqb status "processed" then 0
       else if String.eqb status "skipped" then 0 else 1).
Proof. unfold count_status. repeat case_match; simpl; lia. Qed.

(** The metadata table grows by one row per processed item.  The article
    table grows by one row per processed item and by at most one row per
    failed item, and by none for a failed item when the database refuses
    no metadata row. *)
Lemma process_items_rows (uuid4 : nat → string * string) (source_url : string)
  (items : list item) (k : nat) (s : run_state) :
  let s' := process_items l w uuid4 source_name source_url k items s in
  length (rss_feed_articles (rs_db s)) + fs_processed (rs_stats s')
  ≤ length (rss_feed_articles (rs_db s')) + fs_processed (rs_stats s) ∧
  length (rss_feed_articles (rs_db s')) + fs_processed (rs_stats s) + fs_failed (rs_stats s)
  ≤ length (rss_feed_articles (rs_db s)) + fs_processed (rs_stats s')
    + fs_failed (rs_stats s') ∧
  ((∀ m, metadata_insert l m = None) →
   length (rss_feed_articles (rs_db s')) + fs_processed (rs_stats s)
   = length (rss_feed_articles (rs_db s)) + fs_processed (rs_stats s')) ∧
  length (article_metadata (rs_db s')) + fs_processed (rs_stats s)
  = length (article_metadata (rs_db s)) + fs_processed (rs_stats s').
Proof.
revert k s. induction items as [|it items IH]; intros k s; [by cbn; repeat split; lia|].
cbn [process_items]. cbv zeta.
specialize (IH (S k)). cbv zeta in IH.
set (r := process_single_article l w (uuid4 k) (rs_db s) it source_name
            (rs_existing_urls s) source_url).
match goal with |- context [process_items _ _ _ _ _ _ _ ?s1] =>
  destruct (IH s1) as (IHlo & IHhi & IHeq & IHmd) end.
cbn [rs_db rs_stats] in IHlo, IHhi, IHeq, IHmd.
pose proof (count_status_processed (rs_stats s) (pr_status r)) as Hcount.
pose proof (count_status_failed (rs_stats s) (pr_status r)) as Hfailed.
destruct (process_single_article_cases l w (uuid4 k) (rs_db s) it source_name
            (rs_existing_urls s) source_url)
  as [(Hst & _ & Hdb & _)|[(Hst & _ & _ & Hmd & Hrss)|(Hst & _ & link & row & m & _ & _ & Hrss
      & _ & _ & Hmd & _)]];
  fold r in Hst;
  destruct (String.eqb (pr_status r) "processed") eqn:Hb;
  destruct (String.eqb (pr_status r) "skipped") eqn:Hs;
  rewrite Hst in Hb, Hs; try discriminate Hb; try discriminate Hs.
- fold r in Hdb.
  assert (rss_feed_articles (pr_db r) = rss_feed_articles (rs_db s)) as Hrss
    by (by rewrite Hdb).
  assert (article_metadata (pr_db r) = article_metadata (rs_db s)) as Hmd
    by (by rewrite Hdb).
  apply (f_equal length) in Hrss, Hmd.
  split; [lia|]. split; [lia|]. split; [|lia]. intros Hnever. specialize (IHeq Hnever). lia.
- fold r in Hrss, Hmd. apply (f_equal length) in Hmd.
  destruct Hrss as [Hrss|(row & m & exc & Hinsert & Hrss & _)];
    apply (f_equal length) in Hrss; try (rewrite length_app in Hrss; simpl in Hrss).
  + split; [lia|]. split; [lia|]. split; [|lia].
    intros Hnever. specialize (IHeq Hnever). lia.
  + split; [lia|]. split; [lia|]. split; [|lia].
    intros Hnever. rewrite Hnever in Hinsert. done.
- fold r in Hrss, Hmd. apply (f_equal length) in Hrss, Hmd.
  rewrite length_app in Hrss, Hmd. simpl in Hrss, Hmd.
  split; [lia|]. split; [lia|]. split; [|lia]. intros Hnever. specialize (IHeq Hnever). lia.
Qed.

(** When every item comes without a link or with a known link, the loop
    skips them all. *)
Lemma process_items_known (uuid4 : nat → string * string) (source_url : string)
  (items : list item) (k : nat) (s : run_state) :
  (∀ it, it ∈ items →
     text_or_empty (i_link it) = "" ∨ text_or_empty (i_link it) ∈ rs_existing_urls s) →
  process_items l w uuid4 source_name source_url k items s
  = {| rs_stats := {| fs_processed := fs_processed (rs_stats s);
                      fs_skipped := fs_skipped (rs_stats s) + length items;
                      fs_failed := fs_failed (rs_stats s) |};
       rs_db := rs_db s; rs_existing_urls := rs_existing_urls s |}.
Proof.
revert k s. induction items as [|it items IH]; intros k s Hknown.
- simpl. destruct s as [[] ? ?]. simpl. by rewrite Nat.add_0_r.
- cbn [process_items]. cbv zeta.
  rewrite process_single_article_known by (apply Hknown; left).
  rewrite IH; simpl.
  + do 2 f_equal. lia.
  + intros it' Hit'. apply Hknown. by right.
Qed.

Lemma extract_unique_urls_from_xml_elem (root : xml_root) (it : item) :
  it ∈ r_items root → text_or_empty (i_link it) ≠ "" →
  text_or_empty (i_link it) ∈ extract_unique_urls_from_xml (Parsed root).
Proof.
intros Hit Hlink. unfold extract_unique_urls_from_xml.
apply elem_of_list_to_set, list_elem_of_In, List.filter_In. split.
- apply list_elem_of_In. by apply (list_elem_of_fmap_2 (λ it, text_or_empty (i_link it))).
- by apply truthy_true.
Qed.

End FileFacts.

Section DirectoryFacts.
Import DjangoConfig ArticleProcesser.

(** The files of a directory only ever append to the article tables. *)
Definition grown_from (d0 d : database) : Prop :=
store_ok d ∧
rss_feed_articles d0 `prefix_of` rss_feed_articles d ∧
article_metadata d0 `prefix_of` article_metadata d.

Lemma item_outcome_grown (l : lib) (d0 d : database) (existing_urls : gset string)
  (r : process_result) :
  item_outcome l d existing_urls r → grown_from d0 d → grown_from d0 (pr_db r).
Proof.
intros Hr (Hok & Hrss & Hmd). split; [by eapply item_outcome_store_ok|].
destruct Hr as [(_ & _ & -> & _)|[(_ & _ & _ & -> & [->|(row & m & exc & _ & -> & _)])
  |(_ & _ & link & row & m & _ & _ & -> & _ & _ & -> & _)]]; [done|done| |].
- split; [by apply prefix_app_r|done].
- split; by apply prefix_app_r.
Qed.

Lemma process_files_rows (l : lib) (w : Extractor.web) (source_name : string)
  (uuid4 : nat → nat → string * string) (files : list xml_file) (k : nat) (s : run_state) :
  let s' := process_files l w uuid4 source_name k files s in
  length (rss_feed_articles (rs_db s)) + fs_processed (rs_stats s')
  ≤ length (rss_feed_articles (rs_db s')) + fs_processed (rs_stats s) ∧
  length (rss_feed_articles (rs_db s')) + fs_processed (rs_stats s) + fs_failed (rs_stats s)
  ≤ length (rss_feed_articles (rs_db s)) + fs_processed (rs_stats s')
    + fs_failed (rs_stats s') ∧
  ((∀ m, metadata_insert l m = None) →
   length (rss_feed_articles (rs_db s')) + fs_processed (rs_stats s)
   = length (rss_feed_articles (rs_db s)) + fs_processed (rs_stats s')) ∧
  length (article_metadata (rs_db s')) + fs_processed (rs_stats s)
  = length (article_metadata (rs_db s)) + fs_processed (rs_stats s').
Proof.
revert k s. induction files as [|file files IH]; intros k s; [by cbn; repeat split; lia|].
cbn [process_files]. cbv zeta. destruct (bool_decide _); [apply IH|].
set (r := process_xml_file_efficiently l w (uuid4 k) file source_name (rs_db s)
            (rs_existing_urls s)).
match goal with |- context [process_files _ _ _ _ _ _ ?s1] =>
  pose proof (IH (S k) s1) as (IHlo & IHhi & IHeq & IHmd) end.
cbn [rs_db rs_stats] in IHlo, IHhi, IHeq, IHmd.
assert (length (rss_feed_articles (rs_db s)) + fs_processed (rs_stats r)
        ≤ length (rss_feed_articles (rs_db r)) ∧
        length (rss_feed_articles (rs_db r))
        ≤ length (rss_feed_articles (rs_db s)) + fs_processed (rs_stats r)
          + fs_failed (rs_stats r) ∧
        ((∀ m, metadata_insert l m = None) →
         length (rss_feed_articles (rs_db r))
         = length (rss_feed_articles (rs_db s)) + fs_processed (rs_stats r)) ∧
        length (article_metadata (rs_db r))
        = length (article_metadata (rs_db s)) + fs_processed (rs_stats r))
  as (Hlo & Hhi & Heq & Hmd).
{ subst r. destruct file as [|root]; simpl; [repeat split; lia|].
  destruct (process_items_rows l w source_name (uuid4 k) (extract_source_url root)
              (r_items root) 0
              {| rs_stats := no_stats; rs_db := rs_db s;
                 rs_existing_urls := rs_existing_urls s |}) as (Hlo & Hhi & Heq & Hmd).
  simpl in Hlo, Hhi, Heq, Hmd.
  split; [lia|]. split; [lia|]. split; [|lia]. intros Hnever. specialize (Heq Hnever). lia. }
assert (∀ a b, fs_processed (add_stats a b) = fs_processed a + fs_processed b) as Hadd
  by done.
assert (∀ a b, fs_failed (add_stats a b) = fs_failed a + fs_failed b) as Haddf
  by done.
rewrite Hadd in IHlo, IHhi, IHeq, IHmd. rewrite Haddf in IHhi.
split; [lia|]. split; [lia|]. split; [|lia].
intros Hnever. specialize (IHeq Hnever). specialize (Heq Hnever). lia.
Qed.

End DirectoryFacts.

(** X10.  The three counts that [process_xml_file_efficiently] returns add
    up to the number of items of the file.  The metadata table has grown
    by exactly the number of processed items.  The article table has grown
    by at least that number and by at most the number of processed plus
    failed items: a failed item whose metadata row the database refused
    leaves its article row behind; when the database refuses no metadata
    row the article table has grown by exactly the number of processed
    items.  No link was dropped from the set of known links. *)
Theorem process_xml_file_efficiently_counts (l : ArticleProcesser.lib) (w : Extractor.web)
  (uuid4 : nat → string * string) (file : ArticleProcesser.xml_file)
  (source_name : string) (d : DjangoConfig.database) (existing_urls : gset string) :
  let s := ArticleProcesser.process_xml_file_efficiently l w uuid4 file source_name d
             existing_urls in
  let items := match file with
               | ArticleProcesser.Parsed root => ArticleProcesser.r_items root
               | ArticleProcesser.Unreadable => []
               end in
  ArticleProcesser.fs_processed (ArticleProcesser.rs_stats s)
  + ArticleProcesser.fs_skipped (ArticleProcesser.rs_stats s)
  + ArticleProcesser.fs_failed (ArticleProcesser.rs_stats s) = length items ∧
  length (DjangoConfig.article_metadata (ArticleProcesser.rs_db s))
  = length (DjangoConfig.article_metadata d)
    + ArticleProcesser.fs_processed (ArticleProcesser.rs_stats s) ∧
  length (DjangoConfig.rss_feed_articles d)
  + ArticleProcesser.fs_processed (ArticleProcesser.rs_stats s)
  ≤ length (DjangoConfig.rss_feed_articles (ArticleProcesser.rs_db s)) ∧
  length (DjangoConfig.rss_feed_articles (ArticleProcesser.rs_db s))
  ≤ length (DjangoConfig.rss_feed_articles d)
    + ArticleProcesser.fs_processed (ArticleProcesser.rs_stats s)
    + ArticleProcesser.fs_failed (ArticleProcesser.rs_stats s) ∧
  ((∀ m, ArticleProcesser.metadata_insert l m = None) →
   length (DjangoConfig.rss_feed_articles (ArticleProcesser.rs_db s))
   = length (DjangoConfig.rss_feed_articles d)
     + ArticleProcesser.fs_processed (ArticleProcesser.rs_stats s)) ∧
  existing_urls ⊆ ArticleProcesser.rs_existing_urls s.
Proof.
intros s items.
assert (length (DjangoConfig.article_metadata (ArticleProcesser.rs_db s))
        = length (DjangoConfig.article_metadata d)
          + ArticleProcesser.fs_processed (ArticleProcesser.rs_stats s) ∧
        length (DjangoConfig.rss_feed_articles d)
        + ArticleProcesser.fs_processed (ArticleProcesser.rs_stats s)
        ≤ length (DjangoConfig.rss_feed_articles (ArticleProcesser.rs_db s)) ∧
        length (DjangoConfig.rss_feed_articles (ArticleProcesser.rs_db s))
        ≤ length (DjangoConfig.rss_feed_articles d)
          + ArticleProcesser.fs_processed (ArticleProcesser.rs_stats s)
          + ArticleProcesser.fs_failed (ArticleProcesser.rs_stats s) ∧
        ((∀ m, ArticleProcesser.metadata_insert l m = None) →
         length (DjangoConfig.rss_feed_articles (ArticleProcesser.rs_db s))
         = length (DjangoConfig.rss_feed_articles d)
           + ArticleProcesser.fs_processed (ArticleProcesser.rs_stats s)))
  as (Hmd & Hlo & Hhi & Heq).
{ subst s. destruct file as [|root]; simpl; [repeat split; lia|].
  destruct (process_items_rows l w source_name uuid4
              (ArticleProcesser.extract_source_url root) (ArticleProcesser.r_items root) 0
              {| ArticleProcesser.rs_stats := ArticleProcesser.no_stats;
                 ArticleProcesser.rs_db := d;
                 ArticleProcesser.rs_existing_urls := existing_urls |})
    as (Hlo & Hhi & Heq & Hmd).
  simpl in Hlo, Hhi, Heq, Hmd.
  split; [lia|]. split; [lia|]. split; [lia|].
  intros Hnever. specialize (Heq Hnever). lia. }
split; [|split; [exact Hmd|split; [exact Hlo|split; [exact Hhi|split; [exact Heq|]]]]].
- subst s items. destruct file as [|root]; [done|]. simpl.
  pose proof (process_items_total l w source_name uuid4
                (ArticleProcesser.extract_source_url root) (ArticleProcesser.r_items root) 0
                {| ArticleProcesser.rs_stats := ArticleProcesser.no_stats;
                   ArticleProcesser.rs_db := d;
                   ArticleProcesser.rs_existing_urls := existing_urls |}) as Htotal.
  exact Htotal.
- subst s.
  apply (process_xml_file_efficiently_keeps l w source_name (λ _ e, existing_urls ⊆ e));
    [|done].
  intros uuids d' it e source_url He.
  destruct (process_single_article_cases l w uuids d' it source_name e source_url)
    as [(_ & _ & _ & ->)|[(_ & _ & -> & _)|(_ & _ & link & row & m & _ & -> & _)]];
    [done|done|]. by apply union_subseteq_r'.
Qed.

(** X11.  A file that holds no link unknown so far changes nothing: the
    store and the set of known links are as before and no item is counted
    as processed or failed.  This is what lets [process_source_directory]
    pass over such a file. *)
Theorem process_xml_file_efficiently_nothing_new (l : ArticleProcesser.lib)
  (w : Extractor.web) (uuid4 : nat → string * string) (file : ArticleProcesser.xml_file)
  (source_name : string) (d : DjangoConfig.database) (existing_urls : gset string) :
  ArticleProcesser.extract_unique_urls_from_xml file ∖ existing_urls = ∅ →
  let s := ArticleProcesser.process_xml_file_efficiently l w uuid4 file source_name d
             existing_urls in
  ArticleProcesser.rs_db s = d ∧
  ArticleProcesser.rs_existing_urls s = existing_urls ∧
  ArticleProcesser.fs_processed (ArticleProcesser.rs_stats s) = 0 ∧
  ArticleProcesser.fs_failed (ArticleProcesser.rs_stats s) = 0.
Proof.
intros Hnone s. subst s. destruct file as [|root]; [done|].
unfold ArticleProcesser.process_xml_file_efficiently.
rewrite process_items_known; [done|]. simpl. intros it Hit.
destruct (decide (ArticleProcesser.text_or_empty (ArticleProcesser.i_link it) = ""))
  as [|Hlink]; [by left|]. right.
destruct (decide (ArticleProcesser.text_or_empty (ArticleProcesser.i_link it)
                  ∈ existing_urls)) as [|Hnew]; [done|].
pose proof (extract_unique_urls_from_xml_elem root it Hit Hlink) as Hin.
assert (ArticleProcesser.text_or_empty (ArticleProcesser.i_link it)
        ∈ ArticleProcesser.extract_unique_urls_from_xml (ArticleProcesser.Parsed root)
          ∖ existing_urls) as Hdiff by (by apply elem_of_difference).
rewrite Hnone in Hdiff. by apply elem_of_empty in Hdiff.
Qed.

Definition sample_root : ArticleProcesser.xml_root :=
{| ArticleProcesser.r_atom_self_rss_href := None;
   ArticleProcesser.r_atom_self_href := Some "https://example.org/feed";
   ArticleProcesser.r_channel_link := Some "https://example.org";
   ArticleProcesser.r_first_link := Some "https://example.org";
   ArticleProcesser.r_items := [sample_inline_item; sample_item] |}.

Lemma process_xml_file_efficiently_nothing_new_witness :
  ArticleProcesser.rs_db
    (ArticleProcesser.process_xml_file_efficiently sample_lib sample_web
       (λ _, ("3f2c9a", "77b0e4")) (ArticleProcesser.Parsed sample_root) "example.org"
       sample_ingested {["https://example.org/a"]})
  = sample_ingested.
Proof.
apply (process_xml_file_efficiently_nothing_new sample_lib sample_web
         (λ _, ("3f2c9a", "77b0e4")) (ArticleProcesser.Parsed sample_root) "example.org"
         sample_ingested {["https://example.org/a"]}).
apply (bool_decide_unpack _). vm_compute. exact I.
Defined.

(** X12.  [process_source_directory] keeps the article store consistent:
    if beforehand no two articles share a link or a uuid and every
    metadata row belongs to exactly one stored article, the same holds
    afterwards; the rows that were stored are still there, unchanged and
    in place.  The metadata table has grown by the number of items
    reported as processed; the article table has grown by at least that
    number and by at most the number of items reported as processed or
    failed (an article row whose metadata row the database refused stays
    behind without metadata), and by exactly the number of processed items
    when the database refuses no metadata row. *)
Theorem process_source_directory_store_ok (l : ArticleProcesser.lib) (w : Extractor.web)
  (uuid4 : nat → nat → string * string) (files : list ArticleProcesser.xml_file)
  (source_name : string) (d : DjangoConfig.database) :
  store_ok d →
  let r := ArticleProcesser.process_source_directory l w uuid4 files source_name d in
  let processed :=
    match r.1 with Some stats => ArticleProcesser.fs_processed stats | None => 0 end in
  let failed :=
    match r.1 with Some stats => ArticleProcesser.fs_failed stats | None => 0 end in
  store_ok r.2 ∧
  DjangoConfig.rss_feed_articles d `prefix_of` DjangoConfig.rss_feed_articles r.2 ∧
  DjangoConfig.article_metadata d `prefix_of` DjangoConfig.article_metadata r.2 ∧
  length (DjangoConfig.article_metadata r.2)
  = length (DjangoConfig.article_metadata d) + processed ∧
  length (DjangoConfig.rss_feed_articles d) + processed
  ≤ length (DjangoConfig.rss_feed_articles r.2) ∧
  length (DjangoConfig.rss_feed_articles r.2)
  ≤ length (DjangoConfig.rss_feed_articles d) + processed + failed ∧
  ((∀ m, ArticleProcesser.metadata_insert l m = None) →
   length (DjangoConfig.rss_feed_articles r.2)
   = length (DjangoConfig.rss_feed_articles d) + processed).
Proof.
intros Hok r processed failed. subst r processed failed.
unfold ArticleProcesser.process_source_directory.
destruct files as [|file files];
  [simpl; split; [done|]; split; [done|]; split; [done|]; repeat split; lia|].
destruct (bool_decide _);
  [simpl; split; [done|]; split; [done|]; split; [done|]; repeat split; lia|].
cbn [fst snd].
set (s0 := {| ArticleProcesser.rs_stats := ArticleProcesser.no_stats;
              ArticleProcesser.rs_db := d;
              ArticleProcesser.rs_existing_urls := DbFunc.get_existing_urls d |}).
pose proof (process_files_rows l w source_name uuid4 (file :: files) 0 s0)
  as (Hlo & Hhi & Heq & Hrows).
cbv zeta in Hlo, Hhi, Heq, Hrows.
change (ArticleProcesser.rs_db s0) with d in Hlo, Hhi, Heq, Hrows.
change (ArticleProcesser.fs_processed (ArticleProcesser.rs_stats s0)) with 0
  in Hlo, Hhi, Heq, Hrows.
change (ArticleProcesser.fs_failed (ArticleProcesser.rs_stats s0)) with 0 in Hhi.
assert (grown_from d
          (ArticleProcesser.rs_db
             (ArticleProcesser.process_files l w uuid4 source_name 0 (file :: files) s0)))
  as (Hok' & Hrss & Hmd).
{ apply (process_files_keeps l w source_name (λ d' _, grown_from d d')).
  - intros uuids d' it e source_url Hd'. eapply item_outcome_grown; [|exact Hd'].
    apply process_single_article_cases.
  - split; [exact Hok|]. split; reflexivity. }
split; [exact Hok'|]. split; [exact Hrss|]. split; [exact Hmd|].
split; [lia|]. split; [lia|]. split; [lia|].
intros Hnever. specialize (Heq Hnever). lia.
Qed.

Lemma process_source_directory_store_ok_witness :
  store_ok
    (ArticleProcesser.process_source_directory sample_lib sample_web
       (λ _ _, ("3f2c9a", "77b0e4")) [ArticleProcesser.Parsed sample_root] "example.org"
       DjangoConfig.empty_database).2.
Proof.
apply (process_source_directory_store_ok sample_lib sample_web
         (λ _ _, ("3f2c9a", "77b0e4")) [ArticleProcesser.Parsed sample_root] "example.org"
         DjangoConfig.empty_database).
repeat split; try apply NoDup_nil_2. intros u Hu. by apply elem_of_nil in Hu.
Defined.

(** ** db_func.py and vector_db.py: the failure tables *)

Section SaveFacts.
Import DjangoConfig.
Context {A : Type}.
Implicit Types (p q : A → bool) (f : A → A) (rows : list A).

Lemma save_first_fmap {K} (key : A → K) p f rows :
  (∀ r, key (f r) = key r) → key <$> save_first p f rows = key <$> rows.
Proof.
intros Hkey. induction rows as [|r rows IH]; [done|]. simpl.
destruct (p r); csimpl; [by rewrite Hkey | by rewrite IH].
Qed.

(** Saving the first row that satisfies [p] leaves alone the rows that a
    test [q] selects, when [q] rejects the rows [p] accepts. *)
Lemma save_first_filter p q f rows :
  (∀ r, p r = true → q r = false ∧ q (f r) = false) →
  List.filter q (save_first p f rows) = List.filter q rows.
Proof.
intros Hpq. induction rows as [|r rows IH]; [done|]. simpl.
destruct (p r) eqn:Hp; simpl.
- destruct (Hpq r Hp) as [-> ->]. done.
- by rewrite IH.
Qed.

Lemma first_where_Some p rows r :
  first_where p rows = Some r → r ∈ rows ∧ p r = true.
Proof.
unfold first_where. intros [Hin Hp]%List.find_some. split; [by apply list_elem_of_In|done].
Qed.

(** After the first [p]-row is saved, the first row satisfying a stronger
    test [q] is the saved row, when the saved row passes [q]. *)
Lemma first_where_saved p q f rows r :
  (∀ r, q r = true → p r = true) →
  first_where p rows = Some r → q (f r) = true →
  first_where q (save_first p f rows) = Some (f r).
Proof.
intros Hqp. unfold first_where.
induction rows as [|r' rows IH]; simpl; [done|].
destruct (p r') eqn:Hp.
- intros [= ->] Hq. simpl. by rewrite Hq.
- intros Hfind Hq. simpl. destruct (q r') eqn:Hq'.
  + apply Hqp in Hq'. congruence.
  + by apply IH.
Qed.

Lemma first_where_weaken p q rows :
  (∀ r, q r = true → p r = true) → first_where p rows = None → first_where q rows = None.
Proof.
intros Hqp. rewrite !first_where_None. intros Hp r Hr.
destruct (q r) eqn:Hq; [|done]. apply Hqp in Hq. rewrite (Hp r Hr) in Hq. done.
Qed.

Lemma filter_all p rows : (∀ r, r ∈ rows → p r = true) → List.filter p rows = rows.
Proof.
induction rows as [|r rows IH]; [done|]. intros Hall. simpl.
rewrite (Hall r) by left. f_equal. apply IH. intros r' Hr'. apply Hall. by right.
Qed.

Lemma filter_app_new p rows r :
  List.filter p (rows ++ [r]) = List.filter p rows ++ (if p r then [r] else []).
Proof. rewrite List.filter_app. simpl. by destruct (p r). Qed.

End SaveFacts.

Section FailedArticleFacts.
Import DjangoConfig.

(** Repeated failures of one article. *)
Fixpoint log_failures (n : nat) (d : database) (u url etype emsg : string) : database :=
match n with
| O => d
| S n' => DbFunc.log_failed_article (log_failures n' d u url etype emsg) u url etype emsg
end.

End FailedArticleFacts.

(** X13.  [log_failed_article] keeps one record per uuid: if no two
    records share a uuid beforehand, none do afterwards; the records of
    all other uuids are left as they are, in their order; and after [n]
    failures of a uuid that had no record, its record counts [n]
    attempts. *)
Theorem log_failed_article_one_record (d : DjangoConfig.database)
  (u url etype emsg : string) :
  let d' := DbFunc.log_failed_article d u url etype emsg in
  (NoDup (DjangoConfig.fa_uuid <$> DjangoConfig.failed_articles d) →
   NoDup (DjangoConfig.fa_uuid <$> DjangoConfig.failed_articles d')) ∧
  List.filter (λ r, negb (String.eqb (DjangoConfig.fa_uuid r) u))
    (DjangoConfig.failed_articles d')
  = List.filter (λ r, negb (String.eqb (DjangoConfig.fa_uuid r) u))
      (DjangoConfig.failed_articles d) ∧
  ∀ n,
    DjangoConfig.first_where (λ r, String.eqb (DjangoConfig.fa_uuid r) u)
      (DjangoConfig.failed_articles d) = None →
    DjangoConfig.first_where (λ r, String.eqb (DjangoConfig.fa_uuid r) u)
      (DjangoConfig.failed_articles (log_failures (S n) d u url etype emsg))
    = Some {| DjangoConfig.fa_uuid := u; DjangoConfig.fa_url := url;
              DjangoConfig.fa_error_type := etype;
              DjangoConfig.fa_error_message := emsg;
              DjangoConfig.fa_attempt_count := S n |}.
Proof.
intros d'. split; [|split].
- subst d'. unfold DbFunc.log_failed_article.
  destruct (DjangoConfig.first_where _ _) as [old|] eqn:Hold; simpl.
  + by rewrite save_first_fmap.
  + intros Hnodup. rewrite fmap_app. apply NoDup_app. split; [done|].
    split; [|apply NoDup_singleton].
    intros u' (r & -> & Hr)%list_elem_of_fmap Hu%list_elem_of_singleton.
    rewrite first_where_None in Hold. specialize (Hold r Hr). simpl in Hold, Hu.
    by rewrite Hu, String.eqb_refl in Hold.
- subst d'. unfold DbFunc.log_failed_article.
  destruct (DjangoConfig.first_where _ _) as [old|] eqn:Hold; simpl.
  + apply save_first_filter. intros r Hp. simpl. by rewrite Hp.
  + rewrite filter_app_new. simpl. rewrite String.eqb_refl. simpl. apply app_nil_r.
- intros n Hnew. induction n as [|n IH].
  + simpl. destruct (log_failed_article_record d u url etype emsg) as [-> _].
    unfold next_attempt. by rewrite Hnew.
  + change (log_failures (S (S n)) d u url etype emsg)
      with (DbFunc.log_failed_article (log_failures (S n) d u url etype emsg)
              u url etype emsg).
    destruct (log_failed_article_record (log_failures (S n) d u url etype emsg)
                u url etype emsg) as [-> _].
    unfold next_attempt. rewrite IH. simpl. do 2 f_equal. lia.
Qed.

Section FailedEmbeddingFacts.
Import DjangoConfig VectorDb.

Lemma database_eta (d : database) :
  {| rss_feed_articles := rss_feed_articles d;
     article_metadata := article_metadata d;
     failed_articles := failed_articles d;
     failed_vector_embeddings := failed_vector_embeddings d;
     vector_database_tracking := vector_database_tracking d |} = d.
Proof. by destruct d. Qed.

(** The test [article_uuid=..., chunk_index=...] the three functions of
    the failed-embeddings table filter on. *)
Definition same_chunk (article_uuid : string) (chunk_index : nat)
  (r : FailedVectorEmbeddings) : bool :=
String.eqb (fe_article_uuid r) article_uuid && (fe_chunk_index r =? chunk_index).

Lemma insert_by_attempts_perm (r : FailedVectorEmbeddings)
  (sorted : list FailedVectorEmbeddings) :
  insert_by_attempts r sorted ≡ₚ r :: sorted.
Proof.
induction sorted as [|r' sorted IH]; [done|]. simpl.
destruct (_ <=? _); [done|]. rewrite IH. apply Permutation_swap.
Qed.

Definition by_attempts_desc (r1 r2 : FailedVectorEmbeddings) : Prop :=
fe_attempt_count r2 ≤ fe_attempt_count r1.

Lemma insert_by_attempts_sorted (r : FailedVectorEmbeddings)
  (sorted : list FailedVectorEmbeddings) :
  StronglySorted by_attempts_desc sorted →
  StronglySorted by_attempts_desc (insert_by_attempts r sorted).
Proof.
induction 1 as [|r' sorted Hsorted IH Hall]; simpl.
- repeat constructor.
- destruct (fe_attempt_count r' <=? fe_attempt_count r) eqn:Hle.
  + apply Nat.leb_le in Hle. constructor; [by constructor|].
    constructor; [done|]. eapply List.Forall_impl; [|exact Hall].
    unfold by_attempts_desc. intros r2 Hr2. lia.
  + apply Nat.leb_gt in Hle. constructor; [done|].
    eapply Permutation_Forall; [symmetry; apply insert_by_attempts_perm|].
    constructor; [|done]. unfold by_attempts_desc. lia.
Qed.

(** Rows with the same attempt count keep the order of the table. *)
Lemma insert_by_attempts_stable (n : nat) (r : FailedVectorEmbeddings)
  (sorted : list FailedVectorEmbeddings) :
  List.filter (λ r', fe_attempt_count r' =? n) (insert_by_attempts r sorted)
  = List.filter (λ r', fe_attempt_count r' =? n) (r :: sorted).
Proof.
induction sorted as [|r' sorted IH]; [done|]. cbn [insert_by_attempts].
destruct (fe_attempt_count r' <=? fe_attempt_count r) eqn:Hle; [done|].
apply Nat.leb_gt in Hle. simpl. simpl in IH.
destruct (fe_attempt_count r' =? n) eqn:Hr'; destruct (fe_attempt_count r =? n) eqn:Hr;
  rewrite IH; try done.
apply Nat.eqb_eq in Hr', Hr. lia.
Qed.

End FailedEmbeddingFacts.

(** X14.  [get_failed_embeddings] returns every record of the table
    exactly once, highest attempt count first, and records with equal
    attempt counts in the order they were created. *)
Theorem get_failed_embeddings_order (d : DjangoConfig.database) :
  VectorDb.get_failed_embeddings d ≡ₚ DjangoConfig.failed_vector_embeddings d ∧
  StronglySorted
    (λ r1 r2, DjangoConfig.fe_attempt_count r2 ≤ DjangoConfig.fe_attempt_count r1)
    (VectorDb.get_failed_embeddings d) ∧
  ∀ n,
    List.filter (λ r, DjangoConfig.fe_attempt_count r =? n) (VectorDb.get_failed_embeddings d)
    = List.filter (λ r, DjangoConfig.fe_attempt_count r =? n)
        (DjangoConfig.failed_vector_embeddings d).
Proof.
unfold VectorDb.get_failed_embeddings.
induction (DjangoConfig.failed_vector_embeddings d) as [|r rows (Hperm & Hsorted & Hstable)].
- split; [done|]. split; [constructor|done].
- cbn [foldr]. split; [|split].
  + by rewrite insert_by_attempts_perm, Hperm.
  + by apply insert_by_attempts_sorted.
  + intros n. rewrite insert_by_attempts_stable. simpl. by rewrite Hstable.
Qed.

(** X15.  Clearing a chunk's failure right after logging it gives the
    store that clearing alone gives; so when the chunk had no record, the
    store is back as it was.  Clearing removes every record of the chunk
    and touches nothing else. *)
Theorem clear_failed_embedding_after_log (d : DjangoConfig.database)
  (article_uuid url title domain error_type error_message : string)
  (chunk_index total_chunks : nat) :
  VectorDb.clear_failed_embedding
    (VectorDb.log_failed_embedding d article_uuid url title domain error_type
       error_message chunk_index total_chunks) article_uuid chunk_index
  = VectorDb.clear_failed_embedding d article_uuid chunk_index ∧
  (DjangoConfig.first_where (same_chunk article_uuid chunk_index)
     (DjangoConfig.failed_vector_embeddings d) = None →
   VectorDb.clear_failed_embedding d article_uuid chunk_index = d) ∧
  DjangoConfig.first_where (same_chunk article_uuid chunk_index)
    (DjangoConfig.failed_vector_embeddings
       (VectorDb.clear_failed_embedding d article_uuid chunk_index)) = None.
Proof.
split; [|split].
- unfold VectorDb.clear_failed_embedding, VectorDb.log_failed_embedding.
  destruct (DjangoConfig.first_where _ _) as [old|]; unfold
    DjangoConfig.set_failed_vector_embeddings; simpl; f_equal.
  + apply save_first_filter. intros r Hr. simpl. by rewrite Hr.
  + rewrite filter_app_new. simpl. rewrite String.eqb_refl, Nat.eqb_refl. simpl.
    apply app_nil_r.
- intros Hnone. unfold VectorDb.clear_failed_embedding,
    DjangoConfig.set_failed_vector_embeddings.
  rewrite filter_all; [apply database_eta|].
  rewrite first_where_None in Hnone. intros r Hr.
  specialize (Hnone r Hr). unfold same_chunk in Hnone. by rewrite Hnone.
- apply first_where_None. simpl. intros r Hr.
  apply list_elem_of_In, List.filter_In in Hr as [_ Hr].
  by apply negb_true_iff in Hr.
Qed.

(** ** vector_db.py: the tracking table *)

Section TableFacts2.
Import DjangoConfig.
Context {A : Type}.
Implicit Types (p q : A → bool) (f : A → A) (rows : list A).

Lemma first_where_save_first_other p q f rows :
  (∀ r, p r = true → q r = false ∧ q (f r) = false) →
  first_where q (save_first p f rows) = first_where q rows.
Proof.
intros Hpq. unfold first_where. induction rows as [|r rows IH]; [done|]. simpl.
destruct (p r) eqn:Hp; simpl.
- destruct (Hpq r Hp) as [-> ->]. done.
- by rewrite IH.
Qed.

Lemma first_where_app_other q rows r :
  q r = false → first_where q (rows ++ [r]) = first_where q rows.
Proof.
intros Hq. unfold first_where. induction rows as [|r' rows IH]; simpl.
- by rewrite Hq.
- by rewrite IH.
Qed.

Lemma first_where_save_first_keeps p q f rows :
  (∀ r, q r = true → q (f r) = true) →
  is_Some (first_where q rows) → is_Some (first_where q (save_first p f rows)).
Proof.
intros Hq. unfold first_where. induction rows as [|r rows IH]; simpl; [done|].
destruct (p r); simpl.
- destruct (q r) eqn:Hqr; [rewrite (Hq r Hqr); eauto|].
  intros Hrest. by destruct (q (f r)).
- destruct (q r); [eauto|done].
Qed.

Lemma first_where_app_keeps q rows r :
  is_Some (first_where q rows) → is_Some (first_where q (rows ++ [r])).
Proof.
unfold first_where. induction rows as [|r' rows IH]; simpl.
- by intros [? ?].
- destruct (q r'); [eauto|done].
Qed.

(** With a key that no two rows share, the only row of the saved table
    that carries the key of the saved row is the saved row. *)
Lemma save_first_unique {K} (key : A → K) p f rows r0 r :
  NoDup (key <$> rows) → (∀ r, key (f r) = key r) →
  first_where p rows = Some r0 →
  r ∈ save_first p f rows → key r = key r0 → r = f r0.
Proof.
intros Hnodup Hkey. unfold first_where.
induction rows as [|r' rows IH]; simpl; [done|].
apply NoDup_cons in Hnodup as [Hr' Hnodup].
destruct (p r') eqn:Hp.
- intros [= ->] [->|Hr]%elem_of_cons Heq; [done|].
  exfalso. apply Hr'. rewrite <- Heq. by apply list_elem_of_fmap_2.
- intros Hfind [->|Hr]%elem_of_cons Heq; [|by apply IH].
  exfalso. apply Hr'. rewrite Heq. apply list_elem_of_fmap_2.
  apply List.find_some in Hfind as [Hin _]. by apply list_elem_of_In.
Qed.

Lemma save_first_elem p f rows r :
  r ∈ save_first p f rows → r ∈ rows ∨ ∃ r0, r0 ∈ rows ∧ p r0 = true ∧ r = f r0.
Proof.
induction rows as [|r' rows IH]; simpl; [by left|].
destruct (p r') eqn:Hp.
- intros [->|Hr]%elem_of_cons.
  + right. exists r'. split; [left|done].
  + left. by right.
- intros [->|Hr]%elem_of_cons; [left; left|].
  destruct (IH Hr) as [Hin|(r0 & Hin & Hp0 & ->)]; [left; by right|].
  right. exists r0. split; [by right|done].
Qed.

End TableFacts2.

Section TrackingFacts2.
Import DjangoConfig VectorDb.

Definition tracked_uuids (d : database) : list string :=
vt_article_uuid <$> vector_database_tracking d.

Lemma tracking_create_inr (d d' : database) (row : VectorDatabaseTracking) :
  tracking_create d row = inr d' →
  (vt_article_uuid row ∉ tracked_uuids d) ∧
  vector_database_tracking d' = vector_database_tracking d ++ [row].
Proof.
unfold tracking_create. destruct (existsb _ _) eqn:Hex; [done|].
intros [= <-]. split; [|done]. by eapply existsb_eqb_false.
Qed.

Lemma tracking_create_inl (d : database) (row : VectorDatabaseTracking) (e : exn) :
  tracking_create d row = inl e →
  ∃ r, r ∈ vector_database_tracking d ∧ vt_article_uuid r = vt_article_uuid row.
Proof.
unfold tracking_create. destruct (existsb _ _) eqn:Hex; [|done]. intros _.
apply List.existsb_exists in Hex as (r & Hin & Heq%String.eqb_eq).
exists r. split; [by apply list_elem_of_In|done].
Qed.

(** What [mark_article_as_synced] does to the tracking table. *)
Lemma mark_article_as_synced_table (d : database)
  (u url title dom ns vid : string) (n : nat) :
  let same r := String.eqb (vt_article_uuid r) u && String.eqb (vt_namespace r) ns in
  let r := mark_article_as_synced d u url title dom ns vid n in
  (∃ r0 f, first_where same (vector_database_tracking d) = Some r0 ∧ r.1 = true ∧
     vector_database_tracking r.2 = save_first same f (vector_database_tracking d) ∧
     ∀ row, vt_article_uuid (f row) = vt_article_uuid row ∧
            vt_namespace (f row) = vt_namespace row ∧ vt_status (f row) = Synced) ∨
  (∃ row, first_where same (vector_database_tracking d) = None ∧ r.1 = true ∧
     (u ∉ tracked_uuids d) ∧
     vector_database_tracking r.2 = vector_database_tracking d ++ [row] ∧
     vt_article_uuid row = u ∧ vt_namespace row = ns ∧ vt_status row = Synced) ∨
  (first_where same (vector_database_tracking d) = None ∧ r.1 = false ∧ r.2 = d ∧
   ∃ r0, r0 ∈ vector_database_tracking d ∧ vt_article_uuid r0 = u).
Proof.
intros same r. subst r. unfold mark_article_as_synced. fold same.
destruct (first_where same _) as [r0|] eqn:Hfirst.
- left. eexists r0, _. split; [done|]. split; [done|]. split; [done|]. done.
- right. destruct (tracking_create d _) as [e|d'] eqn:Hcreate.
  + right. split; [done|]. split; [done|]. split; [done|].
    by apply tracking_create_inl in Hcreate.
  + left. apply tracking_create_inr in Hcreate as [Hnew Hrows].
    eexists. split; [done|]. split; [done|]. split; [exact Hnew|].
    split; [exact Hrows|]. done.
Qed.

(** What [mark_article_as_failed] does to the tracking table. *)
Lemma mark_article_as_failed_table (d : database)
  (u url title dom msg ns : string) :
  let same r := String.eqb (vt_article_uuid r) u && String.eqb (vt_namespace r) ns in
  let r := mark_article_as_failed d u url title dom msg ns in
  (∃ r0 f, first_where same (vector_database_tracking d) = Some r0 ∧ r.1 = true ∧
     vector_database_tracking r.2 = save_first same f (vector_database_tracking d) ∧
     ∀ row, vt_article_uuid (f row) = vt_article_uuid row ∧
            vt_namespace (f row) = vt_namespace row ∧ vt_status (f row) = Failed) ∨
  (∃ row, first_where same (vector_database_tracking d) = None ∧ r.1 = true ∧
     (u ∉ tracked_uuids d) ∧
     vector_database_tracking r.2 = vector_database_tracking d ++ [row] ∧
     vt_article_uuid row = u ∧ vt_namespace row = ns ∧ vt_status row = Failed) ∨
  (first_where same (vector_database_tracking d) = None ∧ r.1 = false ∧ r.2 = d ∧
   ∃ r0, r0 ∈ vector_database_tracking d ∧ vt_article_uuid r0 = u).
Proof.
intros same r. subst r. unfold mark_article_as_failed. fold same.
destruct (first_where same _) as [r0|] eqn:Hfirst.
- left. eexists r0, _. split; [done|]. split; [done|]. split; [done|]. done.
- right. destruct (tracking_create d _) as [e|d'] eqn:Hcreate.
  + right. split; [done|]. split; [done|]. split; [done|].
    by apply tracking_create_inl in Hcreate.
  + left. apply tracking_create_inr in Hcreate as [Hnew Hrows].
    eexists. split; [done|]. split; [done|]. split; [exact Hnew|].
    split; [exact Hrows|]. done.
Qed.

(** The test of [is_article_synced_to_vector_db]. *)
Definition synced_row (u ns : string) (r : VectorDatabaseTracking) : bool :=
String.eqb (vt_article_uuid r) u && String.eqb (vt_namespace r) ns
&& bool_decide (vt_status r = Synced).

Lemma is_article_synced_true (d : database) (u ns : string) :
  is_article_synced_to_vector_db d u ns = true
  ↔ is_Some (first_where (synced_row u ns) (vector_database_tracking d)).
Proof.
unfold is_article_synced_to_vector_db. fold (synced_row u ns).
destruct (first_where _ _) as [r|]; [split; eauto | split; [done | by intros [? ?]]].
Qed.

Lemma is_article_synced_false (d : database) (u ns : string) :
  is_article_synced_to_vector_db d u ns = false
  ↔ first_where (synced_row u ns) (vector_database_tracking d) = None.
Proof.
unfold is_article_synced_to_vector_db. fold (synced_row u ns).
by destruct (first_where _ _).
Qed.

End TrackingFacts2.

Section TrackingFacts3.
Import DjangoConfig VectorDb.

Lemma synced_row_same (u ns : string) (r : VectorDatabaseTracking) :
  synced_row u ns r = true →
  String.eqb (vt_article_uuid r) u && String.eqb (vt_namespace r) ns = true.
Proof. unfold synced_row. by intros [? _]%andb_true_iff. Qed.

Lemma synced_row_other (u u' ns ns' : string) (r : VectorDatabaseTracking) :
  u' ≠ u → vt_article_uuid r = u → synced_row u' ns' r = false.
Proof.
intros Hne Hr. unfold synced_row.
destruct (String.eqb_spec (vt_article_uuid r) u'); [congruence|done].
Qed.

Lemma same_row_uuid (u ns : string) (r : VectorDatabaseTracking) :
  String.eqb (vt_article_uuid r) u && String.eqb (vt_namespace r) ns = true →
  vt_article_uuid r = u ∧ vt_namespace r = ns.
Proof. by intros [?%String.eqb_eq ?%String.eqb_eq]%andb_true_iff. Qed.

Lemma mark_article_as_synced_is_synced (d : database)
  (u url title dom ns vid : string) (n : nat) :
  is_article_synced_to_vector_db (mark_article_as_synced d u url title dom ns vid n).2 u ns
  = (mark_article_as_synced d u url title dom ns vid n).1.
Proof.
destruct (mark_article_as_synced_table d u url title dom ns vid n)
  as [(r0 & f & Hfirst & -> & Hrows & Hf)|[(row & Hfirst & -> & _ & Hrows & Hu & Hns & Hst)
      |(Hfirst & -> & -> & _)]].
- apply is_article_synced_true. rewrite Hrows.
  apply first_where_Some in Hfirst as Hr0. destruct Hr0 as [_ Hr0].
  apply same_row_uuid in Hr0 as [Hu Hns]. destruct (Hf r0) as (Hfu & Hfns & Hfst).
  erewrite first_where_saved; [done | apply synced_row_same | exact Hfirst |].
  unfold synced_row. rewrite Hfu, Hfns, Hfst, Hu, Hns, !String.eqb_refl. done.
- apply is_article_synced_true. rewrite Hrows.
  erewrite first_where_app_new; [done| |].
  + eapply first_where_weaken; [apply synced_row_same | exact Hfirst].
  + unfold synced_row. rewrite Hu, Hns, Hst, !String.eqb_refl. done.
- apply is_article_synced_false.
  eapply first_where_weaken; [apply synced_row_same | exact Hfirst].
Qed.

Lemma mark_article_as_synced_frame (d : database)
  (u url title dom ns vid : string) (n : nat) (u' ns' : string) :
  u' ≠ u →
  is_article_synced_to_vector_db (mark_article_as_synced d u url title dom ns vid n).2 u' ns'
  = is_article_synced_to_vector_db d u' ns'.
Proof.
intros Hne. unfold is_article_synced_to_vector_db. fold (synced_row u' ns').
destruct (mark_article_as_synced_table d u url title dom ns vid n)
  as [(r0 & f & _ & _ & -> & Hf)|[(row & _ & _ & _ & -> & Hu & _)|(_ & _ & -> & _)]];
  [| |done].
- rewrite first_where_save_first_other; [done|].
  intros r [Hr _]%same_row_uuid. destruct (Hf r) as (Hfu & _).
  split; eapply synced_row_other; try exact Hne; congruence.
- rewrite first_where_app_other; [done|]. by eapply synced_row_other.
Qed.

Lemma mark_article_as_failed_frame (d : database)
  (u url title dom msg ns : string) (u' ns' : string) :
  u' ≠ u →
  is_article_synced_to_vector_db (mark_article_as_failed d u url title dom msg ns).2 u' ns'
  = is_article_synced_to_vector_db d u' ns'.
Proof.
intros Hne. unfold is_article_synced_to_vector_db. fold (synced_row u' ns').
destruct (mark_article_as_failed_table d u url title dom msg ns)
  as [(r0 & f & _ & _ & -> & Hf)|[(row & _ & _ & _ & -> & Hu & _)|(_ & _ & -> & _)]];
  [| |done].
- rewrite first_where_save_first_other; [done|].
  intros r [Hr _]%same_row_uuid. destruct (Hf r) as (Hfu & _).
  split; eapply synced_row_other; try exact Hne; congruence.
- rewrite first_where_app_other; [done|]. by eapply synced_row_other.
Qed.

Lemma tracked_uuids_app (rows : list VectorDatabaseTracking) (row : VectorDatabaseTracking) :
  NoDup (vt_article_uuid <$> rows) → vt_article_uuid row ∉ vt_article_uuid <$> rows →
  NoDup (vt_article_uuid <$> rows ++ [row]).
Proof.
intros Hnodup Hnew. rewrite fmap_app. apply NoDup_app. split; [done|].
split; [|apply NoDup_singleton].
intros u Hu Hrow%list_elem_of_singleton. simpl in Hrow. congruence.
Qed.

Lemma mark_article_as_synced_unique (d : database)
  (u url title dom ns vid : string) (n : nat) :
  NoDup (tracked_uuids d) →
  NoDup (tracked_uuids (mark_article_as_synced d u url title dom ns vid n).2).
Proof.
intros Hnodup. unfold tracked_uuids in *.
destruct (mark_article_as_synced_table d u url title dom ns vid n)
  as [(r0 & f & _ & _ & -> & Hf)|[(row & _ & _ & Hnew & -> & Hu & _)|(_ & _ & -> & _)]];
  [| |done].
- rewrite save_first_fmap; [done|]. intros r. by destruct (Hf r).
- apply tracked_uuids_app; [done|]. by rewrite Hu.
Qed.

Lemma mark_article_as_failed_unique (d : database)
  (u url title dom msg ns : string) :
  NoDup (tracked_uuids d) →
  NoDup (tracked_uuids (mark_article_as_failed d u url title dom msg ns).2).
Proof.
intros Hnodup. unfold tracked_uuids in *.
destruct (mark_article_as_failed_table d u url title dom msg ns)
  as [(r0 & f & _ & _ & -> & Hf)|[(row & _ & _ & Hnew & -> & Hu & _)|(_ & _ & -> & _)]];
  [| |done].
- rewrite save_first_fmap; [done|]. intros r. by destruct (Hf r).
- apply tracked_uuids_app; [done|]. by rewrite Hu.
Qed.

End TrackingFacts3.

(** X16.  [mark_article_as_synced] tells the truth: the article counts as
    synced in the namespace afterwards exactly when the call returns
    [True]. *)
Theorem mark_article_as_synced_reports (d : DjangoConfig.database)
  (article_uuid url title domain namespace vector_id : string) (total_chunks : nat) :
  let r := VectorDb.mark_article_as_synced d article_uuid url title domain namespace
             vector_id total_chunks in
  VectorDb.is_article_synced_to_vector_db r.2 article_uuid namespace = r.1.
Proof. apply mark_article_as_synced_is_synced. Qed.

(** X17.  Marking one article, as synced or as failed, never changes
    whether another article counts as synced, in any namespace. *)
Theorem mark_article_other_articles (d : DjangoConfig.database)
  (article_uuid url title domain namespace vector_id error_message : string)
  (total_chunks : nat) (other_uuid other_namespace : string) :
  other_uuid ≠ article_uuid →
  VectorDb.is_article_synced_to_vector_db
    (VectorDb.mark_article_as_synced d article_uuid url title domain namespace vector_id
       total_chunks).2 other_uuid other_namespace
  = VectorDb.is_article_synced_to_vector_db d other_uuid other_namespace ∧
  VectorDb.is_article_synced_to_vector_db
    (VectorDb.mark_article_as_failed d article_uuid url title domain error_message
       namespace).2 other_uuid other_namespace
  = VectorDb.is_article_synced_to_vector_db d other_uuid other_namespace.
Proof.
intros Hne. split.
- by apply mark_article_as_synced_frame.
- by apply mark_article_as_failed_frame.
Qed.

Lemma mark_article_other_articles_witness :
  VectorDb.is_article_synced_to_vector_db
    (VectorDb.mark_article_as_failed sample_tracked "77b0e4" "https://example.org/b"
       "B title" "example.org" "upsert failed" "rss-feeds").2 "3f2c9a" "rss-feeds"
  = VectorDb.is_article_synced_to_vector_db sample_tracked "3f2c9a" "rss-feeds".
Proof.
apply (mark_article_other_articles sample_tracked "77b0e4" "https://example.org/b"
         "B title" "example.org" "rss-feeds" "" "upsert failed" 1 "3f2c9a" "rss-feeds").
discriminate.
Defined.

(** X18.  Starting from a tracking table with one row per article, both
    marking functions leave one row per article, and an article just
    marked as failed no longer counts as synced in that namespace. *)
Theorem tracking_one_row_per_article (d : DjangoConfig.database)
  (article_uuid url title domain namespace vector_id error_message : string)
  (total_chunks : nat) :
  NoDup (DjangoConfig.vt_article_uuid <$> DjangoConfig.vector_database_tracking d) →
  NoDup (DjangoConfig.vt_article_uuid <$>
         DjangoConfig.vector_database_tracking
           (VectorDb.mark_article_as_synced d article_uuid url title domain namespace
              vector_id total_chunks).2) ∧
  NoDup (DjangoConfig.vt_article_uuid <$>
         DjangoConfig.vector_database_tracking
           (VectorDb.mark_article_as_failed d article_uuid url title domain error_message
              namespace).2) ∧
  VectorDb.is_article_synced_to_vector_db
    (VectorDb.mark_article_as_failed d article_uuid url title domain error_message
       namespace).2 article_uuid namespace = false.
Proof.
intros Hnodup. split; [by apply mark_article_as_synced_unique|].
split; [by apply mark_article_as_failed_unique|].
apply is_article_synced_false.
destruct (mark_article_as_failed_table d article_uuid url title domain error_message
            namespace)
  as [(r0 & f & Hfirst & _ & -> & Hf)|[(row & Hfirst & _ & _ & -> & Hu & Hns & Hst)
      |(Hfirst & _ & -> & _)]].
- apply first_where_None. intros r Hr.
  destruct (decide (DjangoConfig.vt_article_uuid r = article_uuid)) as [Hru|Hru].
  + apply first_where_Some in Hfirst as Hr0. destruct Hr0 as [_ Hr0].
    apply same_row_uuid in Hr0 as [Hu0 _].
    assert (r = f r0) as ->.
    { eapply (save_first_unique DjangoConfig.vt_article_uuid); try done.
      - intros r'. by destruct (Hf r').
      - congruence. }
    destruct (Hf r0) as (_ & _ & Hst). unfold synced_row. rewrite Hst.
    by rewrite andb_false_r.
  + unfold synced_row. by destruct (String.eqb_spec (DjangoConfig.vt_article_uuid r)
                                      article_uuid).
- rewrite first_where_app_other.
  + eapply first_where_weaken; [apply synced_row_same | exact Hfirst].
  + unfold synced_row. rewrite Hst. by rewrite andb_false_r.
- eapply first_where_weaken; [apply synced_row_same | exact Hfirst].
Qed.

Lemma tracking_one_row_per_article_witness :
  VectorDb.is_article_synced_to_vector_db
    (VectorDb.mark_article_as_failed sample_tracked "3f2c9a" "https://example.org/a"
       "A title" "example.org" "upsert failed" "rss-feeds").2 "3f2c9a" "rss-feeds" = false.
Proof.
apply (tracking_one_row_per_article sample_tracked "3f2c9a" "https://example.org/a"
         "A title" "example.org" "rss-feeds" "" "upsert failed" 1).
apply (bool_decide_unpack _). vm_compute. exact I.
Defined.

Section PendingFacts.
Import DjangoConfig VectorDb.

Definition no_pending (d : database) : Prop :=
∀ r, r ∈ vector_database_tracking d → vt_status r ≠ Pending.

Lemma get_pending_nil (d : database) :
  (∀ namespace, get_pending_articles_for_vector_db d namespace = []) ↔ no_pending d.
Proof.
unfold get_pending_articles_for_vector_db, no_pending. split.
- intros Hnil r Hr Hst. specialize (Hnil (vt_namespace r)).
  assert (r ∈ ([] : list VectorDatabaseTracking)) as Hin; [|by apply elem_of_nil in Hin].
  rewrite <- Hnil. apply list_elem_of_In, List.filter_In. split; [by apply list_elem_of_In|].
  rewrite String.eqb_refl. simpl. by apply bool_decide_eq_true.
- intros Hall namespace.
  induction (vector_database_tracking d) as [|r rows IH]; [done|]. simpl.
  destruct (String.eqb _ _ && bool_decide _) eqn:Hr.
  + apply andb_true_iff in Hr as [_ Hr%bool_decide_eq_true]. destruct (Hall r); [left|done].
  + apply IH. intros r' Hr'. apply Hall. by right.
Qed.

Lemma mark_article_as_synced_no_pending (d : database)
  (u url title dom ns vid : string) (n : nat) :
  no_pending d → no_pending (mark_article_as_synced d u url title dom ns vid n).2.
Proof.
intros Hd. unfold no_pending.
destruct (mark_article_as_synced_table d u url title dom ns vid n)
  as [(r0 & f & _ & _ & -> & Hf)|[(row & _ & _ & _ & -> & _ & _ & Hst)|(_ & _ & -> & _)]];
  [| |done].
- intros r [Hr|(r1 & _ & _ & ->)]%save_first_elem; [by apply Hd|].
  destruct (Hf r1) as (_ & _ & ->). done.
- intros r [Hr| ->%list_elem_of_singleton]%elem_of_app; [by apply Hd|]. by rewrite Hst.
Qed.

Lemma mark_article_as_failed_no_pending (d : database)
  (u url title dom msg ns : string) :
  no_pending d → no_pending (mark_article_as_failed d u url title dom msg ns).2.
Proof.
intros Hd. unfold no_pending.
destruct (mark_article_as_failed_table d u url title dom msg ns)
  as [(r0 & f & _ & _ & -> & Hf)|[(row & _ & _ & _ & -> & _ & _ & Hst)|(_ & _ & -> & _)]];
  [| |done].
- intros r [Hr|(r1 & _ & _ & ->)]%save_first_elem; [by apply Hd|].
  destruct (Hf r1) as (_ & _ & ->). done.
- intros r [Hr| ->%list_elem_of_singleton]%elem_of_app; [by apply Hd|]. by rewrite Hst.
Qed.

End PendingFacts.

(** X19.  No function writes a pending row: when
    [get_pending_articles_for_vector_db] finds nothing in any namespace,
    it still finds nothing after an article is marked as synced or as
    failed. *)
Theorem get_pending_articles_stays_empty (d : DjangoConfig.database)
  (article_uuid url title domain namespace vector_id error_message : string)
  (total_chunks : nat) :
  (∀ ns, VectorDb.get_pending_articles_for_vector_db d ns = []) →
  ∀ ns,
    VectorDb.get_pending_articles_for_vector_db
      (VectorDb.mark_article_as_synced d article_uuid url title domain namespace vector_id
         total_chunks).2 ns = [] ∧
    VectorDb.get_pending_articles_for_vector_db
      (VectorDb.mark_article_as_failed d article_uuid url title domain error_message
         namespace).2 ns = [].
Proof.
intros Hd%get_pending_nil ns. split.
- revert ns. apply get_pending_nil. by apply mark_article_as_synced_no_pending.
- revert ns. apply get_pending_nil. by apply mark_article_as_failed_no_pending.
Qed.

Lemma get_pending_articles_stays_empty_witness :
  VectorDb.get_pending_articles_for_vector_db
    (VectorDb.mark_article_as_failed DjangoConfig.empty_database "77b0e4"
       "https://example.org/b" "B title" "example.org" "upsert failed" "rss-feeds").2
    "rss-feeds" = [].
Proof.
apply (get_pending_articles_stays_empty DjangoConfig.empty_database "77b0e4" "https://example.org/b"
         "B title" "example.org" "rss-feeds" "" "upsert failed" 1).
intros ns. reflexivity.
Defined.

Section BatchMarkFacts.
Import DjangoConfig VectorDb.

Lemma mark_article_as_synced_keeps (d : database)
  (u url title dom ns vid : string) (n : nat) (u' ns' : string) :
  is_article_synced_to_vector_db d u' ns' = true →
  is_article_synced_to_vector_db (mark_article_as_synced d u url title dom ns vid n).2 u' ns'
  = true.
Proof.
rewrite !is_article_synced_true. intros Hsynced.
destruct (mark_article_as_synced_table d u url title dom ns vid n)
  as [(r0 & f & _ & _ & -> & Hf)|[(row & _ & _ & _ & -> & _)|(_ & _ & -> & _)]];
  [| |done].
- apply first_where_save_first_keeps; [|done].
  intros r. unfold synced_row. destruct (Hf r) as (-> & -> & ->).
  intros [Hr _]%andb_true_iff. rewrite Hr. done.
- by apply first_where_app_keeps.
Qed.

Lemma mark_batch_synced_keeps (ns : string) (batch : list article) (d : database)
  (u' ns' : string) :
  is_article_synced_to_vector_db d u' ns' = true →
  is_article_synced_to_vector_db (mark_batch_synced ns batch d) u' ns' = true.
Proof.
revert d. induction batch as [|a batch IH]; intros d Hd; [done|].
apply IH. by apply mark_article_as_synced_keeps.
Qed.

(** A row of another namespace found after a marking was there before. *)
Lemma mark_article_as_synced_foreign (d : database)
  (u url title dom ns vid : string) (n : nat) (r : VectorDatabaseTracking) :
  r ∈ vector_database_tracking (mark_article_as_synced d u url title dom ns vid n).2 →
  vt_namespace r ≠ ns → r ∈ vector_database_tracking d.
Proof.
destruct (mark_article_as_synced_table d u url title dom ns vid n)
  as [(r0 & f & _ & _ & -> & Hf)|[(row & _ & _ & _ & -> & _ & Hns & _)|(_ & _ & -> & _)]];
  [| |done].
- intros [Hr|(r1 & _ & Hr1 & ->)]%save_first_elem Hne; [done|].
  apply same_row_uuid in Hr1 as [_ Hr1]. destruct (Hf r1) as (_ & Hfns & _). congruence.
- intros [Hr|Hr%list_elem_of_singleton]%elem_of_app Hne; [done|]. congruence.
Qed.

End BatchMarkFacts.

(** X20.  After the marking loop of a successful batch, every article of
    the batch counts as synced in the namespace, except an article that
    the tracking table already held under another namespace. *)
Theorem mark_batch_synced_marks (namespace : string) (batch : list VectorDb.article)
  (d : DjangoConfig.database) (a : VectorDb.article) :
  a ∈ batch →
  VectorDb.is_article_synced_to_vector_db (VectorDb.mark_batch_synced namespace batch d)
    (VectorDb.uuid a) namespace = true ∨
  ∃ r, r ∈ DjangoConfig.vector_database_tracking d ∧
       DjangoConfig.vt_article_uuid r = VectorDb.uuid a ∧
       DjangoConfig.vt_namespace r ≠ namespace.
Proof.
revert d. induction batch as [|a0 batch IH]; intros d Ha; [by apply elem_of_nil in Ha|].
cbn [VectorDb.mark_batch_synced foldl].
fold (VectorDb.mark_batch_synced namespace batch).
set (m := VectorDb.mark_article_as_synced d (VectorDb.uuid a0) (VectorDb.url a0)
            (Py.str_take 500 (VectorDb.title a0)) (VectorDb.domain a0) namespace "" 1).
apply elem_of_cons in Ha as [->|Ha].
- pose proof (mark_article_as_synced_is_synced d (VectorDb.uuid a0) (VectorDb.url a0)
                (Py.str_take 500 (VectorDb.title a0)) (VectorDb.domain a0) namespace "" 1)
    as Hreport. fold m in Hreport.
  destruct (mark_article_as_synced_table d (VectorDb.uuid a0) (VectorDb.url a0)
              (Py.str_take 500 (VectorDb.title a0)) (VectorDb.domain a0) namespace "" 1)
    as [(_ & _ & _ & Hok & _)|[(_ & _ & Hok & _)|(Hfirst & _ & _ & r0 & Hr0 & Hu)]];
    fold m in Hok || idtac.
  + left. apply mark_batch_synced_keeps. by rewrite Hreport.
  + left. apply mark_batch_synced_keeps. by rewrite Hreport.
  + right. exists r0. split; [done|]. split; [done|]. intros Hns.
    rewrite first_where_None in Hfirst. specialize (Hfirst r0 Hr0). simpl in Hfirst.
    by rewrite Hu, Hns, !String.eqb_refl in Hfirst.
- destruct (IH m.2 Ha) as [Hsynced|(r & Hr & Hu & Hns)]; [by left|].
  right. exists r. split; [|done]. by eapply mark_article_as_synced_foreign.
Qed.

Lemma mark_batch_synced_marks_witness :
  VectorDb.is_article_synced_to_vector_db
    (VectorDb.mark_batch_synced "rss-feeds" [sample_short]
       DjangoConfig.empty_database)
    (VectorDb.uuid sample_short) "rss-feeds" = true ∨
  ∃ r, r ∈ DjangoConfig.vector_database_tracking DjangoConfig.empty_database ∧
       DjangoConfig.vt_article_uuid r = VectorDb.uuid sample_short ∧
       DjangoConfig.vt_namespace r ≠ "rss-feeds".
Proof.
apply (mark_batch_synced_marks "rss-feeds" [sample_short] DjangoConfig.empty_database
         sample_short).
apply list_elem_of_singleton. reflexivity.
Defined.

(** ** vector_db.py: chunks, texts and vectors *)

Section ChunkWordFacts.
Import VectorDb.

Lemma slice_words (words : list string) (i j : nat) :
  Forall is_word words → Forall is_word (Py.slice i j words).
Proof. intros Hwords. unfold Py.slice. by apply Forall_take, Forall_drop. Qed.

Lemma split_join_slice (text : string) (i j : nat) :
  Py.split (Py.join " " (Py.slice i j (Py.split text))) = Py.slice i j (Py.split text).
Proof. apply split_join, slice_words, split_words. Qed.

End ChunkWordFacts.

(** X21.  With a positive budget [B], [chunk_text_by_words] loses no word
    and invents none: the words of the chunks, read in order, are the
    words of the text, and every chunk holds at least one and at most [B]
    words. *)
Theorem chunk_text_by_words_words (text : string) (B : nat) :
  0 < B →
  ∃ chunks,
    VectorDb.chunk_text_by_words text B = Some chunks ∧
    concat (Py.split <$> chunks) = Py.split text ∧
    Forall (λ chunk, 0 < length (Py.split chunk) ≤ B) chunks.
Proof.
intros HB. unfold VectorDb.chunk_text_by_words.
destruct (Py.range (length (Py.split text)) B) as [starts|] eqn:Hrange.
2: { unfold Py.range in Hrange. destruct (Nat.eqb_spec B 0); [lia|done]. }
eexists. split; [reflexivity|]. rewrite <- list_fmap_compose. split.
- transitivity (concat ((λ j, Py.slice j (j + B) (Py.split text)) <$> starts));
    [|by apply range_slices].
  f_equal. apply Forall_fmap_ext_1, Forall_forall. intros i _. simpl.
  apply split_join_slice.
- apply Forall_fmap, Forall_forall. intros i Hi. simpl. rewrite split_join_slice.
  apply slice_length; [done|].
  unfold Py.range in Hrange. destruct (B =? 0); [done|].
  injection Hrange as <-. apply range_go_bounds in Hi. lia.
Qed.

Lemma chunk_text_by_words_words_witness :
  ∃ chunks,
    VectorDb.chunk_text_by_words "alpha bravo  charlie delta echo" 2 = Some chunks ∧
    concat (Py.split <$> chunks) = Py.split "alpha bravo  charlie delta echo" ∧
    Forall (λ chunk, 0 < length (Py.split chunk) ≤ 2) chunks.
Proof.
apply (chunk_text_by_words_words "alpha bravo  charlie delta echo" 2). lia.
Defined.

Section EmbedFacts.
Import DjangoConfig VectorDb.
Context {Emb : Type}.

Lemma kept_chunks_long (idx : nat) (chunk_data : list (string * metadata))
  (text : string) (ref : chunk_ref) :
  (text, ref) ∈ kept_chunks idx true chunk_data → 10 ≤ String.length (Py.strip text).
Proof.
unfold kept_chunks. intros (o & Ho & Hsome)%list_elem_of_omap.
apply elem_of_lookup_imap in Ho as (chunk_idx & [t md] & -> & Hlookup).
simpl in Hsome. destruct (Nat.ltb_spec (String.length (Py.strip t)) 10); [done|].
by injection Hsome as <- <-.
Qed.

Lemma collect_chunks_long (cfg : config) (articles : list article)
  (text : string) (ref : chunk_ref) :
  (text, ref) ∈ collect_chunks cfg true articles → 10 ≤ String.length (Py.strip text).
Proof.
unfold collect_chunks. intros (kept & Hin & Hkept)%list_elem_of_join.
apply elem_of_lookup_imap in Hkept as (idx & a & -> & Ha).
destruct (prepare_article_for_embedding a cfg) as [e|chunk_data].
- by apply elem_of_nil in Hin.
- by eapply kept_chunks_long.
Qed.

(** A chunk has a record in the failed-embeddings table. *)
Definition has_failure (d : database) (article_uuid : string) (chunk_index : nat) : Prop :=
is_Some (first_where (same_chunk article_uuid chunk_index) (failed_vector_embeddings d)).

Lemma log_failed_embedding_logged (d : database)
  (u url title dom etype emsg : string) (k n : nat) :
  has_failure (log_failed_embedding d u url title dom etype emsg k n) u k.
Proof.
unfold has_failure, log_failed_embedding, same_chunk. cbv zeta.
destruct (first_where _ (failed_vector_embeddings d)) as [old|] eqn:Hold;
  cbn [failed_vector_embeddings set_failed_vector_embeddings].
- rewrite first_where_save_first, Hold; [by eexists|]. intros r. done.
- erewrite first_where_app_new; [by eexists | done |].
  simpl. by rewrite String.eqb_refl, Nat.eqb_refl.
Qed.

Lemma log_failed_embedding_keeps (d : database)
  (u url title dom etype emsg : string) (k n : nat) (u' : string) (k' : nat) :
  has_failure d u' k' →
  has_failure (log_failed_embedding d u url title dom etype emsg k n) u' k'.
Proof.
unfold has_failure, log_failed_embedding. cbv zeta.
destruct (first_where (λ r, _ && (_ =? k)) (failed_vector_embeddings d)) as [old|];
  cbn [failed_vector_embeddings set_failed_vector_embeddings].
- apply first_where_save_first_keeps. intros r. done.
- apply first_where_app_keeps.
Qed.

Lemma log_failed_embedding_tables (d : database)
  (u url title dom etype emsg : string) (k n : nat) :
  let d' := log_failed_embedding d u url title dom etype emsg k n in
  rss_feed_articles d' = rss_feed_articles d ∧
  article_metadata d' = article_metadata d ∧
  failed_articles d' = failed_articles d ∧
  vector_database_tracking d' = vector_database_tracking d.
Proof. unfold log_failed_embedding. by destruct (first_where _ _). Qed.

Lemma log_failed_chunks_keeps (articles : list article) (emsg : string)
  (refs : list chunk_ref) (d : database) (u : string) (k : nat) :
  has_failure d u k → has_failure (log_failed_chunks articles emsg refs d) u k.
Proof.
revert d. induction refs as [|[[i j] t] refs IH]; intros d Hd; [done|].
unfold log_failed_chunks. cbn [foldl]. apply IH.
destruct (articles !! i); [|done]. by apply log_failed_embedding_keeps.
Qed.

Lemma log_failed_chunks_logged (articles : list article) (emsg : string)
  (refs : list chunk_ref) (d : database) (i j t : nat) (a : article) :
  (i, j, t) ∈ refs → articles !! i = Some a →
  has_failure (log_failed_chunks articles emsg refs d) (uuid a) j.
Proof.
revert d. induction refs as [|[[i' j'] t'] refs IH]; intros d Hin Ha.
- by apply elem_of_nil in Hin.
- apply elem_of_cons in Hin as [[= <- <- <-]|Hin].
  + unfold log_failed_chunks. cbn [foldl]. rewrite Ha.
    apply log_failed_chunks_keeps, log_failed_embedding_logged.
  + unfold log_failed_chunks. cbn [foldl]. by apply IH.
Qed.

Lemma log_failed_chunks_tables (articles : list article) (emsg : string)
  (refs : list chunk_ref) (d : database) :
  let d' := log_failed_chunks articles emsg refs d in
  rss_feed_articles d' = rss_feed_articles d ∧
  article_metadata d' = article_metadata d ∧
  failed_articles d' = failed_articles d ∧
  vector_database_tracking d' = vector_database_tracking d.
Proof.
revert d. induction refs as [|[[i j] t] refs IH]; intros d; [done|].
unfold log_failed_chunks. cbn [foldl]. cbv zeta.
match goal with |- context [foldl ?f ?d1 refs] =>
  destruct (IH d1) as (H1 & H2 & H3 & H4) end.
unfold log_failed_chunks in H1, H2, H3, H4. rewrite H1, H2, H3, H4.
destruct (articles !! i); [|done]. apply log_failed_embedding_tables.
Qed.

End EmbedFacts.

(** X22.  With [skip_short] set, [prepare_vectors_batch] calls the
    embedder at most once, never with an empty list of texts, and never
    with a text that has fewer than 10 characters once stripped. *)
Theorem prepare_vectors_batch_skips_short {Emb : Type} (c : VectorDb.cloud Emb)
  (cfg : VectorDb.config) (articles : list VectorDb.article) (s : VectorDb.state Emb) :
  let s' := (VectorDb.prepare_vectors_batch c cfg true articles s).2 in
  VectorDb.calls s' = VectorDb.calls s ∨
  ∃ texts,
    VectorDb.calls s' = VectorDb.calls s ++ [VectorDb.EmbedCall texts] ∧
    texts ≠ [] ∧ Forall (λ text, 10 ≤ String.length (Py.strip text)) texts.
Proof.
intros s'. subst s'. unfold VectorDb.prepare_vectors_batch.
destruct ((VectorDb.collect_chunks cfg true articles).*1) as [|t ts] eqn:Htexts;
  [by left|].
right. exists (t :: ts). split; [|split; [done|]].
- destruct (VectorDb.embed_texts_batch c (t :: ts)); [done|].
  by destruct (VectorDb.build_vectors _ _ _) as [vectors []].
- rewrite <- Htexts. apply Forall_forall.
  intros text ([text' ref] & -> & Hin)%list_elem_of_fmap. by eapply collect_chunks_long.
Qed.

(** X23.  When the embedder raises, [prepare_vectors_batch] returns no
    vector and leaves a record in the failed-embeddings table for every
    chunk it had collected, under the uuid of the chunk's article and the
    chunk's index; the other four tables are untouched. *)
Theorem prepare_vectors_batch_failure_logged {Emb : Type} (c : VectorDb.cloud Emb)
  (cfg : VectorDb.config) (skip_short : bool) (articles : list VectorDb.article)
  (s : VectorDb.state Emb) (error_message : string) :
  VectorDb.embed_texts_batch c (VectorDb.collect_chunks cfg skip_short articles).*1
  = inl error_message →
  let r := VectorDb.prepare_vectors_batch c cfg skip_short articles s in
  r.1 = [] ∧
  (∀ text article_idx chunk_idx total,
     (text, (article_idx, chunk_idx, total)) ∈ VectorDb.collect_chunks cfg skip_short articles →
     ∃ a row,
       articles !! article_idx = Some a ∧
       DjangoConfig.first_where (same_chunk (VectorDb.uuid a) chunk_idx)
         (DjangoConfig.failed_vector_embeddings (VectorDb.db r.2)) = Some row) ∧
  DjangoConfig.rss_feed_articles (VectorDb.db r.2)
  = DjangoConfig.rss_feed_articles (VectorDb.db s) ∧
  DjangoConfig.article_metadata (VectorDb.db r.2)
  = DjangoConfig.article_metadata (VectorDb.db s) ∧
  DjangoConfig.failed_articles (VectorDb.db r.2)
  = DjangoConfig.failed_articles (VectorDb.db s) ∧
  DjangoConfig.vector_database_tracking (VectorDb.db r.2)
  = DjangoConfig.vector_database_tracking (VectorDb.db s).
Proof.
intros Hfail r. subst r. unfold VectorDb.prepare_vectors_batch.
destruct ((VectorDb.collect_chunks cfg skip_short articles).*1) as [|t ts] eqn:Htexts.
- split; [done|]. split; [|done].
  intros text i j total Hin. apply fmap_nil_inv in Htexts.
  rewrite Htexts in Hin. by apply elem_of_nil in Hin.
- rewrite Hfail. cbn [fst snd VectorDb.db]. split; [done|]. split.
  + intros text i j total Hin.
    destruct (collect_chunks_elem cfg skip_short articles text _ Hin)
      as (idx & a & chunk_data & chunk_idx & md & Ha & _ & _ & [= <- <- _]).
    apply (list_elem_of_fmap_2 snd) in Hin.
    destruct (log_failed_chunks_logged articles error_message _ (VectorDb.db s)
                i j total a Hin Ha) as [row Hrow].
    by exists a, row.
  + apply log_failed_chunks_tables.
Qed.

Lemma prepare_vectors_batch_failure_logged_witness :
  (VectorDb.prepare_vectors_batch sample_down_embedder default_config true [sample_short]
     (sample_state DjangoConfig.empty_database)).1 = [].
Proof.
apply (prepare_vectors_batch_failure_logged sample_down_embedder default_config true
         [sample_short] (sample_state DjangoConfig.empty_database) "Service unavailable").
reflexivity.
Defined.

Section AccountingFacts.
Import DjangoConfig VectorDb.
Context {Emb : Type}.

Lemma filter_split_length {A} (p : A → bool) (l : list A) :
  length (List.filter p l) + length (List.filter (λ x, negb (p x)) l) = length l.
Proof. induction l as [|x l IH]; [done|]. simpl. destruct (p x); simpl; lia. Qed.

(** A batch is counted once: as failed, as skipped, or, when its vectors
    were upserted, in neither counter. *)
Lemma process_batch_accounting (c : cloud Emb) (cfg : config) (namespace : string)
  (acc : stats * state Emb) (batch : list article) :
  let st := acc.1 in
  let st' := (process_batch c cfg namespace acc batch).1 in
  st_failed st' + st_skipped st' ≤ st_failed st + st_skipped st + length batch ∧
  st_upserted st ≤ st_upserted st' ∧
  (st_upserted st' = st_upserted st →
   st_failed st' + st_skipped st' = st_failed st + st_skipped st + length batch).
Proof.
destruct acc as [st s]. unfold process_batch.
destruct (prepare_vectors_batch c cfg true batch s) as [[|v vectors] s1]; [simpl; lia|].
destruct (upsert_vectors_batch c (v :: vectors) namespace s1) as [[] s2]; simpl; lia.
Qed.

Lemma process_batches_accounting (c : cloud Emb) (cfg : config) (namespace : string)
  (batches : list (list article)) (acc : stats * state Emb) :
  let st := acc.1 in
  let st' := (foldl (process_batch c cfg namespace) acc batches).1 in
  st_failed st' + st_skipped st' ≤ st_failed st + st_skipped st + length (concat batches) ∧
  st_upserted st ≤ st_upserted st' ∧
  (st_upserted st' = st_upserted st →
   st_failed st' + st_skipped st'
   = st_failed st + st_skipped st + length (concat batches)).
Proof.
revert acc. induction batches as [|batch batches IH]; intros acc; [simpl; lia|].
cbn [foldl concat]. rewrite length_app.
pose proof (process_batch_accounting c cfg namespace acc batch) as Hstep.
pose proof (IH (process_batch c cfg namespace acc batch)) as Hrest.
cbv zeta in *. lia.
Qed.

Lemma prepare_vectors_batch_tables (c : cloud Emb) (cfg : config) (skip_short : bool)
  (articles : list article) (s : state Emb) :
  let d' := db (prepare_vectors_batch c cfg skip_short articles s).2 in
  rss_feed_articles d' = rss_feed_articles (db s) ∧
  article_metadata d' = article_metadata (db s) ∧
  failed_articles d' = failed_articles (db s) ∧
  vector_database_tracking d' = vector_database_tracking (db s).
Proof.
unfold prepare_vectors_batch.
destruct ((collect_chunks cfg skip_short articles).*1) as [|t ts]; [done|].
destruct (embed_texts_batch c (t :: ts)) as [e|embeddings].
- apply log_failed_chunks_tables.
- destruct (build_vectors _ _ _) as [vectors []]; [done|]. apply log_failed_chunks_tables.
Qed.

Lemma process_single_article_to_pinecone_tables (c : cloud Emb) (cfg : config)
  (a : article) (namespace : string) (s : state Emb) :
  let d' := db (process_single_article_to_pinecone c cfg a namespace s).2 in
  rss_feed_articles d' = rss_feed_articles (db s) ∧
  article_metadata d' = article_metadata (db s) ∧
  failed_articles d' = failed_articles (db s) ∧
  vector_database_tracking d' = vector_database_tracking (db s).
Proof.
unfold process_single_article_to_pinecone.
pose proof (prepare_vectors_batch_tables c cfg true [a] s) as Hprep.
destruct (prepare_vectors_batch c cfg true [a] s) as [[|v vectors] s1]; [done|].
destruct (get_pinecone_index c); done.
Qed.

Lemma get_failed_embeddings_length (d : database) :
  length (get_failed_embeddings d) = length (failed_vector_embeddings d).
Proof.
unfold get_failed_embeddings.
induction (failed_vector_embeddings d) as [|r rows IH]; [done|]. cbn [foldr].
rewrite insert_by_attempts_perm. simpl. by rewrite IH.
Qed.

End AccountingFacts.

(** X24.  A run of [upsert_articles_to_pinecone] raises only for a batch
    size of 0.  The counters of a run that returns: [total] is the number
    of articles passed in, and an article is counted at most once as
    failed, skipped or already synced.  With a positive batch size, when
    no vector was upserted, every article is in one of those three
    counters.  With a negative batch size and the index handle obtained,
    no batch is processed: nothing is counted as upserted, failed or
    skipped, so that the articles not yet synced are in no counter; the
    tables are untouched and the index handle is the only thing asked of a
    provider. *)
Theorem upsert_articles_to_pinecone_accounting {Emb : Type} (c : VectorDb.cloud Emb)
  (cfg : VectorDb.config) (articles : list VectorDb.article) (batch_size : Z)
  (namespace : string) (s : VectorDb.state Emb) :
  let r := VectorDb.upsert_articles_to_pinecone c cfg articles batch_size namespace s in
  match r.1 with
  | inl _ => batch_size = 0%Z
  | inr st =>
      VectorDb.st_total st = length articles ∧
      VectorDb.st_failed st + VectorDb.st_skipped st + VectorDb.st_already_synced st
      ≤ VectorDb.st_total st ∧
      ((0 < batch_size)%Z → VectorDb.st_upserted st = 0 →
       VectorDb.st_failed st + VectorDb.st_skipped st + VectorDb.st_already_synced st
       = VectorDb.st_total st) ∧
      ((batch_size < 0)%Z → VectorDb.get_pinecone_index c = true →
       st = {| VectorDb.st_total := length articles;
               VectorDb.st_upserted := 0;
               VectorDb.st_failed := 0;
               VectorDb.st_skipped := 0;
               VectorDb.st_already_synced :=
                 length (List.filter
                           (λ a, VectorDb.is_article_synced_to_vector_db (VectorDb.db s)
                                   (VectorDb.uuid a) namespace)
                           articles) |} ∧
       VectorDb.db r.2 = VectorDb.db s ∧
       VectorDb.calls r.2
       = VectorDb.calls s ++ (if articles is [] then [] else [VectorDb.IndexCall]))
  end.
Proof.
intros r. subst r. unfold VectorDb.upsert_articles_to_pinecone.
destruct articles as [|a0 articles0].
{ simpl. split; [done|]. split; [lia|]. split; [lia|]. intros _ _. by rewrite app_nil_r. }
remember (a0 :: articles0) as articles eqn:Harticles. clear Harticles.
destruct (VectorDb.get_pinecone_index c); simpl negb; cbv iota.
2: { simpl. split; [done|]. split; [lia|]. split; [lia|]. intros _ [=]. }
pose proof (filter_split_length
              (λ a, VectorDb.is_article_synced_to_vector_db (VectorDb.db s) (VectorDb.uuid a)
                      namespace) articles) as Hsplit.
change (List.filter (λ x, negb _) articles)
  with (List.filter (VectorDb.not_synced (VectorDb.db s) namespace) articles) in Hsplit.
destruct (List.filter (VectorDb.not_synced (VectorDb.db s) namespace) articles)
  as [|a' rest] eqn:Hto.
{ simpl in *. split; [done|]. split; [lia|]. split; [lia|]. done. }
rewrite <- Hto in *. clear Hto.
remember (List.filter (VectorDb.not_synced (VectorDb.db s) namespace) articles)
  as to_process eqn:Hto. clear Hto.
unfold Py.range_int.
destruct (Z.eqb_spec batch_size 0) as [Hzero|Hnonzero]; [done|].
destruct (Z.ltb_spec batch_size 0) as [Hneg|Hpos].
{ simpl. split; [done|]. split; [lia|]. split; [lia|]. done. }
destruct (Py.range (length to_process) (Z.to_nat batch_size)) as [starts|] eqn:Hrange.
2: { unfold Py.range in Hrange. destruct (Nat.eqb_spec (Z.to_nat batch_size) 0); [lia|done]. }
cbv zeta. cbn [fst snd].
match goal with |- context [foldl ?f ?acc ?batches] =>
  pose proof (process_batches_accounting c cfg namespace batches acc) as Hacc;
  pose proof (process_batches_counters c cfg namespace batches acc) as [Htotal Halready];
  destruct (foldl f acc batches) as [st s']
end.
cbv zeta in Hacc. rewrite (range_slices to_process _ starts Hrange) in Hacc.
simpl in Hacc, Htotal, Halready. cbn [fst snd].
split; [lia|]. split; [lia|]. split; [intros _; lia|]. intros Hlt. lia.
Qed.

(** A negative batch size: the article is not synced, yet it is counted
    nowhere and nothing is done for it. *)
Example upsert_articles_negative_batch_size :
  VectorDb.upsert_articles_to_pinecone (sample_cloud true true) default_config
    [sample_unsynced] (-1) "rss-feeds" (sample_state DjangoConfig.empty_database)
  = (inr {| VectorDb.st_total := 1; VectorDb.st_upserted := 0; VectorDb.st_failed := 0;
            VectorDb.st_skipped := 0; VectorDb.st_already_synced := 0 |},
     {| VectorDb.db := DjangoConfig.empty_database;
        VectorDb.calls := [VectorDb.IndexCall] |}).
Proof. vm_compute. reflexivity. Qed.

(** X25.  [retry_failed_embeddings] retries every record of the
    failed-embeddings table once and counts at most as many successes; it
    changes neither the article tables, nor the failed-articles table,
    nor the tracking table: an article whose retry succeeded is not
    marked as synced.  This holds for every batch size. *)
Theorem retry_failed_embeddings_untracked {Emb : Type} (c : VectorDb.cloud Emb)
  (cfg : VectorDb.config) (namespace : string) (batch_size : Z) (s : VectorDb.state Emb) :
  let r := BatchVectorDbSync.retry_failed_embeddings c cfg namespace batch_size s in
  BatchVectorDbSync.retried r.1
  = length (DjangoConfig.failed_vector_embeddings (VectorDb.db s)) ∧
  BatchVectorDbSync.succeeded r.1 ≤ BatchVectorDbSync.retried r.1 ∧
  DjangoConfig.vector_database_tracking (VectorDb.db r.2)
  = DjangoConfig.vector_database_tracking (VectorDb.db s) ∧
  DjangoConfig.rss_feed_articles (VectorDb.db r.2)
  = DjangoConfig.rss_feed_articles (VectorDb.db s) ∧
  DjangoConfig.article_metadata (VectorDb.db r.2)
  = DjangoConfig.article_metadata (VectorDb.db s) ∧
  DjangoConfig.failed_articles (VectorDb.db r.2)
  = DjangoConfig.failed_articles (VectorDb.db s).
Proof.
intros r. subst r. unfold BatchVectorDbSync.retry_failed_embeddings.
rewrite <- (get_failed_embeddings_length (VectorDb.db s)).
set (all_articles := VectorDb.fetch_articles_from_db (VectorDb.db s) None).
assert (∀ records (acc : BatchVectorDbSync.retry_result * VectorDb.state Emb),
  let r := foldl (BatchVectorDbSync.retry_record c cfg namespace batch_size all_articles)
             acc records in
  BatchVectorDbSync.retried r.1 = BatchVectorDbSync.retried acc.1 + length records ∧
  BatchVectorDbSync.succeeded r.1 + BatchVectorDbSync.retried acc.1
  ≤ BatchVectorDbSync.succeeded acc.1 + BatchVectorDbSync.retried r.1 ∧
  DjangoConfig.vector_database_tracking (VectorDb.db r.2)
  = DjangoConfig.vector_database_tracking (VectorDb.db acc.2) ∧
  DjangoConfig.rss_feed_articles (VectorDb.db r.2)
  = DjangoConfig.rss_feed_articles (VectorDb.db acc.2) ∧
  DjangoConfig.article_metadata (VectorDb.db r.2)
  = DjangoConfig.article_metadata (VectorDb.db acc.2) ∧
  DjangoConfig.failed_articles (VectorDb.db r.2)
  = DjangoConfig.failed_articles (VectorDb.db acc.2)) as Hloop.
{ induction records as [|record records IH]; intros acc; [simpl; repeat split; lia|].
  cbn [foldl]. cbv zeta.
  specialize (IH (BatchVectorDbSync.retry_record c cfg namespace batch_size all_articles
                    acc record)).
  cbv zeta in IH. destruct IH as (-> & Hle & -> & -> & -> & ->).
  destruct acc as [counts s0]. unfold BatchVectorDbSync.retry_record in *.
  destruct (BatchVectorDbSync.article_by_uuid all_articles _) as [a|];
    [|simpl in *; repeat split; lia].
  pose proof (process_single_article_to_pinecone_tables c cfg a namespace s0) as Htables.
  destruct (VectorDb.process_single_article_to_pinecone c cfg a namespace s0)
    as [result s1].
  cbv zeta in Htables. destruct Htables as (Hrss & Hmd & Hfa & Hvt).
  cbv zeta in *.
  destruct (batch_size =? 0)%Z; destruct result;
    cbn [fst snd VectorDb.db VectorDb.calls] in *;
    try match goal with
        | |- context [VectorDb.log_failed_embedding ?d ?u ?l ?t ?dm ?et ?em ?i ?n] =>
            destruct (log_failed_embedding_tables d u l t dm et em i n)
              as (Hl1 & Hl2 & Hl3 & Hl4);
            rewrite Hl1, Hl2, Hl3, Hl4
        end;
    simpl in *; repeat split; (lia || done). }
destruct (VectorDb.get_failed_embeddings (VectorDb.db s)) as [|record records] eqn:Hrecords;
  [simpl; repeat split; lia|].
specialize (Hloop (record :: records)
              ({| BatchVectorDbSync.retried := 0; BatchVectorDbSync.succeeded := 0 |}, s)).
cbv zeta in Hloop. simpl in Hloop. destruct Hloop as (H1 & H2 & H3 & H4 & H5 & H6).
repeat split; (done || (simpl; lia)).
Qed.

Section FetchFacts.
Import DjangoConfig VectorDb.

Lemma joined_article_owned (d : database) (md : ArticleMetadata) :
  md_uuid md ∈ rss_uuid <$> rss_feed_articles d →
  ∃ a, joined_article d md = Some a ∧ uuid a = md_uuid md.
Proof.
intros (r & Hr & Hin)%list_elem_of_fmap. unfold joined_article.
destruct (first_where _ _) as [r'|] eqn:Hfirst.
- apply first_where_Some in Hfirst as [_ Heq%String.eqb_eq]. eexists. split; [done|]. done.
- rewrite first_where_None in Hfirst. specialize (Hfirst r Hin). simpl in Hfirst.
  by rewrite <- Hr, String.eqb_refl in Hfirst.
Qed.

Lemma joined_articles_owned (d : database) (mds : list ArticleMetadata) :
  (∀ md, md ∈ mds → md_uuid md ∈ rss_uuid <$> rss_feed_articles d) →
  uuid <$> omap (joined_article d) mds = md_uuid <$> mds.
Proof.
induction mds as [|md mds IH]; intros Hown; [done|]. csimpl.
destruct (joined_article_owned d md) as (a & -> & Ha); [apply Hown; left|].
csimpl. rewrite Ha, IH; [done|]. intros md' Hmd'. apply Hown. by right.
Qed.

End FetchFacts.

(** X26.  On a consistent store [fetch_articles_from_db] returns one
    article per metadata row, in metadata order and under the row's uuid;
    a positive [limit] keeps the first [limit] of them, and a [limit] of 0
    keeps them all, as no limit does. *)
Theorem fetch_articles_from_db_rows (d : DjangoConfig.database) (limit : option nat) :
  store_ok d →
  VectorDb.uuid <$> VectorDb.fetch_articles_from_db d limit
  = DjangoConfig.md_uuid <$>
    match limit with
    | Some (S n) => take (S n) (DjangoConfig.article_metadata d)
    | _ => DjangoConfig.article_metadata d
    end.
Proof.
intros (_ & _ & _ & Hown). unfold VectorDb.fetch_articles_from_db.
assert (VectorDb.uuid <$> omap (VectorDb.joined_article d) (DjangoConfig.article_metadata d)
        = DjangoConfig.md_uuid <$> DjangoConfig.article_metadata d) as Hall.
{ apply joined_articles_owned. intros md Hmd. apply Hown. by apply list_elem_of_fmap_2. }
destruct limit as [[|n]|]; [done| |done].
change (S n =? 0) with false. cbv iota. by rewrite !fmap_take, Hall.
Qed.

Lemma fetch_articles_from_db_rows_witness :
  VectorDb.uuid <$> VectorDb.fetch_articles_from_db sample_ingested (Some 1)
  = DjangoConfig.md_uuid <$> take 1 (DjangoConfig.article_metadata sample_ingested).
Proof.
apply (fetch_articles_from_db_rows sample_ingested (Some 1)).
apply store_ok_write; [|reflexivity].
repeat split; try apply NoDup_nil_2. intros u Hu. by apply elem_of_nil in Hu.
Defined.

(** ** chroma_db.py *)

Lemma slice_elem {A} (l : list A) (i j : nat) (x : A) : x ∈ Py.slice i j l → x ∈ l.
Proof.
unfold Py.slice. intros Hx.
eapply elem_of_sublist; [|apply sublist_drop].
eapply elem_of_sublist; [exact Hx | apply sublist_take].
Qed.

Section ChromaFacts.
Import DjangoConfig ChromaDb.

Lemma add_batches_elem (c : client) (name : string)
  (batches added : list (list chroma_article)) (batch : list chroma_article) :
  batch ∈ (add_batches c name batches added).2 → batch ∈ added ∨ batch ∈ batches.
Proof.
revert added. induction batches as [|b batches IH]; intros added; simpl; [by left|].
destruct (collection_add c name b); simpl.
- intros [[Hin|Hin%list_elem_of_singleton]%elem_of_app|Hin]%IH.
  + by left.
  + right. subst. left.
  + right. by right.
- intros [Hin|Hin%list_elem_of_singleton]%elem_of_app; [by left|]. right. subst. left.
Qed.

Lemma add_articles_to_chroma_elem (c : client) (articles : list chroma_article)
  (name : string) (batch_size : nat) (added : list (list chroma_article))
  (batch : list chroma_article) :
  batch ∈ (add_articles_to_chroma c articles name batch_size added).2 →
  batch ∈ added ∨
  (0 < length batch ≤ batch_size ∧ ∀ ca, ca ∈ batch → ca ∈ articles).
Proof.
unfold add_articles_to_chroma.
destruct (get_or_create_collection c name); [|by left].
destruct (Py.range (length articles) batch_size) as [starts|] eqn:Hrange; [|by left].
intros [Hin|Hin]%add_batches_elem; [by left|]. right.
apply list_elem_of_fmap in Hin as (i & -> & Hi).
unfold Py.range in Hrange. destruct (Nat.eqb_spec batch_size 0); [done|].
injection Hrange as <-. apply range_go_bounds in Hi. split.
- apply slice_length; lia.
- intros ca Hca. by eapply slice_elem.
Qed.

Lemma articles_to_add_elem (d : database) (batch : list RSSFeedArticle)
  (ca : chroma_article) :
  ca ∈ articles_to_add d batch →
  ca_content ca ≠ "" ∧
  ∃ article md, article ∈ batch ∧ md ∈ article_metadata d ∧
    md_uuid md = rss_uuid article ∧ ca_id ca = rss_uuid article ∧
    ca_content ca = md_content md.
Proof.
unfold articles_to_add. intros (article & Hin & Hsome)%list_elem_of_omap.
destruct (first_where _ _) as [md|] eqn:Hmd; [|done].
destruct (Py.truthy (md_content md)) eqn:Hcontent; [|done].
injection Hsome as <-. simpl. split; [by apply truthy_true|].
apply first_where_Some in Hmd as [Hmd Heq%String.eqb_eq]. by exists article, md.
Qed.

End ChromaFacts.

(** X27.  With a positive batch size [sync_articles_from_db_to_chroma]
    returns [True] whatever the Chroma client does, also when every call
    to it fails.  What it hands to [collection.add] are non-empty batches
    of at most [batch_size] documents, each the non-empty content of the
    metadata of a stored article, under that article's uuid. *)
Theorem sync_articles_from_db_to_chroma_reports (c : ChromaDb.client)
  (d : DjangoConfig.database) (collection_name : string) (batch_size : nat) :
  0 < batch_size →
  let r := ChromaDb.sync_articles_from_db_to_chroma c d collection_name batch_size in
  r.1 = true ∧
  ∀ batch, batch ∈ r.2 →
    0 < length batch ≤ batch_size ∧
    ∀ ca, ca ∈ batch →
      ChromaDb.ca_content ca ≠ "" ∧
      ∃ article md,
        article ∈ DjangoConfig.rss_feed_articles d ∧
        md ∈ DjangoConfig.article_metadata d ∧
        DjangoConfig.md_uuid md = DjangoConfig.rss_uuid article ∧
        ChromaDb.ca_id ca = DjangoConfig.rss_uuid article ∧
        ChromaDb.ca_content ca = DjangoConfig.md_content md.
Proof.
intros Hsize r. subst r. unfold ChromaDb.sync_articles_from_db_to_chroma.
destruct (DjangoConfig.rss_feed_articles d) as [|a0 articles0] eqn:Harticles.
{ split; [done|]. intros batch Hin. by apply elem_of_nil in Hin. }
rewrite <- Harticles. clear Harticles.
destruct (Py.range _ batch_size) as [starts|] eqn:Hrange.
2: { unfold Py.range in Hrange. destruct (Nat.eqb_spec batch_size 0); [lia|done]. }
split; [done|]. clear Hrange. cbn [snd].
set (good (batch : list ChromaDb.chroma_article) :=
  0 < length batch ≤ batch_size ∧
  ∀ ca, ca ∈ batch →
    ChromaDb.ca_content ca ≠ "" ∧
    ∃ article md,
      article ∈ DjangoConfig.rss_feed_articles d ∧
      md ∈ DjangoConfig.article_metadata d ∧
      DjangoConfig.md_uuid md = DjangoConfig.rss_uuid article ∧
      ChromaDb.ca_id ca = DjangoConfig.rss_uuid article ∧
      ChromaDb.ca_content ca = DjangoConfig.md_content md).
assert (∀ added, (∀ batch, batch ∈ added → good batch) →
  ∀ batch,
    batch ∈ foldl (λ added i,
                     match ChromaDb.articles_to_add d
                             (Py.slice i (i + batch_size) (DjangoConfig.rss_feed_articles d))
                     with
                     | [] => added
                     | (_ :: _) as to_add =>
                         (ChromaDb.add_articles_to_chroma c to_add collection_name
                            batch_size added).2
                     end) added starts → good batch) as Hloop.
{ induction starts as [|i starts IH]; intros added Hadded; [done|].
  cbn [foldl]. apply IH.
  destruct (ChromaDb.articles_to_add d _) as [|ca0 to_add] eqn:Hto; [done|].
  intros batch [Hin|[Hlen Hsub]]%add_articles_to_chroma_elem; [by apply Hadded|].
  split; [done|]. intros ca Hca. apply Hsub in Hca. rewrite <- Hto in Hca.
  apply articles_to_add_elem in Hca as (Hcontent & article & md & Hin & Hmd & H1 & H2 & H3).
  split; [done|]. exists article, md. split; [|done].
  by eapply slice_elem. }
apply Hloop. intros batch Hin. by apply elem_of_nil in Hin.
Qed.

Definition sample_failing_client : ChromaDb.client :=
{| ChromaDb.get_or_create_collection := λ _, true;
   ChromaDb.collection_add := λ _ _, false |}.

Lemma sync_articles_from_db_to_chroma_reports_witness :
  (ChromaDb.sync_articles_from_db_to_chroma sample_failing_client sample_ingested
     "rss_articles" 41).1 = true.
Proof.
apply (sync_articles_from_db_to_chroma_reports sample_failing_client sample_ingested
         "rss_articles" 41).
lia.
Defined.

(** ** embedding_funcs.py *)

Section EmbeddingFacts.
Import EmbeddingFuncs.
Context {Emb : Type}.

(** One request per document, a pause between two requests. *)
Definition paced_requests (documents : list string) : list event :=
match documents with
| [] => []
| document :: rest => Request document :: (rest ≫= λ d, [Sleep; Request d])
end.

(** The documents that were sent: all of them when embeddings are
    returned, and those up to the first one that failed otherwise. *)
Definition sent (embed_one : string → option Emb) (input : list string)
  (result : option (list Emb)) (documents : list string) : Prop :=
match result with
| Some embeddings =>
    documents = input ∧ Forall2 (λ d e, embed_one d = Some e) input embeddings
| None =>
    ∃ before document after,
      input = before ++ document :: after ∧ documents = before ++ [document] ∧
      Forall (λ d, is_Some (embed_one d)) before ∧ embed_one document = None
end.

Lemma embed_documents_later (embed_one : string → option Emb) (i : nat)
  (input : list string) :
  ∃ documents,
    (embed_documents embed_one (S i) input).2 = (documents ≫= λ d, [Sleep; Request d]) ∧
    sent embed_one input (embed_documents embed_one (S i) input).1 documents.
Proof.
revert i. induction input as [|document input IH]; intros i.
- exists []. split; [done|]. split; [done|constructor].
- cbn [embed_documents]. change (0 <? S i) with true. cbv iota.
  destruct (embed_one document) as [embedding|] eqn:Hdoc.
  + destruct (IH (S i)) as (documents & Hevents & Hsent).
    destruct (embed_documents embed_one (S (S i)) input) as [r events].
    simpl in Hevents, Hsent. subst events. exists (document :: documents).
    split; [done|]. destruct r as [embeddings|]; simpl.
    * destruct Hsent as [-> Hall]. split; [done|]. by constructor.
    * destruct Hsent as (before & doc & after & -> & -> & Hbefore & Hnone).
      exists (document :: before), doc, after. repeat split; try done.
      constructor; [by rewrite Hdoc|done].
  + exists [document]. split; [done|]. exists [], document, input. repeat split; try done.
Qed.

Lemma embed_documents_first (embed_one : string → option Emb) (input : list string) :
  ∃ documents,
    (embed_documents embed_one 0 input).2 = paced_requests documents ∧
    sent embed_one input (embed_documents embed_one 0 input).1 documents.
Proof.
destruct input as [|document input].
- exists []. split; [done|]. split; [done|constructor].
- cbn [embed_documents]. change (0 <? 0) with false. cbv iota.
  destruct (embed_one document) as [embedding|] eqn:Hdoc.
  + destruct (embed_documents_later embed_one 0 input) as (documents & Hevents & Hsent).
    destruct (embed_documents embed_one 1 input) as [r events].
    simpl in Hevents, Hsent. subst events. exists (document :: documents).
    split; [done|]. destruct r as [embeddings|]; simpl.
    * destruct Hsent as [-> Hall]. split; [done|]. by constructor.
    * destruct Hsent as (before & doc & after & -> & -> & Hbefore & Hnone).
      exists (document :: before), doc, after. repeat split; try done.
      constructor; [by rewrite Hdoc|done].
  + exists [document]. split; [done|]. exists [], document, input. repeat split; try done.
Qed.

End EmbeddingFacts.

(** X28.  Both embedding functions send the documents one by one, in
    order, pausing between two requests but not before the first.  When
    they return, there is one embedding per document, in order; when a
    request fails, the call raises, the failed document is the last one
    sent, and nothing is returned for the documents embedded before. *)
Theorem embedding_function_call_requests {Emb : Type} (embed_one : string → option Emb)
  (input : list string) :
  let r := EmbeddingFuncs.MistralCustomEmbeddingFunction_call embed_one input in
  EmbeddingFuncs.JinaCustomEmbeddingFunction_call embed_one input = r ∧
  ∃ documents,
    r.2 = paced_requests documents ∧
    match r.1 with
    | Some embeddings =>
        documents = input ∧ Forall2 (λ d e, embed_one d = Some e) input embeddings
    | None =>
        ∃ before document after,
          input = before ++ document :: after ∧ documents = before ++ [document] ∧
          Forall (λ d, is_Some (embed_one d)) before ∧ embed_one document = None
    end.
Proof.
intros r. split; [done|]. apply embed_documents_first.
Qed.

(** ** gnews_rss.py: the search URL *)

Section StripFacts.

Fixpoint repeat_char (c : ascii) (n : nat) : string :=
match n with
| O => ""
| S n' => String c (repeat_char c n')
end.

Lemma rev_app_append (a acc : string) : String.rev_app a acc = String.rev a +:+ acc.
Proof.
pose proof (rev_app_rev_app (String.rev a) "" acc) as H.
change (String.rev_app (String.rev a) "") with (String.rev (String.rev a)) in H.
rewrite rev_rev in H. simpl in H. exact H.
Qed.

Lemma rev_app_app (a b acc : string) :
  String.rev_app (a +:+ b) acc = String.rev_app b (String.rev_app a acc).
Proof.
revert acc. induction a as [|x a IH]; intros acc; [done|].
rewrite append_cons. cbn [String.rev_app]. apply IH.
Qed.

Lemma rev_append (a b : string) : String.rev (a +:+ b) = String.rev b +:+ String.rev a.
Proof. unfold String.rev at 1. rewrite rev_app_app. apply rev_app_append. Qed.

Lemma rev_repeat_char (c : ascii) (n : nat) :
  String.rev (repeat_char c n) = repeat_char c n.
Proof.
induction n as [|n IH]; [done|].
change (repeat_char c (S n)) with (String c "" +:+ repeat_char c n) at 1.
rewrite rev_append, IH. clear IH.
induction n as [|n IH]; [done|]. simpl. rewrite append_cons. f_equal. exact IH.
Qed.

Lemma lstrip_char_spec (c : ascii) (s : string) :
  (∃ n, s = repeat_char c n +:+ Py.lstrip_char c s) ∧
  ∀ rest, Py.lstrip_char c s ≠ String c rest.
Proof.
induction s as [|x s [[n Hn] Hhead]]; simpl.
- split; [by exists 0|done].
- destruct (bool_decide_reflect (x = c)) as [->|Hx].
  + split; [|done]. exists (S n). simpl. rewrite append_cons. by f_equal.
  + split; [by exists 0|]. intros rest [= ? ?]. done.
Qed.

Lemma rstrip_char_spec (c : ascii) (s : string) :
  (∃ n, s = Py.rstrip_char c s +:+ repeat_char c n) ∧
  ∀ before, Py.rstrip_char c s ≠ before +:+ String c "".
Proof.
unfold Py.rstrip_char.
destruct (lstrip_char_spec c (String.rev s)) as [[n Hn] Hhead]. split.
- exists n. apply (f_equal String.rev) in Hn.
  by rewrite rev_rev, rev_append, rev_repeat_char in Hn.
- intros before Heq. apply (f_equal String.rev) in Heq.
  rewrite rev_rev, rev_append in Heq. by apply Hhead in Heq.
Qed.

End StripFacts.

(** X29.  [build_gnews_rss_url] returns the search address followed by a
    "key=value&" for every keyword argument, with the ampersands at the
    end removed: the result never ends with "&" and differs from that
    string by trailing ampersands only. *)
Theorem build_gnews_rss_url_no_trailing_ampersand (kwargs : list (string * string)) :
  (∃ n,
     foldl (λ url (kv : string * string), url +:+ kv.1 +:+ "=" +:+ kv.2 +:+ "&")
       "https://news.google.com/rss/search?" kwargs
     = GnewsRss.build_gnews_rss_url kwargs +:+ repeat_char "&" n) ∧
  ∀ before, GnewsRss.build_gnews_rss_url kwargs ≠ before +:+ "&".
Proof. unfold GnewsRss.build_gnews_rss_url. apply rstrip_char_spec. Qed.

(** ** From ingestion to the vector sync *)

Section IngestFetchFacts.
Import DjangoConfig VectorDb.

Lemma first_where_app_found {A} (p : A → bool) (rows more : list A) (r : A) :
  first_where p rows = Some r → first_where p (rows ++ more) = Some r.
Proof.
unfold first_where. induction rows as [|r' rows IH]; simpl; [done|].
destruct (p r'); [done|]. exact IH.
Qed.

(** A new article row does not change what the stored metadata rows are
    joined with. *)
Lemma joined_articles_app (d d' : database) (row : RSSFeedArticle)
  (mds : list ArticleMetadata) :
  rss_feed_articles d' = rss_feed_articles d ++ [row] →
  (∀ md, md ∈ mds → md_uuid md ∈ rss_uuid <$> rss_feed_articles d) →
  omap (joined_article d') mds = omap (joined_article d) mds.
Proof.
intros Hrows. induction mds as [|md mds IH]; intros Hown; [done|]. csimpl.
rewrite IH by (intros md' Hmd'; apply Hown; by right).
assert (joined_article d' md = joined_article d md) as ->; [|done].
unfold joined_article. rewrite Hrows.
destruct (first_where _ (rss_feed_articles d)) as [r|] eqn:Hfirst.
- by rewrite (first_where_app_found _ _ _ _ Hfirst).
- rewrite first_where_None in Hfirst.
  assert (md_uuid md ∈ rss_uuid <$> rss_feed_articles d)
    as (r & Hr & Hin)%list_elem_of_fmap by (apply Hown; left).
  specialize (Hfirst r Hin). simpl in Hfirst. by rewrite <- Hr, String.eqb_refl in Hfirst.
Qed.

End IngestFetchFacts.

(** X30.  What [write_article_to_db] stores is what
    [fetch_articles_from_db] hands to the vector sync: after a successful
    write into a consistent store, the articles fetched are the ones
    fetched before followed by the new article, under its uuid and link
    and with its title and content. *)
Theorem write_then_fetch_articles (l : ArticleProcesser.lib) (fresh : string)
  (d : DjangoConfig.database) (a : ArticleProcesser.article) :
  store_ok d →
  let r := ArticleProcesser.write_article_to_db l fresh d a in
  ArticleProcesser.wr_ok r = true →
  ∃ fetched,
    VectorDb.fetch_articles_from_db (ArticleProcesser.wr_db r) None
    = VectorDb.fetch_articles_from_db d None ++ [fetched] ∧
    VectorDb.uuid fetched = ArticleProcesser.uuid_of fresh a ∧
    VectorDb.url fetched = ArticleProcesser.a_link a ∧
    ArticleProcesser.a_title a = Some (VectorDb.title fetched) ∧
    ArticleProcesser.a_content a = Some (VectorDb.content fetched).
Proof.
intros (_ & _ & _ & Hown) r Hok. subst r.
destruct (write_article_to_db_ok l fresh d a Hok)
  as (Hurl & Huuid & row & m & Hrss & Hrow_url & Hrow_uuid & Hmd & Hm & Hm_url & Htitle
      & Hcontent & _).
unfold VectorDb.fetch_articles_from_db. rewrite Hmd, omap_app.
rewrite (joined_articles_app d _ row _ Hrss)
  by (intros md Hmd'; apply Hown; by apply list_elem_of_fmap_2).
csimpl. unfold VectorDb.joined_article at 2. rewrite Hrss.
erewrite first_where_app_new.
- eexists. split; [reflexivity|]. simpl. rewrite Hm_url, Hrow_url.
  split; [done|]. split; [by destruct (Py.truthy _)|done].
- apply first_where_None. intros r' Hr'. apply String.eqb_neq. intros Heq.
  apply Huuid. rewrite <- Hm, <- Heq. by apply list_elem_of_fmap_2.
- rewrite Hm, Hrow_uuid. apply String.eqb_refl.
Qed.

Lemma write_then_fetch_articles_witness :
  ∃ fetched,
    VectorDb.fetch_articles_from_db sample_ingested None
    = VectorDb.fetch_articles_from_db DjangoConfig.empty_database None ++ [fetched] ∧
    VectorDb.uuid fetched = "3f2c9a" ∧
    VectorDb.url fetched = "https://example.org/a" ∧
    Some "A title" = Some (VectorDb.title fetched) ∧
    Some sample_text = Some (VectorDb.content fetched).
Proof.
apply (write_then_fetch_articles sample_lib "" DjangoConfig.empty_database
         (sample_article "3f2c9a")).
- repeat split; try apply NoDup_nil_2. intros u Hu. by apply elem_of_nil in Hu.
- reflexivity.
Defined.
